(** * Email_Bot: the lead-tracking pipeline of [get_emails.py]

    A shallow embedding of the ingestion-and-merge pipeline: the pickled
    deduplication sets ([FileManager]), the calendar scheduler
    ([CalendarManager]), the three-sheet report ([ExcelReportGenerator]) and
    the orchestration ([LeadTracker], [run_continuously]).

    Conventions.
    - A Python [str] is a [string]: the sequence of bytes of its UTF-8
      encoding, so [s.encode()] is the identity.  Case mapping is the
      ASCII one (addresses are ASCII); slicing counts characters, a
      character being a byte that is not a continuation byte together with
      the continuation bytes after it.
    - Code that can raise returns a [result]; code with side effects runs in
      the state-and-exception monad [M] over the [State] of the process, its
      disk and the trace of calls made to the outside world.
    - The outside world (mail provider, classifier, calendar, drive) is a
      record of responses, [World]. *)

From Stdlib Require Import String Ascii List ZArith Lia Bool.
From stdpp Require Import base decidable option list gmap strings.

Import ListNotations.
Local Open Scope string_scope.
Local Open Scope list_scope.

(** ** Python strings *)

Module Py.

(** One character of [str.lower()]. *)
Definition lower_char (c : ascii) : ascii :=
  let n := nat_of_ascii c in
  if (65 <=? n)%nat && (n <=? 90)%nat then ascii_of_nat (n + 32) else c.

Definition upper_char (c : ascii) : ascii :=
  let n := nat_of_ascii c in
  if (97 <=? n)%nat && (n <=? 122)%nat then ascii_of_nat (n - 32) else c.

Definition is_cased (c : ascii) : bool :=
  let n := nat_of_ascii c in
  ((65 <=? n)%nat && (n <=? 90)%nat) || ((97 <=? n)%nat && (n <=? 122)%nat).

(** [s.lower()] *)
Fixpoint lower (s : string) : string :=
  match s with
  | EmptyString => EmptyString
  | String c s' => String (lower_char c) (lower s')
  end.

(** [s.title()]: a cased character is put in upper case when the character
    before it is not cased, and in lower case otherwise. *)
Fixpoint title_from (prev_cased : bool) (s : string) : string :=
  match s with
  | EmptyString => EmptyString
  | String c s' =>
      String (if prev_cased then lower_char c else upper_char c)
             (title_from (is_cased c) s')
  end.

Definition title (s : string) : string := title_from false s.

(** [s.split(sep)] for a one-character separator: never the empty list. *)
Fixpoint split (sep : ascii) (s : string) : list string :=
  match s with
  | EmptyString => [EmptyString]
  | String c s' =>
      if Ascii.eqb c sep then EmptyString :: split sep s'
      else match split sep s' with
           | [] => [String c EmptyString]
           | w :: ws => String c w :: ws
           end
  end.

(** A continuation byte of UTF-8: [10xxxxxx]. *)
Definition is_continuation (c : ascii) : bool :=
  match c with
  | Ascii _ _ _ _ _ _ false true => true
  | _ => false
  end.

(** [s[:n]]: the first [n] characters, each with its continuation bytes. *)
Fixpoint take (n : nat) (s : string) {struct s} : string :=
  match s with
  | EmptyString => EmptyString
  | String c s' =>
      if is_continuation c then String c (take n s')
      else match n with
           | O => EmptyString
           | S n' => String c (take n' s')
           end
  end.

(** [sep.join(parts)] *)
Fixpoint join (sep : string) (parts : list string) : string :=
  match parts with
  | [] => EmptyString
  | [p] => p
  | p :: ps => p ++ sep ++ join sep ps
  end.

(** [a > b] on strings: lexicographic on the character codes. *)
Fixpoint gt (a b : string) : bool :=
  match a, b with
  | EmptyString, _ => false
  | String _ _, EmptyString => true
  | String x a', String y b' =>
      let nx := nat_of_ascii x in
      let ny := nat_of_ascii y in
      if (ny <? nx)%nat then true
      else if (nx <? ny)%nat then false
      else gt a' b'
  end.

(** Truth value of a string: [if s:]. *)
Definition truthy (s : string) : bool :=
  match s with EmptyString => false | _ => true end.

(** How [f"{x}"] prints an optional value. *)
Definition fmt (o : option string) : string :=
  match o with Some s => s | None => "None" end.

Definition newline : ascii := ascii_of_nat 10.
Definition nl : string := String newline EmptyString.

End Py.

(** ** hashlib.md5 (RFC 1321), on 32-bit words held in [Z] *)

Module MD5.
Local Open Scope Z_scope.

Definition w32 (x : Z) : Z := x mod 2 ^ 32.
Definition add32 (a b : Z) : Z := w32 (a + b).
Definition not32 (a : Z) : Z := Z.lxor a 0xffffffff.
Definition rotl32 (x n : Z) : Z :=
  Z.lor (w32 (Z.shiftl x n)) (Z.shiftr x (32 - n)).

Definition K : list Z :=
  [ 0xd76aa478; 0xe8c7b756; 0x242070db; 0xc1bdceee;
    0xf57c0faf; 0x4787c62a; 0xa8304613; 0xfd469501;
    0x698098d8; 0x8b44f7af; 0xffff5bb1; 0x895cd7be;
    0x6b901122; 0xfd987193; 0xa679438e; 0x49b40821;
    0xf61e2562; 0xc040b340; 0x265e5a51; 0xe9b6c7aa;
    0xd62f105d; 0x02441453; 0xd8a1e681; 0xe7d3fbc8;
    0x21e1cde6; 0xc33707d6; 0xf4d50d87; 0x455a14ed;
    0xa9e3e905; 0xfcefa3f8; 0x676f02d9; 0x8d2a4c8a;
    0xfffa3942; 0x8771f681; 0x6d9d6122; 0xfde5380c;
    0xa4beea44; 0x4bdecfa9; 0xf6bb4b60; 0xbebfbc70;
    0x289b7ec6; 0xeaa127fa; 0xd4ef3085; 0x04881d05;
    0xd9d4d039; 0xe6db99e5; 0x1fa27cf8; 0xc4ac5665;
    0xf4292244; 0x432aff97; 0xab9423a7; 0xfc93a039;
    0x655b59c3; 0x8f0ccc92; 0xffeff47d; 0x85845dd1;
    0x6fa87e4f; 0xfe2ce6e0; 0xa3014314; 0x4e0811a1;
    0xf7537e82; 0xbd3af235; 0x2ad7d2bb; 0xeb86d391 ].

Definition shifts : list Z :=
  [ 7; 12; 17; 22; 7; 12; 17; 22; 7; 12; 17; 22; 7; 12; 17; 22;
    5; 9; 14; 20; 5; 9; 14; 20; 5; 9; 14; 20; 5; 9; 14; 20;
    4; 11; 16; 23; 4; 11; 16; 23; 4; 11; 16; 23; 4; 11; 16; 23;
    6; 10; 15; 21; 6; 10; 15; 21; 6; 10; 15; 21; 6; 10; 15; 21 ].

Definition bytes_of_string (s : string) : list Z :=
  map (fun c => Z.of_nat (nat_of_ascii c)) (list_ascii_of_string s).

(** [n] as [k] little-endian bytes. *)
Fixpoint le_bytes (k : nat) (n : Z) : list Z :=
  match k with
  | O => []
  | S k' => (n mod 256) :: le_bytes k' (n / 256)
  end.

(** Padding: 0x80, zeros up to 56 modulo 64, the bit length on 8 bytes. *)
Definition pad (msg : list Z) : list Z :=
  let len := Z.of_nat (List.length msg) in
  let zeros := Z.to_nat ((55 - len) mod 64) in
  msg ++ [0x80] ++ repeat 0 zeros ++ le_bytes 8 ((8 * len) mod 2 ^ 64).

Fixpoint words (n : nat) (bs : list Z) : list Z :=
  match n, bs with
  | S n', b0 :: b1 :: b2 :: b3 :: rest =>
      (b0 + 256 * b1 + 65536 * b2 + 16777216 * b3) :: words n' rest
  | _, _ => []
  end.

Record digest_state := mk_state { sA : Z; sB : Z; sC : Z; sD : Z }.

Definition init : digest_state :=
  mk_state 0x67452301 0xefcdab89 0x98badcfe 0x10325476.

Definition round (M : list Z) (st : digest_state) (i : nat) : digest_state :=
  let '(mk_state a b c d) := st in
  let zi := Z.of_nat i in
  let '(f, g) :=
    if zi <? 16 then (Z.lor (Z.land b c) (Z.land (not32 b) d), zi)
    else if zi <? 32 then
      (Z.lor (Z.land d b) (Z.land (not32 d) c), (5 * zi + 1) mod 16)
    else if zi <? 48 then (Z.lxor b (Z.lxor c d), (3 * zi + 5) mod 16)
    else (Z.lxor c (Z.lor b (not32 d)), (7 * zi) mod 16) in
  let f' := add32 (add32 (add32 f a) (nth i K 0)) (nth (Z.to_nat g) M 0) in
  mk_state d (add32 b (rotl32 f' (nth i shifts 0))) b c.

Definition block (st : digest_state) (M : list Z) : digest_state :=
  let '(mk_state a b c d) := fold_left (round M) (seq 0 64) st in
  mk_state (add32 (sA st) a) (add32 (sB st) b)
           (add32 (sC st) c) (add32 (sD st) d).

Fixpoint blocks (fuel : nat) (bs : list Z) (st : digest_state) : digest_state :=
  match fuel with
  | O => st
  | S fuel' =>
      match bs with
      | [] => st
      | _ => blocks fuel' (skipn 64 bs) (block st (words 16 (firstn 64 bs)))
      end
  end.

Definition hex_digit (n : Z) : ascii :=
  nth (Z.to_nat n) (list_ascii_of_string "0123456789abcdef") "0"%char.

Definition hex_byte (b : Z) : string :=
  String (hex_digit (b / 16)) (String (hex_digit (b mod 16)) EmptyString).

Definition hex (bs : list Z) : string :=
  fold_right (fun b acc => hex_byte b ++ acc)%string EmptyString bs.

(** [hashlib.md5(s.encode()).hexdigest()] *)
Definition hexdigest (s : string) : string :=
  let bs := pad (bytes_of_string s) in
  let '(mk_state a b c d) := blocks (S (List.length bs)) bs init in
  hex (le_bytes 4 a ++ le_bytes 4 b ++ le_bytes 4 c ++ le_bytes 4 d).

End MD5.

Arguments MD5.hexdigest : simpl never.

(** ** Exceptions and results *)

Inductive exn : Type :=
| AttributeError
| IndexError
| KeyError
| ValueError
| RequestException.

Inductive result (A : Type) : Type :=
| Ok (a : A)
| Raise (e : exn).

Arguments Ok {A} a.
Arguments Raise {A} e.

Definition is_ok {A} (r : result A) : bool :=
  match r with Ok _ => true | Raise _ => false end.

(** ** Data models *)

(** The JSON object the classifier answers with.  A member that is absent
    is [None]; [is_lead] and [has_meeting] hold the truth value of theirs. *)
Module ParsedData.
Record t : Type := mk {
  is_lead : bool;
  lead_status : option string;
  has_meeting : bool;
  subject : option string;
  date : option string;
  start_time : option string;
  meeting_type : option string;
  action_items : option string;
  deadline : option string
}.
End ParsedData.

(** One element of the provider's message list; [None] is an absent member. *)
Module GraphMessage.
Record t : Type := mk {
  id : string;
  from_name : option string;
  from_address : option string;
  subject : option string;
  receivedDateTime : option string;
  body_content : option string
}.
End GraphMessage.

Module EmailData.
Record t : Type := mk {
  id : string;
  sender_name : string;
  sender_email : string;
  subject : string;
  received : string;
  body_preview : string;
  is_lead : bool;
  parsed_data : option ParsedData.t;
  calendar_event_id : option string
}.
End EmailData.

Module OpportunityData.
Record t : Type := mk {
  id : string;
  contact_name : string;
  company : string;
  email : string;
  phone : string;
  opportunity_title : string;
  lead_status : string;
  notes : string;
  last_contacted : string;
  folder_link : option string
}.
End OpportunityData.

(** The body of [POST /me/events]. *)
Record EventPayload : Type := {
  payload_subject : string;
  start_dateTime : string;
  end_dateTime : string;
  timeZone : string;
  attendee_address : string;
  attendee_name : string
}.

(** What [requests.post] gives back for an event: the call itself raises, or
    a response comes.  [json_id] is the [id] member of the body, which the
    code reads only on status 201. *)
Inductive http_response : Type :=
| TransportError
| Response (status_code : Z) (json_id : string).

(** The report: one row is the list of its cell values, an empty cell is
    [None]; a sheet is the list of its rows, header first. *)
Abbreviation Row := (list (option string)) (only parsing).
Abbreviation Worksheet := (list (list (option string))) (only parsing).

Record Workbook : Type := {
  opportunities_master : option Worksheet;
  interaction_log : option Worksheet;
  all_emails_log : option Worksheet
}.

(** ** The outside world and the process state *)

(** Library functions whose result the pipeline only passes on or reads
    back. *)
Record Library : Type := {
  (** [(datetime.strptime(s, "%Y-%m-%dT%H:%M:%S") + timedelta(hours=1))
      .strftime("%Y-%m-%dT%H:%M:%S")], [None] when the computation raises *)
  strptime_plus_hour : string -> option string;
  (** [pickle.dump] of a set, as the bytes written *)
  pickle_dumps : gset string -> list Byte.byte;
  (** [pickle.load], [None] when it raises *)
  pickle_loads : list Byte.byte -> option (gset string);
  (** [openpyxl]: the value of a cell that was saved holding a text that is
      not empty, when the workbook is loaded again ([None]: an empty cell).
      The file format and the XML library at hand decide what comes back,
      for a carriage return for instance. *)
  xlsx_text : string -> option string
}.

Record World : Type := {
  (** [GET /me/messages?$top=25&$orderby=receivedDateTime desc] *)
  graph_messages : result (list GraphMessage.t);
  (** the classifier's answer for a subject and a (truncated) body,
      [None] when the answer does not parse *)
  gemini_json : string -> string -> option ParsedData.t;
  (** the summarizer's answer for a history *)
  gemini_summary : string -> string;
  (** the answer to the n-th [POST /me/events] of the run *)
  calendar_post : nat -> EventPayload -> http_response;
  (** the [webUrl] answered to the n-th folder creation, [None] on failure *)
  drive_post : nat -> string -> option string
}.

Inductive Event : Type :=
| EvGetMessages
| EvClassify (subject body : string)
| EvSummarize (history : string)
| EvCalendarPost (payload : EventPayload) (answer : http_response)
| EvCreateFolder (folder_name : string) (answer : option string)
| EvSavePickle (filename : string) (data : gset string)
| EvSaveWorkbook (wb : Workbook).

Record State : Type := {
  (** [LeadTracker.processed_emails] *)
  processed_emails : gset string;
  (** [CalendarManager.processed_events] *)
  processed_events : gset string;
  (** the pickle files on disk *)
  disk : gmap string (list Byte.byte);
  (** [Opportunities.xlsx], [None] when the file does not exist *)
  report : option Workbook;
  (** calls made to the outside world and files written, oldest first *)
  trace : list Event
}.

Definition set_processed_emails (s : gset string) (st : State) : State :=
  {| processed_emails := s; processed_events := processed_events st;
     disk := disk st; report := report st; trace := trace st |}.

Definition set_processed_events (s : gset string) (st : State) : State :=
  {| processed_emails := processed_emails st; processed_events := s;
     disk := disk st; report := report st; trace := trace st |}.

Definition set_disk (d : gmap string (list Byte.byte)) (st : State) : State :=
  {| processed_emails := processed_emails st;
     processed_events := processed_events st;
     disk := d; report := report st; trace := trace st |}.

Definition set_report (r : option Workbook) (st : State) : State :=
  {| processed_emails := processed_emails st;
     processed_events := processed_events st;
     disk := disk st; report := r; trace := trace st |}.

Definition log_event (e : Event) (st : State) : State :=
  {| processed_emails := processed_emails st;
     processed_events := processed_events st;
     disk := disk st; report := report st; trace := trace st ++ [e] |}.

(** ** The monad of the process: state, and exceptions that keep the state *)

Definition M (A : Type) : Type := State -> result A * State.

Definition ret {A} (a : A) : M A := fun st => (Ok a, st).

Definition raise {A} (e : exn) : M A := fun st => (Raise e, st).

Definition bind {A B} (c : M A) (k : A -> M B) : M B :=
  fun st =>
    match c st with
    | (Ok a, st') => k a st'
    | (Raise e, st') => (Raise e, st')
    end.

Definition lift {A} (r : result A) : M A := fun st => (r, st).

Definition get_state : M State := fun st => (Ok st, st).

Definition modify (f : State -> State) : M unit := fun st => (Ok tt, f st).

Definition emit (e : Event) : M unit := modify (log_event e).

Declare Scope pipeline_scope.
Delimit Scope pipeline_scope with pipeline.
Notation "x <- c ;; k" := (bind c (fun x => k))
  (at level 100, c at next level, right associativity) : pipeline_scope.
Notation "c ;;; k" := (bind c (fun _ => k))
  (at level 100, right associativity) : pipeline_scope.
Local Open Scope pipeline_scope.

(** Number of events of the trace that satisfy [p]. *)
Definition count_events (p : Event -> bool) (t : list Event) : nat :=
  List.length (List.filter p t).

Definition is_calendar_post (e : Event) : bool :=
  match e with EvCalendarPost _ _ => true | _ => false end.

Definition is_created_post (e : Event) : bool :=
  match e with
  | EvCalendarPost _ (Response code _) => (code =? 201)%Z
  | _ => false
  end.

Definition is_create_folder (e : Event) : bool :=
  match e with EvCreateFolder _ _ => true | _ => false end.

Definition is_summarize (e : Event) : bool :=
  match e with EvSummarize _ => true | _ => false end.

Definition is_save_workbook (e : Event) : bool :=
  match e with EvSaveWorkbook _ => true | _ => false end.

Definition is_save_pickle (filename : string) (e : Event) : bool :=
  match e with
  | EvSavePickle f _ => String.eqb f filename
  | _ => false
  end.

Definition opt_default (d : string) (o : option string) : string :=
  match o with Some s => s | None => d end.

(** Truth value of [d.get(key)]: absent and empty are both false. *)
Definition opt_truthy (o : option string) : bool :=
  match o with Some s => Py.truthy s | None => false end.

(** Where a write of a pickle file can be cut short. *)
Inductive crash_point : Type :=
| CrashBeforeOpen
| CrashAfterWriting (n : nat).

Section Pipeline.

Context (lib : Library) (w : World).

(** *** FileManager *)

(** [load_pickle]: a missing file, or one that does not unpickle, gives the
    empty set. *)
Definition read_pickle (d : gmap string (list Byte.byte)) (filename : string)
  : gset string :=
  match d !! filename with
  | Some bytes =>
      match pickle_loads lib bytes with
      | Some data => data
      | None => ∅
      end
  | None => ∅
  end.

Definition load_pickle (filename : string) : M (gset string) :=
  st <- get_state ;; ret (read_pickle (disk st) filename).

(** [open(filename, 'wb')] empties the file, [pickle.dump] then writes the
    bytes into it front to back. *)
Definition write_pickle (data : gset string) (filename : string)
           (d : gmap string (list Byte.byte)) : gmap string (list Byte.byte) :=
  <[filename := pickle_dumps lib data]> (<[filename := []]> d).

Definition save_pickle (data : gset string) (filename : string) : M unit :=
  modify (fun st => set_disk (write_pickle data filename (disk st)) st) ;;;
  emit (EvSavePickle filename data).

(** The disk a [save_pickle] leaves behind when the process dies before
    the file is opened, or after [n] bytes have reached the file. *)
Definition disk_at_crash (cp : crash_point) (data : gset string)
           (filename : string) (d : gmap string (list Byte.byte))
  : gmap string (list Byte.byte) :=
  match cp with
  | CrashBeforeOpen => d
  | CrashAfterWriting n =>
      <[filename := take n (pickle_dumps lib data)]> (<[filename := []]> d)
  end.

(** *** GeminiParser *)

(** [parse_email]: the body goes into the prompt cut to 1500 characters. *)
Definition parse_email (email_body email_subject : string)
  : M (option ParsedData.t) :=
  let body := Py.take 1500 email_body in
  emit (EvClassify email_subject body) ;;;
  ret (gemini_json w email_subject body).

Definition summarize_interactions (interaction_history : string) : M string :=
  emit (EvSummarize interaction_history) ;;;
  ret (gemini_summary w interaction_history).

(** *** SharePointManager *)

(** [create_folder_for_lead]: the [webUrl] of the new folder, [None] when
    the request fails. *)
Definition create_folder_for_lead (opportunity_id : string)
  : M (option string) :=
  let folder_name := ("Lead-" ++ opportunity_id)%string in
  st <- get_state ;;
  let answer :=
    drive_post w (count_events is_create_folder (trace st)) folder_name in
  emit (EvCreateFolder folder_name answer) ;;;
  ret answer.

(** *** CalendarManager *)

Definition _generate_event_fingerprint (parsed : ParsedData.t)
           (email : string) : string :=
  let data :=
    Py.lower (opt_default "" (ParsedData.subject parsed) ++ "|"
              ++ opt_default "" (ParsedData.date parsed) ++ "|"
              ++ opt_default "" (ParsedData.start_time parsed) ++ "|"
              ++ email)%string in
  MD5.hexdigest data.

Definition _build_event_payload (parsed : ParsedData.t) (email name : string)
  : result EventPayload :=
  match ParsedData.date parsed with
  | None => Raise KeyError
  | Some d =>
      match ParsedData.start_time parsed with
      | None => Raise KeyError
      | Some t =>
          let start_dt_str := (d ++ "T" ++ t ++ ":00")%string in
          match strptime_plus_hour lib start_dt_str with
          | None => Raise ValueError
          | Some end_dt_str =>
              Ok {| payload_subject :=
                      opt_default "Meeting" (ParsedData.subject parsed);
                    start_dateTime := start_dt_str;
                    end_dateTime := end_dt_str;
                    timeZone := "Asia/Kolkata";
                    attendee_address := email;
                    attendee_name := name |}
          end
      end
  end.

(** The guard at the head of [create_event]. *)
Definition has_schedule (parsed : option ParsedData.t) : bool :=
  match parsed with
  | None => false
  | Some p =>
      ParsedData.has_meeting p
      && opt_truthy (ParsedData.date p)
      && opt_truthy (ParsedData.start_time p)
  end.

(** [create_event]: [None] when there is nothing to schedule or the request
    is refused, the mark ["duplicate_skipped"] for a known fingerprint, the
    event id after a 201.  What [_build_event_payload] and [requests.post]
    raise is not caught here. *)
Definition create_event (parsed : option ParsedData.t)
           (sender_email sender_name : string) : M (option string) :=
  match parsed with
  | None => ret None
  | Some p =>
      if negb (has_schedule parsed) then ret None
      else
        let fingerprint := _generate_event_fingerprint p sender_email in
        st <- get_state ;;
        if bool_decide (fingerprint ∈ processed_events st)
        then ret (Some "duplicate_skipped")
        else
          event_payload <- lift (_build_event_payload p sender_email sender_name) ;;
          let response :=
            calendar_post w (count_events is_calendar_post (trace st))
                          event_payload in
          emit (EvCalendarPost event_payload response) ;;;
          match response with
          | TransportError => raise RequestException
          | Response status_code event_id =>
              if (status_code =? 201)%Z then
                modify (fun st' =>
                  set_processed_events
                    ({[fingerprint]} ∪ processed_events st') st') ;;;
                st' <- get_state ;;
                save_pickle (processed_events st') "processed_events.pkl" ;;;
                ret (Some event_id)
              else ret None
          end
  end.

(** *** ExcelReportGenerator: the worksheet *)

(** [ws.max_row] and [ws.max_column]: 1 on a sheet without cells. *)
Definition max_row (ws : Worksheet) : nat := Nat.max 1 (length ws).

Definition max_column (ws : Worksheet) : nat :=
  Nat.max 1 (foldr (fun r acc => Nat.max (length r) acc) 0 ws).

(** [ws.cell(row=row, column=column).value], rows and columns from 1. *)
Definition cell_value (ws : Worksheet) (row column : nat) : option string :=
  match row, column with
  | S i, S j =>
      match ws !! i with
      | Some r => match r !! j with Some v => v | None => None end
      | None => None
      end
  | _, _ => None
  end.

Definition set_in_row (r : Row) (column : nat) (v : option string) : Row :=
  match column with
  | O => r
  | S j => <[j := v]> (r ++ replicate (S j - length r) None)
  end.

(** [ws.cell(row=row, column=column).value = v] *)
Definition set_cell (ws : Worksheet) (row column : nat) (v : option string)
  : Worksheet :=
  match row with
  | O => ws
  | S i =>
      let ws' := ws ++ replicate (S i - length ws) [] in
      match ws' !! i with
      | Some r => <[i := set_in_row r column v]> ws'
      | None => ws'
      end
  end.

(** What a cell does with a text it is given ([Cell.check_string]): the
    text is cut to 32767 characters, and a control character other than
    tab, line feed and carriage return in what is left raises
    [IllegalCharacterError].  No code reads a cell between the assignment
    and the save, so the sheet in memory is written here with the text as
    it was given, and the cut is made in [saved_cell]. *)
Definition illegal_character (c : ascii) : bool :=
  let n := nat_of_ascii c in
  ((n <=? 8) || ((11 <=? n) && (n <=? 12)) || ((14 <=? n) && (n <=? 31)))%nat.

Definition cell_text (value : string) : string :=
  Py.take (2 ^ 15 - 1)%nat value.

Definition accepted (value : string) : bool :=
  negb (existsb illegal_character (list_ascii_of_string (cell_text value))).

(** [ws.append(row_data)]: the row after the last one.  This is the sheet
    when every text of the row is accepted; a text that is not makes the
    call raise, see [update_report]. *)
Definition ws_append (ws : Worksheet) (row_data : list string) : Worksheet :=
  ws ++ [map Some row_data].

(** What [wb.save] and a later [load_workbook] make of a cell: a cell that
    holds the empty text is written without a value and comes back
    empty. *)
Definition saved_cell (c : option string) : option string :=
  match c with
  | Some value =>
      let text := cell_text value in
      if Py.truthy text then xlsx_text lib text else None
  | None => None
  end.

Definition saved_sheet (ws : Worksheet) : Worksheet :=
  map (map saved_cell) ws.

(** A dict built by successive assignments: the last one for a key wins. *)
Definition dict_of_assignments {K V} `{EqDecision K}
           (kvs : list (K * V)) (k : K) : option V :=
  fold_left (fun acc kv => if decide (kv.1 = k) then Some kv.2 else acc)
            kvs None.

(** [{ws.cell(row=i, column=1).value: i for i in range(2, ws.max_row + 1)}] *)
Definition existing_opps (ws : Worksheet) : list (option string * nat) :=
  map (fun i => (cell_value ws i 1, i)) (seq 2 (max_row ws - 1)).

Definition dquote : string := String (ascii_of_nat 34) EmptyString.

Definition new_row_data (opp_data : OpportunityData.t) : list string :=
  [ OpportunityData.id opp_data;
    OpportunityData.contact_name opp_data;
    OpportunityData.company opp_data;
    OpportunityData.email opp_data;
    OpportunityData.phone opp_data;
    OpportunityData.opportunity_title opp_data;
    OpportunityData.lead_status opp_data;
    OpportunityData.last_contacted opp_data;
    ("=HYPERLINK(" ++ dquote ++ Py.fmt (OpportunityData.folder_link opp_data)
       ++ dquote ++ ", " ++ dquote ++ "Open Folder" ++ dquote ++ ")")%string;
    OpportunityData.notes opp_data ].

(** One turn of the loop of [_update_opportunities_sheet]: the sheet when
    every text it assigns is accepted. *)
Definition upsert_opportunity (existing : list (option string * nat))
           (ws : Worksheet) (item : string * OpportunityData.t) : Worksheet :=
  let '(opp_id, opp_data) := item in
  match dict_of_assignments existing (Some opp_id) with
  | Some row_num =>
      let ws1 := set_cell ws row_num 7
                   (Some (OpportunityData.lead_status opp_data)) in
      let ws2 := set_cell ws1 row_num 8
                   (Some (OpportunityData.last_contacted opp_data)) in
      if Py.truthy (OpportunityData.notes opp_data)
      then set_cell ws2 row_num 10 (Some (OpportunityData.notes opp_data))
      else ws2
  | None => ws_append ws (new_row_data opp_data)
  end.

(** The texts that the turn assigns to cells, in order. *)
Definition upsert_texts (existing : list (option string * nat))
           (item : string * OpportunityData.t) : list string :=
  let '(opp_id, opp_data) := item in
  match dict_of_assignments existing (Some opp_id) with
  | Some _ =>
      OpportunityData.lead_status opp_data
      :: OpportunityData.last_contacted opp_data
      :: (if Py.truthy (OpportunityData.notes opp_data)
          then [OpportunityData.notes opp_data]
          else [])
  | None => new_row_data opp_data
  end.

Definition _update_opportunities_sheet (ws : Worksheet)
           (opportunities : list (string * OpportunityData.t)) : Worksheet :=
  fold_left (upsert_opportunity (existing_opps ws)) opportunities ws.

(** No assignment of the call raises. *)
Definition opportunities_accepted (ws : Worksheet)
           (opportunities : list (string * OpportunityData.t)) : bool :=
  forallb (fun item => forallb accepted (upsert_texts (existing_opps ws) item))
          opportunities.

(** The [id_gen] of [_update_interaction_log_sheet]. *)
Definition id_gen (email : string) : string :=
  Py.take 8 (MD5.hexdigest (Py.lower email)).

Definition interaction_row (email : EmailData.t) (parsed : ParsedData.t)
  : list string :=
  [ id_gen (EmailData.sender_email email);
    opt_default "" (ParsedData.date parsed);
    Py.take 1000 (EmailData.body_preview email);
    opt_default "" (ParsedData.action_items parsed);
    opt_default "" (ParsedData.deadline parsed);
    opt_default "N/A" (ParsedData.meeting_type parsed);
    EmailData.received email ].

Definition _update_interaction_log_sheet (ws : Worksheet)
           (new_leads : list EmailData.t) : Worksheet :=
  fold_left
    (fun ws email =>
       match EmailData.parsed_data email with
       | Some parsed =>
           if ParsedData.has_meeting parsed
           then ws_append ws (interaction_row email parsed)
           else ws
       | None => ws
       end)
    new_leads ws.

Definition interaction_log_accepted (new_leads : list EmailData.t) : bool :=
  forallb
    (fun email =>
       match EmailData.parsed_data email with
       | Some parsed =>
           if ParsedData.has_meeting parsed
           then forallb accepted (interaction_row email parsed)
           else true
       | None => true
       end)
    new_leads.

Definition email_log_row (email : EmailData.t) : list string :=
  [ EmailData.received email; EmailData.sender_email email;
    EmailData.subject email;
    if EmailData.is_lead email then "Yes" else "No" ].

Definition _update_all_emails_log (ws : Worksheet)
           (all_new_emails : list EmailData.t) : Worksheet :=
  fold_left (fun ws email => ws_append ws (email_log_row email))
            all_new_emails ws.

Definition all_emails_log_accepted (all_new_emails : list EmailData.t)
  : bool :=
  forallb (fun email => forallb accepted (email_log_row email)) all_new_emails.

Definition opportunities_headers : list string :=
  [ "Opportunity ID"; "Contact Name"; "Company"; "Email"; "Phone";
    "Opportunity Title"; "Lead Status"; "Last Contacted"; "Folder Link";
    "Notes" ].

Definition interaction_headers : list string :=
  [ "Opportunity ID"; "Meeting Date"; "Meeting Summary"; "Action Items";
    "Deadlines"; "Meeting Type"; "Timestamp" ].

Definition all_emails_headers : list string :=
  [ "Timestamp"; "From"; "Subject"; "Is Lead?" ].

(** A sheet that is missing is created with its header row. *)
Definition ensure_sheet (headers : list string) (o : option Worksheet)
  : Worksheet :=
  match o with
  | Some ws => ws
  | None => ws_append [] headers
  end.

Definition _ensure_sheets_exist (wb : Workbook) : Workbook :=
  {| opportunities_master :=
       Some (ensure_sheet opportunities_headers (opportunities_master wb));
     interaction_log :=
       Some (ensure_sheet interaction_headers (interaction_log wb));
     all_emails_log :=
       Some (ensure_sheet all_emails_headers (all_emails_log wb)) |}.

(** [Workbook()] with its default sheet removed. *)
Definition empty_workbook : Workbook :=
  {| opportunities_master := None; interaction_log := None;
     all_emails_log := None |}.

(** [wb[name]], for a sheet that [_ensure_sheets_exist] has put there. *)
Definition sheet (o : option Worksheet) : Worksheet :=
  match o with Some ws => ws | None => [] end.

Definition nonempty {A} (l : list A) : bool :=
  match l with [] => false | _ => true end.

(** The workbook in memory at the end of the [try] of [update_report]. *)
Definition updated_workbook (file : option Workbook)
           (all_new_emails new_leads : list EmailData.t)
           (opportunities : list (string * OpportunityData.t)) : Workbook :=
  let wb := _ensure_sheets_exist
              (match file with Some wb => wb | None => empty_workbook end) in
  let all_emails_ws :=
    _update_all_emails_log (sheet (all_emails_log wb)) all_new_emails in
  if nonempty new_leads then
    {| opportunities_master :=
         Some (_update_opportunities_sheet
                 (sheet (opportunities_master wb)) opportunities);
       interaction_log :=
         Some (_update_interaction_log_sheet
                 (sheet (interaction_log wb)) new_leads);
       all_emails_log := Some all_emails_ws |}
  else
    {| opportunities_master := opportunities_master wb;
       interaction_log := interaction_log wb;
       all_emails_log := Some all_emails_ws |}.

(** The [try] of [update_report] reaches [wb.save]: no cell refuses the
    text it is given. *)
Definition report_accepted (file : option Workbook)
           (all_new_emails new_leads : list EmailData.t)
           (opportunities : list (string * OpportunityData.t)) : bool :=
  let wb := _ensure_sheets_exist
              (match file with Some wb => wb | None => empty_workbook end) in
  all_emails_log_accepted all_new_emails
  && (if nonempty new_leads
      then opportunities_accepted (sheet (opportunities_master wb))
                                  opportunities
           && interaction_log_accepted new_leads
      else true).

(** The file that [wb.save] leaves, as it loads. *)
Definition saved_workbook (wb : Workbook) : Workbook :=
  {| opportunities_master := option_map saved_sheet (opportunities_master wb);
     interaction_log := option_map saved_sheet (interaction_log wb);
     all_emails_log := option_map saved_sheet (all_emails_log wb) |}.

(** [update_report].  A text that a cell refuses raises inside the [try]:
    [except Exception] logs it and nothing is saved.  The styling pass
    changes no cell value and is left out; the file is taken to be
    readable and writable. *)
Definition update_report (all_new_emails new_leads : list EmailData.t)
           (opportunities : list (string * OpportunityData.t)) : M unit :=
  if negb (nonempty all_new_emails) then ret tt
  else
    st <- get_state ;;
    if report_accepted (report st) all_new_emails new_leads opportunities
    then
      let wb := saved_workbook
                  (updated_workbook (report st) all_new_emails new_leads
                                    opportunities) in
      modify (set_report (Some wb)) ;;;
      emit (EvSaveWorkbook wb)
    else ret tt.

(** [get_interaction_history], on the report file as it is on disk.  The
    rows come as tuples [max_column] wide, so [row[6]] is out of range on
    a sheet narrower than seven columns. *)
Definition history_rows (log_ws : Worksheet) (opportunity_id : string)
  : list nat :=
  List.filter
    (fun i => negb (Py.truthy opportunity_id)
              || bool_decide (cell_value log_ws i 1 = Some opportunity_id))
    (seq 2 (max_row log_ws - 1)).

Definition history_entry (log_ws : Worksheet) (i : nat) : string :=
  ("On " ++ Py.fmt (cell_value log_ws i 7) ++ ", a meeting was logged: "
     ++ Py.fmt (cell_value log_ws i 3))%string.

Definition interaction_history (file : option Workbook)
           (opportunity_id : string) : result string :=
  match file with
  | None => Ok ""
  | Some wb =>
      match interaction_log wb with
      | None => Ok ""
      | Some log_ws =>
          let rows := history_rows log_ws opportunity_id in
          if nonempty rows && (max_column log_ws <? 7)%nat
          then Raise IndexError
          else Ok (Py.join Py.nl (map (history_entry log_ws) rows))
      end
  end.

Definition get_interaction_history (opportunity_id : string) : M string :=
  st <- get_state ;; lift (interaction_history (report st) opportunity_id).

(** *** LeadTracker *)

(** A Python dict with string keys, in insertion order. *)
Definition dict_get {V} (d : list (string * V)) (k : string) : option V :=
  match List.find (fun kv => String.eqb kv.1 k) d with
  | Some kv => Some kv.2
  | None => None
  end.

Definition dict_mem {V} (d : list (string * V)) (k : string) : bool :=
  match dict_get d k with Some _ => true | None => false end.

(** [d[k] = v]: an old key keeps its place, a new one goes last. *)
Fixpoint dict_set {V} (d : list (string * V)) (k : string) (v : V)
  : list (string * V) :=
  match d with
  | [] => [(k, v)]
  | (k', v') :: d' =>
      if String.eqb k' k then (k, v) :: d' else (k', v') :: dict_set d' k v
  end.

(** What [opportunities.get(opp_id, {})] can evaluate to: the empty dict
    of the default, or the dataclass instance stored under the key. *)
Inductive PyObject : Type :=
| PyDict (items : list (string * string))
| PyOpportunityData (o : OpportunityData.t).

Definition opportunities_get_or_empty
           (opportunities : list (string * OpportunityData.t))
           (opp_id : string) : PyObject :=
  match dict_get opportunities opp_id with
  | Some o => PyOpportunityData o
  | None => PyDict []
  end.

(** [obj.get(key, default)]: a dict has the method, a dataclass instance
    has no attribute [get]. *)
Definition py_get (obj : PyObject) (key default : string) : result string :=
  match obj with
  | PyDict items => Ok (opt_default default (dict_get items key))
  | PyOpportunityData _ => Raise AttributeError
  end.

(** [hashlib.md5(email.sender_email.lower().encode()).hexdigest()[:8]] *)
Definition opportunity_id (sender_email : string) : string :=
  Py.take 8 (MD5.hexdigest (Py.lower sender_email)).

(** [sender_email.split('@')[1].split('.')[0].title()] *)
Definition company_of (sender_email : string) : result string :=
  match nth_error (Py.split "@" sender_email) 1 with
  | None => Raise IndexError
  | Some domain =>
      match nth_error (Py.split "." domain) 0 with
      | None => Raise IndexError
      | Some name => Ok (Py.title name)
      end
  end.

(** The condition of the [if] in the loop of [generate_opportunities]:
    [or] evaluates its right operand only when the left one is false. *)
Definition is_most_recent (opportunities : list (string * OpportunityData.t))
           (opp_id : string) (email : EmailData.t) : result bool :=
  if negb (dict_mem opportunities opp_id) then Ok true
  else
    match py_get (opportunities_get_or_empty opportunities opp_id)
                 "last_contacted" "" with
    | Ok last => Ok (Py.gt (EmailData.received email) last)
    | Raise e => Raise e
    end.

(** One turn of the loop of [generate_opportunities]. *)
Definition add_opportunity (opportunities : list (string * OpportunityData.t))
           (email : EmailData.t) : M (list (string * OpportunityData.t)) :=
  let opp_id := opportunity_id (EmailData.sender_email email) in
  most_recent <- lift (is_most_recent opportunities opp_id email) ;;
  if most_recent then
    let is_new := negb (dict_mem opportunities opp_id) in
    folder_link <-
      (if is_new then create_folder_for_lead opp_id
       else
         link <- lift (py_get (opportunities_get_or_empty opportunities opp_id)
                              "folder_link" "") ;;
         ret (Some link)) ;;
    history <- get_interaction_history opp_id ;;
    notes <-
      (if (3 <? length (Py.split Py.newline history))%nat
       then summarize_interactions history
       else ret "") ;;
    company <- lift (company_of (EmailData.sender_email email)) ;;
    ret (dict_set opportunities opp_id
           (OpportunityData.mk
              opp_id
              (EmailData.sender_name email)
              company
              (EmailData.sender_email email)
              ""
              ("Opportunity with " ++ EmailData.sender_name email)%string
              (match EmailData.parsed_data email with
               | Some parsed =>
                   opt_default "New Lead" (ParsedData.lead_status parsed)
               | None => "New Lead"
               end)
              notes
              (EmailData.received email)
              folder_link))
  else ret opportunities.

Fixpoint generate_opportunities_from
         (opportunities : list (string * OpportunityData.t))
         (emails : list EmailData.t) : M (list (string * OpportunityData.t)) :=
  match emails with
  | [] => ret opportunities
  | email :: rest =>
      opportunities' <- add_opportunity opportunities email ;;
      generate_opportunities_from opportunities' rest
  end.

Definition generate_opportunities (emails : list EmailData.t)
  : M (list (string * OpportunityData.t)) :=
  generate_opportunities_from [] emails.

(** The [EmailData] that [process_emails] builds from a fetched message. *)
Definition email_of_message (msg : GraphMessage.t) : EmailData.t :=
  EmailData.mk
    (GraphMessage.id msg)
    (opt_default "" (GraphMessage.from_name msg))
    (opt_default "" (GraphMessage.from_address msg))
    (opt_default "" (GraphMessage.subject msg))
    (opt_default "" (GraphMessage.receivedDateTime msg))
    (opt_default "" (GraphMessage.body_content msg))
    false None None.

Definition mark_lead (email : EmailData.t) (parsed : ParsedData.t)
           (event_id : option string) : EmailData.t :=
  EmailData.mk
    (EmailData.id email) (EmailData.sender_name email)
    (EmailData.sender_email email) (EmailData.subject email)
    (EmailData.received email) (EmailData.body_preview email)
    true (Some parsed) event_id.

(** The body of the [for msg in messages] loop: the message is classified,
    routed, appended to [all_newly_processed] and marked as processed. *)
Definition process_message (msg : GraphMessage.t) : M EmailData.t :=
  let email_data := email_of_message msg in
  parsed <- parse_email (EmailData.body_preview email_data)
                        (EmailData.subject email_data) ;;
  email_data' <-
    (match parsed with
     | Some p =>
         if ParsedData.is_lead p then
           if ParsedData.has_meeting p then
             event_id <- create_event parsed
                           (EmailData.sender_email email_data)
                           (EmailData.sender_name email_data) ;;
             ret (mark_lead email_data p event_id)
           else ret (mark_lead email_data p None)
         else ret email_data
     | None => ret email_data
     end) ;;
  modify (fun st =>
    set_processed_emails
      ({[GraphMessage.id msg]} ∪ processed_emails st) st) ;;;
  ret email_data'.

(** The loop of [process_emails], inside its [try]: an exception ends the
    loop and is logged, what was gathered before it is kept. *)
Fixpoint process_messages (messages : list GraphMessage.t)
         (all_newly_processed : list EmailData.t) (st : State)
  : list EmailData.t * State :=
  match messages with
  | [] => (all_newly_processed, st)
  | msg :: rest =>
      if bool_decide (GraphMessage.id msg ∈ processed_emails st)
      then process_messages rest all_newly_processed st
      else
        match process_message msg st with
        | (Ok email_data, st') =>
            process_messages rest (all_newly_processed ++ [email_data]) st'
        | (Raise _, st') => (all_newly_processed, st')
        end
  end.

(** [process_emails]: a failed fetch leaves the list empty; the set is
    written to its file when the list is not empty. *)
Definition process_emails : M (list EmailData.t) :=
  fun st =>
    let st0 := log_event EvGetMessages st in
    let '(all_newly_processed, st1) :=
      match graph_messages w with
      | Ok messages => process_messages messages [] st0
      | Raise _ => ([], st0)
      end in
    if nonempty all_newly_processed then
      match save_pickle (processed_emails st1) "processed_emails.pkl" st1 with
      | (_, st2) => (Ok all_newly_processed, st2)
      end
    else (Ok all_newly_processed, st1).

(** One turn of the loop of [run_continuously], from the fetch to the
    sleep.  (The Friday digest only writes to the log.)  Nothing here
    catches what [generate_opportunities] raises: it ends the loop. *)
Definition run_cycle : M unit :=
  all_new_emails <- process_emails ;;
  if nonempty all_new_emails then
    let new_leads := List.filter EmailData.is_lead all_new_emails in
    if nonempty new_leads then
      opportunities <- generate_opportunities new_leads ;;
      update_report all_new_emails new_leads opportunities
    else ret tt
  else ret tt.

End Pipeline.

(** ** A library instance to run the pipeline on examples *)

Module Reference.

Definition digit (c : ascii) : option nat :=
  let n := nat_of_ascii c in
  if (48 <=? n)%nat && (n <=? 57)%nat then Some (n - 48) else None.

Fixpoint number (acc : nat) (cs : list ascii) : option nat :=
  match cs with
  | [] => Some acc
  | c :: cs' =>
      match digit c with
      | Some d => number (10 * acc + d) cs'
      | None => None
      end
  end.

Definition leap (y : nat) : bool :=
  ((y mod 4 =? 0) && negb (y mod 100 =? 0) || (y mod 400 =? 0))%nat.

Definition days_in_month (y m : nat) : nat :=
  match m with
  | 2 => if leap y then 29 else 28
  | 4 | 6 | 9 | 11 => 30
  | _ => 31
  end.

Definition digit_char (n : nat) : ascii := ascii_of_nat (48 + n mod 10).

Definition two (n : nat) : string :=
  String (digit_char (n / 10)) (String (digit_char n) EmptyString).

Definition four (n : nat) : string :=
  (two (n / 100) ++ two (n mod 100))%string.

Definition stamp (y m d h mi s : nat) : string :=
  (four y ++ "-" ++ two m ++ "-" ++ two d ++ "T"
     ++ two h ++ ":" ++ two mi ++ ":" ++ two s)%string.

(** A [strptime_plus_hour] that is exact on zero-padded stamps
    [YYYY-MM-DDTHH:MM:SS] of the years 1000 to 9998, the shape the
    classifier is asked for; any other text is taken to raise. *)
Definition stamp_plus_hour (text : string) : option string :=
  match list_ascii_of_string text with
  | [y1; y2; y3; y4; "-"%char; m1; m2; "-"%char; d1; d2; "T"%char;
     h1; h2; ":"%char; n1; n2; ":"%char; s1; s2] =>
      match number 0 [y1; y2; y3; y4], number 0 [m1; m2], number 0 [d1; d2],
            number 0 [h1; h2], number 0 [n1; n2], number 0 [s1; s2] with
      | Some y, Some m, Some d, Some h, Some mi, Some s =>
          if ((10 <=? y / 100) && negb ((y / 100 =? 99) && (y mod 100 =? 99))
              && (1 <=? m) && (m <=? 12)
              && (1 <=? d) && (d <=? days_in_month y m)
              && (h <=? 23) && (mi <=? 59) && (s <=? 59))%nat
          then
            if (h <? 23)%nat then Some (stamp y m d (h + 1) mi s)
            else if (d <? days_in_month y m)%nat
                 then Some (stamp y m (d + 1) 0 mi s)
            else if (m <? 12)%nat then Some (stamp y (m + 1) 1 0 mi s)
            else Some (stamp (y + 1) 1 1 0 mi s)
          else None
      | _, _, _, _, _, _ => None
      end
  | _ => None
  end.

(** A stand-in for pickle: after each character of a member the byte 01
    and the character, after each member the byte 00, at the end the
    byte 2e.  Like a pickle it ends with a stop mark, so a file cut short
    does not load. *)
Definition dump_string (s : string) : list Byte.byte :=
  flat_map (fun c => [Byte.x01; byte_of_ascii c]) (list_ascii_of_string s)
  ++ [Byte.x00].

Definition dumps (data : gset string) : list Byte.byte :=
  flat_map dump_string (elements data) ++ [Byte.x2e].

Fixpoint loads_from (bytes : list Byte.byte) (member : string)
         (data : gset string) : option (gset string) :=
  match bytes with
  | [] => None
  | Byte.x2e :: rest =>
      match rest, member with
      | [], EmptyString => Some data
      | _, _ => None
      end
  | Byte.x00 :: rest => loads_from rest EmptyString ({[member]} ∪ data)
  | Byte.x01 :: c :: rest =>
      loads_from rest (member ++ String (ascii_of_byte c) EmptyString)%string
                 data
  | _ => None
  end.

Definition loads (bytes : list Byte.byte) : option (gset string) :=
  loads_from bytes EmptyString ∅.

Definition library : Library :=
  {| strptime_plus_hour := stamp_plus_hour;
     pickle_dumps := dumps;
     pickle_loads := loads;
     xlsx_text := Some |}.

End Reference.

(** ** Sequences of calls, and the properties the statements speak of *)

(** One call of [create_event], as [process_emails] makes it. *)
Record ScheduleCall : Type := {
  call_parsed : ParsedData.t;
  call_email : string;
  call_name : string
}.

(** The calls made one after the other; an exception ends its own call
    only, as it does between two cycles. *)
Fixpoint schedule_all (lib : Library) (w : World) (calls : list ScheduleCall)
         (st : State) : list (result (option string)) * State :=
  match calls with
  | [] => ([], st)
  | c :: rest =>
      let '(outcome, st') :=
        create_event lib w (Some (call_parsed c)) (call_email c) (call_name c) st in
      let '(outcomes, st'') := schedule_all lib w rest st' in
      (outcome :: outcomes, st'')
  end.

(** Subject, date, start time and attendee of a call, in lower case. *)
Definition event_key (c : ScheduleCall) : string * string * string * string :=
  (Py.lower (opt_default "" (ParsedData.subject (call_parsed c))),
   Py.lower (opt_default "" (ParsedData.date (call_parsed c))),
   Py.lower (opt_default "" (ParsedData.start_time (call_parsed c))),
   Py.lower (call_email c)).

Definition call_fingerprint (c : ScheduleCall) : string :=
  _generate_event_fingerprint (call_parsed c) (call_email c).

(** The fingerprint, from the key. *)
Definition fingerprint_of_key (k : string * string * string * string) : string :=
  let '(subject, date, start_time, email) := k in
  MD5.hexdigest (subject ++ "|" ++ date ++ "|" ++ start_time ++ "|" ++ email)%string.

(** The state after a [POST /me/events] answered with 201: the fingerprint
    is added to the set, and the set is written to its file. *)
Definition state_after_created (lib : Library) (fingerprint : string)
           (payload : EventPayload) (response : http_response) (st : State)
  : State :=
  log_event
    (EvSavePickle "processed_events.pkl" ({[fingerprint]} ∪ processed_events st))
    (set_disk
       (write_pickle lib ({[fingerprint]} ∪ processed_events st)
                     "processed_events.pkl" (disk st))
       (set_processed_events
          ({[fingerprint]} ∪ processed_events st)
          (log_event (EvCalendarPost payload response) st))).

(** In a list of outcomes, every outcome after one that carries a value
    (an event id, or the mark of a skipped duplicate) is the mark of a
    skipped duplicate. *)
Definition later_are_skipped (outcomes : list (result (option string))) : Prop :=
  forall i j x r,
    i < j ->
    outcomes !! i = Some (Ok (Some x)) ->
    outcomes !! j = Some r ->
    r = Ok (Some "duplicate_skipped").

(** A [POST /me/events] that did not create the event. *)
Definition is_failed_post (e : Event) : bool :=
  match e with
  | EvCalendarPost _ TransportError => true
  | EvCalendarPost _ (Response code _) => negb (code =? 201)%Z
  | _ => false
  end.

(** The events a call adds to the trace. *)
Definition new_events (before after : State) : list Event :=
  drop (length (trace before)) (trace after).

(** The events of the fetch half of a cycle ([process_emails]) and of its
    commit half ([generate_opportunities], [update_report]). *)
Definition is_fetch_event (e : Event) : bool :=
  match e with
  | EvGetMessages | EvClassify _ _ | EvCalendarPost _ _ | EvSavePickle _ _ => true
  | _ => false
  end.


(** A computation that only adds events of one kind to the trace. *)
Definition emits_only (P : Event -> bool) {A} (c : M A) : Prop :=
  forall st, exists new,
    trace (c st).2 = trace st ++ new /\ forallb P new = true.

(** A computation that leaves one field of the state as it is. *)
Definition preserves {X A} (field : State -> X) (c : M A) : Prop :=
  forall st, field (c st).2 = field st.

(** The address holds an [@]. *)
Definition contains_at (address : string) : bool :=
  existsb (Ascii.eqb "@") (list_ascii_of_string address).

(** The address holds an [@] followed by a nonempty first label of the
    domain. *)
Definition has_domain_token (address : string) : bool :=
  match Py.split "@" address with
  | _ :: domain :: _ =>
      match Py.split "." domain with
      | token :: _ => Py.truthy token
      | [] => false
      end
  | _ => false
  end.



(** Number of line feeds of a text. *)
Fixpoint count_newlines (s : string) : nat :=
  match s with
  | EmptyString => 0
  | String c s' =>
      (if Ascii.eqb c Py.newline then 1 else 0) + count_newlines s'
  end.


(** The identifiers of the messages of a batch, in order. *)
Definition batch_ids (emails : list EmailData.t) : list string :=
  map (fun e => opportunity_id (EmailData.sender_email e)) emails.

(** ** Inputs of the examples *)

Module Sample.

Definition fresh : State :=
  {| processed_emails := ∅; processed_events := ∅; disk := ∅;
     report := None; trace := [] |}.

Definition lead (status : string) (meeting : bool) : ParsedData.t :=
  ParsedData.mk true (Some status) meeting (Some "Intro call")
                (Some "2025-03-01") (Some "10:00") (Some "Call")
                (Some "send deck") (Some "2025-03-05").

Definition not_lead : ParsedData.t :=
  ParsedData.mk false None false None None None None None None.

Definition message (id address received body : string) : GraphMessage.t :=
  GraphMessage.mk id (Some "Ann") (Some address) (Some "Hello")
                  (Some received) (Some body).

(** The classifier of the examples reads the verdict off the body. *)
Definition classifier (subject body : string) : option ParsedData.t :=
  if String.eqb body "meet" then Some (lead "Meeting Scheduled" true)
  else if String.eqb body "later" then Some (lead "Proposal Sent" false)
  else if String.eqb body "garbled" then None
  else Some not_lead.

Definition world (messages : list GraphMessage.t)
           (calendar : nat -> http_response) : World :=
  {| graph_messages := Ok messages;
     gemini_json := classifier;
     gemini_summary := fun _ => "summary";
     calendar_post := fun n _ => calendar n;
     drive_post := fun n name => Some ("https://drive/" ++ name)%string |}.

(** A classifier that finds no lead. *)
Definition cautious (messages : list GraphMessage.t) : World :=
  {| graph_messages := Ok messages;
     gemini_json := fun subject body =>
                      if String.eqb body "garbled" then None else Some not_lead;
     gemini_summary := fun _ => "summary";
     calendar_post := fun n _ => Response 201 "evt-1";
     drive_post := fun n name => Some ("https://drive/" ++ name)%string |}.

Definition created (n : nat) : http_response := Response 201 "evt-1".

(** The first request is refused, the later ones are accepted. *)
Definition refused_once (n : nat) : http_response :=
  match n with
  | O => Response 503 ""
  | S _ => Response 201 "evt-1"
  end.

Definition email (address received : string) (parsed : ParsedData.t)
  : EmailData.t :=
  EmailData.mk "m" "Ann" address "Hello" received "body" true (Some parsed)
               None.

Definition call : ScheduleCall :=
  {| call_parsed := lead "Meeting Scheduled" true;
     call_email := "a@x.com"; call_name := "Ann" |}.

Definition call_upper : ScheduleCall :=
  {| call_parsed :=
       ParsedData.mk true (Some "Meeting Scheduled") true (Some "INTRO CALL")
                     (Some "2025-03-01") (Some "10:00") None None None;
     call_email := "A@X.com"; call_name := "Ann" |}.

(** A summary cell of four lines. *)
Definition four_lines : string :=
  ("Hi," ++ Py.nl ++ "can we meet?" ++ Py.nl ++ "Thanks," ++ Py.nl ++ "Ann")%string.

(** The report after one earlier meeting mail of [a@x.com]. *)
Definition one_interaction_log : Worksheet :=
  [ map Some interaction_headers;
    map Some [ "74317378"; "2025-02-01"; four_lines; "send deck";
               "2025-02-05"; "Call"; "2025-01-20T09:00:00Z" ] ].

Definition after_one_interaction : State :=
  {| processed_emails := ∅; processed_events := ∅; disk := ∅;
     report := Some {| opportunities_master := None;
                       interaction_log := Some one_interaction_log;
                       all_emails_log := None |};
     trace := [] |}.

(** The Opportunity Master sheet with the row of [a@x.com]. *)
Definition master : list (list (option string)) :=
  [ map Some opportunities_headers;
    [ Some "74317378"; Some "Ann"; Some "X"; Some "a@x.com"; None;
      Some "Opportunity with Ann"; Some "New Lead";
      Some "2025-02-20T09:00:00Z";
      Some "=HYPERLINK(https://drive/Lead-74317378, Open Folder)";
      Some "first notes" ] ].

Definition opportunity (address status received notes : string)
  : OpportunityData.t :=
  OpportunityData.mk (opportunity_id address) "Ann B." "Other" address "+1"
                     "Opportunity with Ann B." status notes received
                     (Some "https://drive/other").

End Sample.

(** ** Vocabulary of the further properties *)

(** The pickle format loads back what it dumped. *)
Definition codec_round_trip (lib : Library) : Prop :=
  forall data, pickle_loads lib (pickle_dumps lib data) = Some data.

(** What a restart would load from the two pickle files is what the process
    holds in memory. *)
Definition in_sync (lib : Library) (st : State) : Prop :=
  read_pickle lib (disk st) "processed_emails.pkl" = processed_emails st
  /\ read_pickle lib (disk st) "processed_events.pkl" = processed_events st.

(** The identifiers of a list of fetched messages and of a list of emails. *)
Definition message_ids (messages : list GraphMessage.t) : list string :=
  map GraphMessage.id messages.

Definition email_ids (emails : list EmailData.t) : list string :=
  map EmailData.id emails.

(** The lead status that [generate_opportunities] stores for an email. *)
Definition lead_status_of (email : EmailData.t) : string :=
  match EmailData.parsed_data email with
  | Some parsed => opt_default "New Lead" (ParsedData.lead_status parsed)
  | None => "New Lead"
  end.

(** The record [generate_opportunities] stores under [key] is the one of
    [email]. *)
Definition record_of (email : EmailData.t) (entry : string * OpportunityData.t)
  : Prop :=
  entry.1 = opportunity_id (EmailData.sender_email email)
  /\ OpportunityData.id entry.2 = entry.1
  /\ OpportunityData.contact_name entry.2 = EmailData.sender_name email
  /\ company_of (EmailData.sender_email email)
     = Ok (OpportunityData.company entry.2)
  /\ OpportunityData.email entry.2 = EmailData.sender_email email
  /\ OpportunityData.phone entry.2 = ""
  /\ OpportunityData.opportunity_title entry.2
     = ("Opportunity with " ++ EmailData.sender_name email)%string
  /\ OpportunityData.lead_status entry.2 = lead_status_of email
  /\ OpportunityData.last_contacted entry.2 = EmailData.received email.

(** The rows that [_update_interaction_log_sheet] writes for a batch: one
    for each lead whose classification has a meeting. *)
Definition meeting_rows (new_leads : list EmailData.t) : list (list string) :=
  flat_map
    (fun email =>
       match EmailData.parsed_data email with
       | Some parsed =>
           if ParsedData.has_meeting parsed
           then [interaction_row email parsed]
           else []
       | None => []
       end)
    new_leads.

(** The sheet of a report file, as [update_report] finds or creates it. *)
Definition sheet_on_file (headers : list string)
           (select : Workbook -> option Worksheet) (file : option Workbook)
  : Worksheet :=
  ensure_sheet headers
    (match file with Some wb => select wb | None => None end).

(** The interaction log of the report file, if there is one, has the seven
    columns that [get_interaction_history] reads. *)
Definition log_is_wide (file : option Workbook) : Prop :=
  match file with
  | Some wb =>
      match interaction_log wb with
      | Some log_ws => 7 <= max_column log_ws
      | None => True
      end
  | None => True
  end.

(** What the file gives back for a text that a cell was given. *)
Definition saved_text (lib : Library) (value : string) : option string :=
  saved_cell lib (Some value).

(** The sheet is as a file gives it: saved and loaded once more, it is the
    same. *)
Definition settled (lib : Library) (ws : Worksheet) : Prop :=
  saved_sheet lib ws = ws.

(** The mail of a lead has a meeting, and the line of the history that its
    row of the interaction log gives once the file is loaded: an empty cell
    is printed as [None]. *)
Definition has_meeting_mail (email : EmailData.t) : bool :=
  match EmailData.parsed_data email with
  | Some parsed => ParsedData.has_meeting parsed
  | None => false
  end.

Definition history_line (lib : Library) (email : EmailData.t) : string :=
  ("On " ++ Py.fmt (saved_text lib (EmailData.received email))
     ++ ", a meeting was logged: "
     ++ Py.fmt (saved_text lib (Py.take 1000 (EmailData.body_preview email))))%string.

(** The lines that [get_interaction_history] joins. *)
Definition history_entries (log_ws : Worksheet) (opportunity_id : string)
  : list string :=
  map (history_entry log_ws) (history_rows log_ws opportunity_id).

(** The leads of a batch whose row of the interaction log carries the
    identifier. *)
Definition logged_for (opportunity_id : string) (new_leads : list EmailData.t)
  : list EmailData.t :=
  List.filter
    (fun email =>
       has_meeting_mail email
       && bool_decide (id_gen (EmailData.sender_email email) = opportunity_id))
    new_leads.

(** The string holds the character. *)
Definition has_char (c : ascii) (s : string) : bool :=
  existsb (Ascii.eqb c) (list_ascii_of_string s).

Definition is_hex_digit (c : ascii) : bool :=
  has_char c "0123456789abcdef".

(** *** The weekly digest of [run_continuously]

    [today] is [datetime.now().weekday()], Monday being 0; the loop keeps
    [last_summary_day] from one turn to the next, starting from -1. *)
Definition weekly_summary_due (today last_summary_day : Z) : bool :=
  (today =? 4)%Z && negb (last_summary_day =? today)%Z.

Definition next_summary_day (today last_summary_day : Z) : Z :=
  if weekly_summary_due today last_summary_day then today
  else if negb (today =? 4)%Z then (-1)%Z
  else last_summary_day.

(** The turns of the loop in which the digest is made, for the days that
    the clock shows turn after turn. *)
Fixpoint summary_schedule (last_summary_day : Z) (days : list Z) : list bool :=
  match days with
  | [] => []
  | today :: rest =>
      weekly_summary_due today last_summary_day
      :: summary_schedule (next_summary_day today last_summary_day) rest
  end.

(** *** The Opportunity Master sheet over a whole call *)






(** *** The loop of [run_continuously]

    [n] turns of the [while True] loop; an exception that a turn does not
    catch ends the loop. *)
Fixpoint run_cycles (lib : Library) (w : World) (n : nat) : M unit :=
  match n with
  | O => ret tt
  | S n' => run_cycle lib w ;;; run_cycles lib w n'
  end.

(** The classification of a message: what [parse_email] answers for the
    mail that [process_emails] makes of it. *)
Definition classification (w : World) (msg : GraphMessage.t)
  : option ParsedData.t :=
  gemini_json w (EmailData.subject (email_of_message msg))
              (Py.take 1500 (EmailData.body_preview (email_of_message msg))).

(** The state after a cycle that asked for the classification of [msg] and
    did nothing else. *)
Definition after_classifying (msg : GraphMessage.t) (st : State) : State :=
  log_event
    (EvClassify (EmailData.subject (email_of_message msg))
                (Py.take 1500 (EmailData.body_preview (email_of_message msg))))
    (log_event EvGetMessages st).

(** A classifier that finds in every mail a meeting on a day that is not a
    calendar date. *)
Definition vague_meeting : ParsedData.t :=
  ParsedData.mk true (Some "Meeting Scheduled") true (Some "Intro call")
                (Some "tomorrow") (Some "10:00") (Some "Call") None None.

Definition vague_world (messages : list GraphMessage.t) : World :=
  {| graph_messages := Ok messages;
     gemini_json := fun _ _ => Some vague_meeting;
     gemini_summary := fun _ => "summary";
     calendar_post := fun _ _ => Response 201 "evt-1";
     drive_post := fun _ name => Some ("https://drive/" ++ name)%string |}.

(** * Properties *)

(** ** The library models on known values *)

Example md5_empty : MD5.hexdigest "" = "d41d8cd98f00b204e9800998ecf8427e".
Proof. vm_compute. reflexivity. Qed.

Example md5_a_x_com : MD5.hexdigest "a@x.com" = "743173788aa9166801df2e18f0e7ff24".
Proof. vm_compute. reflexivity. Qed.

Example md5_fox :
  MD5.hexdigest "The quick brown fox jumps over the lazy dog"
  = "9e107d9d372bb6826bd81d3542a419d6".
Proof. vm_compute. reflexivity. Qed.

Example md5_two_blocks :
  MD5.hexdigest "xxxxxxxxxxxxxxxxxxxxxxxxxxxxxxxxxxxxxxxxxxxxxxxxxxxxxxxx"
  = "668a72d5ba17f08e62dabcafad6db14b".
Proof. vm_compute. reflexivity. Qed.

Example stamp_plus_hour_morning :
  Reference.stamp_plus_hour "2025-03-01T10:00:00" = Some "2025-03-01T11:00:00".
Proof. vm_compute. reflexivity. Qed.

Example stamp_plus_hour_new_year :
  Reference.stamp_plus_hour "2024-12-31T23:30:00" = Some "2025-01-01T00:30:00".
Proof. vm_compute. reflexivity. Qed.

Example stamp_plus_hour_words :
  Reference.stamp_plus_hour "tomorrowT10:00:00" = None.
Proof. vm_compute. reflexivity. Qed.

Example reference_pickle_round_trip :
  Reference.loads (Reference.dumps ({["m1"]} ∪ {["m2"]})) = Some ({["m1"]} ∪ {["m2"]}).
Proof. vm_compute. reflexivity. Qed.
(** ** Python strings *)

Lemma lower_char_idempotent (c : ascii) :
  Py.lower_char (Py.lower_char c) = Py.lower_char c.
Proof. destruct c as [[] [] [] [] [] [] [] []]; reflexivity. Qed.

Lemma lower_idempotent (s : string) : Py.lower (Py.lower s) = Py.lower s.
Proof.
  induction s as [|c s IH]; simpl; [reflexivity|].
  now rewrite lower_char_idempotent, IH.
Qed.

Lemma lower_append (a b : string) :
  Py.lower (a ++ b) = (Py.lower a ++ Py.lower b)%string.
Proof. induction a as [|c a IH]; simpl; [reflexivity|]. now rewrite IH. Qed.

Lemma lower_empty (s : string) : Py.truthy (Py.lower s) = Py.truthy s.
Proof. destruct s; reflexivity. Qed.

Lemma split_not_nil (sep : ascii) (s : string) : Py.split sep s <> [].
Proof.
  induction s as [|c s IH]; simpl; [discriminate|].
  destruct (Ascii.eqb c sep); [discriminate|].
  destruct (Py.split sep s); discriminate.
Qed.

(** [split] gives one more part than there are separators. *)
Lemma split_length (sep : ascii) (s : string) :
  length (Py.split sep s)
  = S (length (List.filter (Ascii.eqb sep) (list_ascii_of_string s))).
Proof.
  induction s as [|c s IH]; cbn [Py.split list_ascii_of_string List.filter];
    [reflexivity|].
  rewrite (Ascii.eqb_sym sep c).
  destruct (Ascii.eqb c sep); cbn [length]; [now rewrite IH|].
  destruct (Py.split sep s) eqn:E; cbn [length] in *; [discriminate|lia].
Qed.

Lemma split_newline_length (s : string) :
  length (Py.split Py.newline s) = S (count_newlines s).
Proof.
  induction s as [|c s IH]; simpl; [reflexivity|].
  destruct (Ascii.eqb c Py.newline); simpl; [now rewrite IH|].
  destruct (Py.split Py.newline s) eqn:E; simpl in *; [discriminate|lia].
Qed.

Lemma contains_at_filter (s : string) :
  contains_at s = true <->
  (0 < length (List.filter (Ascii.eqb "@") (list_ascii_of_string s)))%nat.
Proof.
  unfold contains_at.
  induction (list_ascii_of_string s) as [|c l IH]; cbn [existsb List.filter].
  - simpl. split; [discriminate|lia].
  - destruct (Ascii.eqb "@" c); cbn [orb length];
      [split; [lia|reflexivity]|exact IH].
Qed.

(** The company is derived exactly for the addresses that hold an [@]. *)
Lemma company_of_ok (s : string) : is_ok (company_of s) = contains_at s.
Proof.
  unfold company_of.
  pose proof (split_length "@" s) as Hlen.
  pose proof (contains_at_filter s) as Hat.
  destruct (Py.split "@" s) as [|local [|domain rest]] eqn:E; simpl in *.
  - discriminate.
  - destruct (contains_at s); [|reflexivity].
    destruct Hat as [Hat _]. specialize (Hat eq_refl). lia.
  - pose proof (split_not_nil "." domain) as Hd.
    destruct (Py.split "." domain); [contradiction|]. simpl.
    symmetry. apply Hat. lia.
Qed.

(** ** The opportunity identifier *)

Lemma interaction_row_id (email : EmailData.t) (parsed : ParsedData.t) :
  head (interaction_row email parsed)
  = Some (opportunity_id (EmailData.sender_email email)).
Proof. reflexivity. Qed.

(** C6. Two messages whose sender addresses are equal after lowercasing get
    the same opportunity identifier; the identifier is the first eight hex
    digits of the MD5 of the lowercased address, so the address and its
    lower-case form give the same one; the identifier generator of the
    interaction log computes the same function, and the first cell of an
    interaction-log row is that identifier. *)
Theorem opportunity_id_of_normalized_sender (e1 e2 : EmailData.t) :
  Py.lower (EmailData.sender_email e1) = Py.lower (EmailData.sender_email e2) ->
  opportunity_id (EmailData.sender_email e1)
  = opportunity_id (EmailData.sender_email e2)
  /\ opportunity_id (EmailData.sender_email e1)
     = Py.take 8 (MD5.hexdigest (Py.lower (EmailData.sender_email e1)))
  /\ opportunity_id (Py.lower (EmailData.sender_email e1))
     = opportunity_id (EmailData.sender_email e1)
  /\ id_gen (EmailData.sender_email e1)
     = opportunity_id (EmailData.sender_email e1)
  /\ (forall parsed,
        head (interaction_row e1 parsed)
        = Some (opportunity_id (EmailData.sender_email e2))).
Proof.
  intros Hsame. unfold opportunity_id, id_gen.
  repeat split.
  - now rewrite Hsame.
  - now rewrite lower_idempotent.
  - intros parsed. simpl. unfold id_gen. now rewrite Hsame.
Qed.

Lemma opportunity_id_of_normalized_sender_witness :
  opportunity_id "Ann@X.com" = opportunity_id "ann@x.COM"
  /\ opportunity_id "Ann@X.com" = "0530e08f".
Proof.
  pose proof (opportunity_id_of_normalized_sender
                (Sample.email "Ann@X.com" "2025-02-20T09:00:00Z"
                              (Sample.lead "New Lead" false))
                (Sample.email "ann@x.COM" "2025-02-21T09:00:00Z"
                              (Sample.lead "New Lead" false))) as H.
  cbn [EmailData.sender_email Sample.email] in H.
  assert (Hlower : Py.lower "Ann@X.com" = Py.lower "ann@x.COM")
    by (vm_compute; reflexivity).
  destruct (H Hlower) as [Hid _].
  split; [exact Hid | vm_compute; reflexivity].
Defined.

(** ** Traces *)

Lemma count_events_app (p : Event -> bool) (a b : list Event) :
  count_events p (a ++ b) = count_events p a + count_events p b.
Proof. unfold count_events. now rewrite List.filter_app, length_app. Qed.

Lemma count_events_snoc (p : Event -> bool) (a : list Event) (e : Event) :
  count_events p (a ++ [e]) = count_events p a + (if p e then 1 else 0).
Proof. rewrite count_events_app. unfold count_events. simpl. now destruct (p e). Qed.

(** ** Python dicts *)

Lemma dict_mem_set {V} (d : list (string * V)) (k k' : string) (v : V) :
  dict_mem (dict_set d k v) k' = String.eqb k k' || dict_mem d k'.
Proof.
  unfold dict_mem, dict_get.
  induction d as [|[k0 v0] d IH]; simpl.
  - destruct (String.eqb k k'); reflexivity.
  - destruct (String.eqb k0 k) eqn:E0; simpl.
    + apply String.eqb_eq in E0. subst k0.
      destruct (String.eqb k k'); reflexivity.
    + destruct (String.eqb k0 k') eqn:E1; simpl.
      * now rewrite orb_true_r.
      * exact IH.
Qed.

Lemma dict_mem_nil {V} (k : string) : dict_mem (V := V) [] k = false.
Proof. reflexivity. Qed.

(** ** generate_opportunities *)

Ltac run_monad :=
  unfold bind, ret, raise, lift, get_state, modify, emit in *; simpl in *.

(** A second message for an identifier already in the batch's dict reaches
    [.get] on the stored dataclass instance. *)
Lemma is_most_recent_present (d : list (string * OpportunityData.t))
      (opp_id : string) (email : EmailData.t) :
  dict_mem d opp_id = true -> is_most_recent d opp_id email = Raise AttributeError.
Proof.
  intros Hmem. unfold is_most_recent, opportunities_get_or_empty.
  rewrite Hmem. simpl. unfold dict_mem in Hmem.
  destruct (dict_get d opp_id); [reflexivity|discriminate].
Qed.

Lemma is_most_recent_absent (d : list (string * OpportunityData.t))
      (opp_id : string) (email : EmailData.t) :
  dict_mem d opp_id = false -> is_most_recent d opp_id email = Ok true.
Proof. intros Hmem. unfold is_most_recent. now rewrite Hmem. Qed.

Lemma add_opportunity_present (w : World) (d : list (string * OpportunityData.t))
      (email : EmailData.t) (st : State) :
  dict_mem d (opportunity_id (EmailData.sender_email email)) = true ->
  add_opportunity w d email st = (Raise AttributeError, st).
Proof.
  intros Hmem. unfold add_opportunity, bind, lift.
  now rewrite (is_most_recent_present _ _ _ Hmem).
Qed.

(** A message for a new identifier: the folder is requested, once, before
    anything can raise; what raises afterwards is an [IndexError]. *)
Lemma add_opportunity_absent (w : World) (d : list (string * OpportunityData.t))
      (email : EmailData.t) (st : State) :
  dict_mem d (opportunity_id (EmailData.sender_email email)) = false ->
  count_events is_create_folder (trace (add_opportunity w d email st).2)
  = S (count_events is_create_folder (trace st))
  /\ (forall d', (add_opportunity w d email st).1 = Ok d' ->
        contains_at (EmailData.sender_email email) = true
        /\ forall k, dict_mem d' k
                     = String.eqb (opportunity_id (EmailData.sender_email email)) k
                       || dict_mem d k)
  /\ (forall e, (add_opportunity w d email st).1 = Raise e -> e = IndexError).
Proof.
  intros Hmem. unfold add_opportunity, bind, lift.
  rewrite (is_most_recent_absent _ _ _ Hmem), Hmem. simpl.
  unfold create_folder_for_lead, get_interaction_history, summarize_interactions.
  run_monad.
  destruct (interaction_history (report st) _) as [history|e] eqn:Eh; simpl.
  - pose proof (company_of_ok (EmailData.sender_email email)) as Hc.
    destruct (3 <? length (Py.split Py.newline history))%nat; simpl;
      destruct (company_of (EmailData.sender_email email)) as [company|e] eqn:Ec;
      simpl in *; (split; [|split]);
      try (rewrite !count_events_snoc; simpl; lia);
      try (intros d' Hd'; inversion Hd'; subst; split;
           [now symmetry | intros k; apply dict_mem_set]);
      try discriminate;
      try (intros e' He'; inversion He'; subst;
           unfold company_of in Ec;
           destruct (nth_error _ 1); [destruct (nth_error _ 0)|];
           congruence).
  - split; [|split].
    + rewrite !count_events_snoc; simpl; lia.
    + discriminate.
    + intros e' He'. inversion He'; subst.
      unfold interaction_history in Eh.
      destruct (report st) as [wb|]; [|discriminate].
      destruct (interaction_log wb); [|discriminate].
      destruct (_ && _); congruence.
Qed.


(** When [generate_opportunities] returns, no two messages of the batch
    shared an identifier and every sender address held an [@]. *)
Lemma generate_opportunities_from_ok (w : World) (emails : list EmailData.t) :
  forall d st d',
    (generate_opportunities_from w d emails st).1 = Ok d' ->
    Forall (fun e =>
              dict_mem d (opportunity_id (EmailData.sender_email e)) = false
              /\ contains_at (EmailData.sender_email e) = true) emails
    /\ NoDup (batch_ids emails).
Proof.
  induction emails as [|e rest IH]; intros d st d' Hok.
  - split; constructor.
  - cbn [generate_opportunities_from] in Hok. unfold bind in Hok.
    destruct (dict_mem d (opportunity_id (EmailData.sender_email e))) eqn:Hmem.
    + rewrite (add_opportunity_present w d e st Hmem) in Hok. discriminate.
    + destruct (add_opportunity_absent w d e st Hmem) as (_ & Hadd & _).
      destruct (add_opportunity w d e st) as [[d1|ex] st1]; [|discriminate].
      destruct (Hadd d1 eq_refl) as [Hat Hkeys].
      destruct (IH d1 st1 d' Hok) as [Hrest Hnodup].
      split.
      * constructor; [now split|].
        eapply Forall_impl; [exact Hrest|]. intros e' [Hm' Hat'].
        split; [|exact Hat']. rewrite Hkeys in Hm'.
        now apply orb_false_elim in Hm'.
      * cbn [batch_ids map]. constructor; [|exact Hnodup].
        intros Hin. apply list_elem_of_In, in_map_iff in Hin.
        destruct Hin as (e' & Heq & Hin). apply list_elem_of_In in Hin.
        rewrite Forall_forall in Hrest. destruct (Hrest e' Hin) as [Hm' _].
        rewrite Hkeys, Heq, String.eqb_refl in Hm'. discriminate.
Qed.

Lemma lookup_map {A B} (f : A -> B) (l : list A) (i : nat) :
  map f l !! i = f <$> l !! i.
Proof.
  revert i. induction l as [|x l IH]; intros [|i]; simpl; try reflexivity.
  apply IH.
Qed.

(** C1. Two lead messages of a batch from the same sender (addresses equal
    after lowercasing), wherever they stand in the batch and whatever their
    received stamps: [generate_opportunities] does not return a dict, so
    there is no Opportunity that carries the status and stamp of the later
    message. *)
Theorem same_sender_batch_never_returns (w : World) (st : State)
        (emails : list EmailData.t) (i j : nat) (e1 e2 : EmailData.t) :
  i <> j ->
  emails !! i = Some e1 ->
  emails !! j = Some e2 ->
  Py.lower (EmailData.sender_email e1) = Py.lower (EmailData.sender_email e2) ->
  forall d, (generate_opportunities w emails st).1 <> Ok d.
Proof.
  intros Hij H1 H2 Hsame d Hok.
  destruct (generate_opportunities_from_ok w emails [] st d Hok) as [_ Hnodup].
  apply Hij.
  apply (NoDup_lookup _ i j (opportunity_id (EmailData.sender_email e1)) Hnodup);
    unfold batch_ids; rewrite lookup_map.
  - now rewrite H1.
  - rewrite H2. simpl. unfold opportunity_id. now rewrite Hsame.
Qed.

Lemma same_sender_batch_never_returns_witness :
  (generate_opportunities
     (Sample.world [] Sample.created)
     [ Sample.email "a@x.com" "2025-03-01T10:00:00Z" (Sample.lead "New Lead" true);
       Sample.email "a@x.com" "2025-03-01T11:00:00Z" (Sample.lead "Proposal Sent" false) ]
     Sample.fresh).1 = Raise AttributeError
  /\ forall d,
       (generate_opportunities
          (Sample.world [] Sample.created)
          [ Sample.email "a@x.com" "2025-03-01T10:00:00Z" (Sample.lead "New Lead" true);
            Sample.email "a@x.com" "2025-03-01T11:00:00Z" (Sample.lead "Proposal Sent" false) ]
          Sample.fresh).1 <> Ok d.
Proof.
  split; [vm_compute; reflexivity|].
  apply (same_sender_batch_never_returns _ _ _ 0 1
           (Sample.email "a@x.com" "2025-03-01T10:00:00Z" (Sample.lead "New Lead" true))
           (Sample.email "a@x.com" "2025-03-01T11:00:00Z" (Sample.lead "Proposal Sent" false)));
    [lia | reflexivity | reflexivity | reflexivity].
Defined.

(** C2. A batch whose first two lead messages come from the same sender:
    the folder is requested exactly once, and [generate_opportunities] does
    not return, so no Opportunity record carries the link. *)
Theorem folder_requested_once_then_no_record (w : World) (st : State)
        (e1 e2 : EmailData.t) (rest : list EmailData.t) :
  Py.lower (EmailData.sender_email e1) = Py.lower (EmailData.sender_email e2) ->
  count_events is_create_folder
               (trace (generate_opportunities w (e1 :: e2 :: rest) st).2)
  = S (count_events is_create_folder (trace st))
  /\ forall d, (generate_opportunities w (e1 :: e2 :: rest) st).1 <> Ok d.
Proof.
  intros Hsame. split.
  - unfold generate_opportunities. cbn [generate_opportunities_from].
    unfold bind.
    destruct (add_opportunity_absent w [] e1 st eq_refl) as (Hcount & Hok & _).
    destruct (add_opportunity w [] e1 st) as [[d1|ex] st1]; [|exact Hcount].
    destruct (Hok d1 eq_refl) as [_ Hkeys].
    rewrite add_opportunity_present; [exact Hcount|].
    rewrite Hkeys. unfold opportunity_id. now rewrite Hsame, String.eqb_refl.
  - intros d Hok.
    destruct (generate_opportunities_from_ok w _ [] st d Hok) as [_ Hnodup].
    cbn [batch_ids map] in Hnodup. apply NoDup_cons in Hnodup.
    destruct Hnodup as [Hnotin _]. apply Hnotin.
    unfold opportunity_id. rewrite Hsame. now left.
Qed.

Lemma folder_requested_once_then_no_record_witness :
  count_events is_create_folder
    (trace (generate_opportunities
              (Sample.world [] Sample.created)
              [ Sample.email "a@x.com" "2025-03-01T10:00:00Z" (Sample.lead "New Lead" true);
                Sample.email "A@X.com" "2025-03-01T11:00:00Z" (Sample.lead "Proposal Sent" false);
                Sample.email "a@x.com" "2025-03-01T12:00:00Z" (Sample.lead "Won" false) ]
              Sample.fresh).2) = 1.
Proof.
  refine (proj1 (folder_requested_once_then_no_record _ _ _ _ _ _)).
  vm_compute. reflexivity.
Defined.

(** A single lead message of a new sender: one folder request, whose answer
    is the link of the record. *)
Example single_lead_folder :
  generate_opportunities
    (Sample.world [] Sample.created)
    [ Sample.email "a@x.com" "2025-03-01T10:00:00Z" (Sample.lead "New Lead" true) ]
    Sample.fresh
  = (Ok [ ("74317378",
           OpportunityData.mk "74317378" "Ann" "X" "a@x.com" ""
                              "Opportunity with Ann" "New Lead" ""
                              "2025-03-01T10:00:00Z"
                              (Some "https://drive/Lead-74317378")) ],
     log_event (EvCreateFolder "Lead-74317378" (Some "https://drive/Lead-74317378"))
               Sample.fresh).
Proof. vm_compute. reflexivity. Qed.

(** What the claim C10 says as it stands, and fails at the sender [a@]:
    a batch on which [generate_opportunities] returns has only senders with
    a nonempty first label after the [@]. *)
Lemma returns_without_domain_token :
  ~ (forall (w : World) (st : State) (emails : list EmailData.t) d,
        (generate_opportunities w emails st).1 = Ok d ->
        forall e, In e emails ->
                  has_domain_token (EmailData.sender_email e) = true).
Proof.
  intros H.
  specialize (H (Sample.world [] Sample.created) Sample.fresh
                [Sample.email "a@" "2025-03-01T10:00:00Z" (Sample.lead "New Lead" false)]
                [ ("8994f21f",
                   OpportunityData.mk "8994f21f" "Ann" "" "a@" ""
                     "Opportunity with Ann" "New Lead" ""
                     "2025-03-01T10:00:00Z"
                     (Some "https://drive/Lead-8994f21f")) ]).
  assert (Hok : (generate_opportunities (Sample.world [] Sample.created)
                   [Sample.email "a@" "2025-03-01T10:00:00Z" (Sample.lead "New Lead" false)]
                   Sample.fresh).1
                = Ok [ ("8994f21f",
                        OpportunityData.mk "8994f21f" "Ann" "" "a@" ""
                          "Opportunity with Ann" "New Lead" ""
                          "2025-03-01T10:00:00Z"
                          (Some "https://drive/Lead-8994f21f")) ])
    by (vm_compute; reflexivity).
  specialize (H Hok _ (or_introl eq_refl)).
  clear Hok. vm_compute in H. discriminate H.
Qed.

(** C10, amended. [generate_opportunities] returns only on batches in which
    every sender address holds an [@]; the company is derived exactly for
    such addresses (an empty domain gives the empty company); a batch that
    starts with a lead whose sender address is the empty string raises
    [IndexError]. *)
Theorem company_needs_at_sign (w : World) (st : State)
        (emails : list EmailData.t) (d : list (string * OpportunityData.t)) :
  (generate_opportunities w emails st).1 = Ok d ->
  (forall e, In e emails -> contains_at (EmailData.sender_email e) = true)
  /\ (forall address, is_ok (company_of address) = contains_at address)
  /\ (forall e rest st',
        EmailData.sender_email e = "" ->
        (generate_opportunities w (e :: rest) st').1 = Raise IndexError).
Proof.
  intros Hok. split; [|split].
  - destruct (generate_opportunities_from_ok w emails [] st d Hok) as [Hall _].
    rewrite Forall_forall in Hall. intros e Hin.
    apply list_elem_of_In in Hin. now destruct (Hall e Hin).
  - exact company_of_ok.
  - intros e rest st' Hempty.
    unfold generate_opportunities. cbn [generate_opportunities_from].
    unfold bind.
    destruct (add_opportunity_absent w [] e st' eq_refl) as (_ & Hadd & Hraise).
    destruct (add_opportunity w [] e st') as [[d1|ex] st1].
    + destruct (Hadd d1 eq_refl) as [Hat _]. rewrite Hempty in Hat. discriminate.
    + simpl. now rewrite (Hraise ex eq_refl).
Qed.

Lemma company_needs_at_sign_witness :
  contains_at "a@x.com" = true
  /\ (generate_opportunities
        (Sample.world [] Sample.created)
        [Sample.email "" "2025-03-01T10:00:00Z" (Sample.lead "New Lead" false)]
        Sample.fresh).1 = Raise IndexError.
Proof.
  assert (Hok : (generate_opportunities (Sample.world [] Sample.created)
                   [Sample.email "a@x.com" "2025-03-01T10:00:00Z" (Sample.lead "New Lead" true)]
                   Sample.fresh).1
                = Ok [ ("74317378",
                        OpportunityData.mk "74317378" "Ann" "X" "a@x.com" ""
                          "Opportunity with Ann" "New Lead" ""
                          "2025-03-01T10:00:00Z"
                          (Some "https://drive/Lead-74317378")) ])
    by (vm_compute; reflexivity).
  destruct (company_needs_at_sign _ _ _ _ Hok) as (Hat & _ & Hraise).
  split.
  - exact (Hat _ (or_introl eq_refl)).
  - apply Hraise. reflexivity.
Defined.

(** The empty sender address is what [process_emails] gives a message
    without a [from] member. *)
Example sender_of_message_without_from :
  EmailData.sender_email
    (email_of_message (GraphMessage.mk "m1" None None (Some "Hello")
                                       (Some "2025-03-01T10:00:00Z") (Some "meet")))
  = "".
Proof. reflexivity. Qed.

(** ** The summary threshold *)

(** The summary is asked for when the history has three line feeds or
    more, wherever they stand. *)
Lemma summary_threshold_counts_lines (history : string) :
  (3 <? length (Py.split Py.newline history))%nat
  = (3 <=? count_newlines history)%nat.
Proof.
  rewrite split_newline_length.
  destruct (Nat.leb_spec 3 (count_newlines history));
    [apply Nat.ltb_lt | apply Nat.ltb_ge]; lia.
Qed.

(** C9. With one earlier interaction-log entry for the identifier, whose
    summary cell has four lines, the next lead message of that sender makes
    [generate_opportunities] ask for a summary and store it as the notes. *)
Theorem summary_after_one_interaction :
  length (history_rows Sample.one_interaction_log "74317378") = 1
  /\ generate_opportunities
       (Sample.world [] Sample.created)
       [Sample.email "a@x.com" "2025-03-01T10:00:00Z" (Sample.lead "New Lead" false)]
       Sample.after_one_interaction
     = (Ok [ ("74317378",
              OpportunityData.mk "74317378" "Ann" "X" "a@x.com" ""
                                 "Opportunity with Ann" "New Lead" "summary"
                                 "2025-03-01T10:00:00Z"
                                 (Some "https://drive/Lead-74317378")) ],
        log_event
          (EvSummarize
             ("On 2025-01-20T09:00:00Z, a meeting was logged: "
                ++ Sample.four_lines))
          (log_event
             (EvCreateFolder "Lead-74317378" (Some "https://drive/Lead-74317378"))
             Sample.after_one_interaction)).
Proof. split; vm_compute; reflexivity. Qed.

(** ** The worksheet *)
















(** The row of a known sender after an upsert without notes: status and
    last contact are new, name, company, link and notes are the old ones. *)
Example upsert_known_sender :
  _update_opportunities_sheet Sample.master
    [ ("74317378",
       Sample.opportunity "a@x.com" "Proposal Sent" "2025-03-01T11:00:00Z" "") ]
  = [ map Some opportunities_headers;
      [ Some "74317378"; Some "Ann"; Some "X"; Some "a@x.com"; None;
        Some "Opportunity with Ann"; Some "Proposal Sent";
        Some "2025-03-01T11:00:00Z";
        Some "=HYPERLINK(https://drive/Lead-74317378, Open Folder)";
        Some "first notes" ] ].
Proof. vm_compute. reflexivity. Qed.

(** The keys of the dict that [generate_opportunities] returns are the
    identifiers of the records stored under them. *)
Lemma add_opportunity_keys (w : World) (d : list (string * OpportunityData.t))
      (email : EmailData.t) (st : State) (d' : list (string * OpportunityData.t)) :
  Forall (fun kv => OpportunityData.id kv.2 = kv.1) d ->
  (add_opportunity w d email st).1 = Ok d' ->
  Forall (fun kv => OpportunityData.id kv.2 = kv.1) d'.
Proof.
  intros Hd Hok.
  destruct (dict_mem d (opportunity_id (EmailData.sender_email email))) eqn:Hmem.
  { rewrite add_opportunity_present in Hok by exact Hmem. discriminate. }
  revert Hok. unfold add_opportunity, bind, lift.
  rewrite (is_most_recent_absent _ _ _ Hmem), Hmem. simpl.
  unfold create_folder_for_lead, get_interaction_history, summarize_interactions.
  run_monad.
  destruct (interaction_history (report st) _) as [history|e]; simpl;
    [|discriminate].
  assert (Hset : forall o,
             OpportunityData.id o = opportunity_id (EmailData.sender_email email) ->
             Forall (fun kv => OpportunityData.id kv.2 = kv.1)
                    (dict_set d (opportunity_id (EmailData.sender_email email)) o)).
  { intros o Ho. clear Hmem. induction d as [|[k v] d IH]; simpl.
    - constructor; [exact Ho | constructor].
    - inversion Hd; subst.
      destruct (String.eqb k _); constructor; auto. }
  destruct (3 <? length (Py.split Py.newline history))%nat; simpl;
    destruct (company_of (EmailData.sender_email email)); simpl;
    intros Hok; inversion Hok; subst; now apply Hset.
Qed.

Lemma generate_opportunities_keys (w : World) (emails : list EmailData.t)
      (st : State) (d : list (string * OpportunityData.t)) :
  (generate_opportunities w emails st).1 = Ok d ->
  Forall (fun kv => OpportunityData.id kv.2 = kv.1) d.
Proof.
  unfold generate_opportunities.
  assert (Hgen : forall d0 st0,
             Forall (fun kv => OpportunityData.id kv.2 = kv.1) d0 ->
             (generate_opportunities_from w d0 emails st0).1 = Ok d ->
             Forall (fun kv => OpportunityData.id kv.2 = kv.1) d).
  { induction emails as [|e rest IH]; intros d0 st0 Hd0 Hok.
    - simpl in Hok. inversion Hok. now subst.
    - cbn [generate_opportunities_from] in Hok. unfold bind in Hok.
      pose proof (add_opportunity_keys w d0 e st0) as Hstep.
      destruct (add_opportunity w d0 e st0) as [[d1|ex] st1]; [|discriminate].
      exact (IH d1 st1 (Hstep d1 Hd0 eq_refl) Hok). }
  apply Hgen. constructor.
Qed.

(** ** The pickle files *)

(** A [save_pickle] that is not cut short leaves the disk of a crash after
    the last byte. *)
Lemma save_pickle_complete (lib : Library) (data : gset string)
      (filename : string) (st : State) :
  disk (save_pickle lib data filename st).2
  = disk_at_crash lib (CrashAfterWriting (length (pickle_dumps lib data)))
                  data filename (disk st).
Proof.
  unfold save_pickle, disk_at_crash, write_pickle. run_monad.
  now rewrite firstn_all.
Qed.

(** The file is opened for writing before the first byte is written: a
    crash then leaves an empty file, which loads as the empty set. *)
Lemma crash_after_open_loads_empty (lib : Library)
      (d : gmap string (list Byte.byte)) (data : gset string) (filename : string) :
  pickle_loads lib [] = None ->
  read_pickle lib (disk_at_crash lib (CrashAfterWriting 0) data filename d)
              filename = ∅.
Proof.
  intros Hempty. unfold read_pickle, disk_at_crash.
  rewrite lookup_insert_eq. rewrite take_0. now rewrite Hempty.
Qed.

(** What the claim C8 says as it stands: whatever the point at which a
    [save_pickle] is cut short, the file loads as the old or as the new
    set.  It fails for a crash between the opening of the file and the
    first byte. *)
Lemma interrupted_save_is_not_atomic :
  ~ (forall (d : gmap string (list Byte.byte)) (data : gset string)
            (filename : string) (cp : crash_point),
        read_pickle Reference.library
          (disk_at_crash Reference.library cp data filename d) filename
        = read_pickle Reference.library d filename
        \/ read_pickle Reference.library
             (disk_at_crash Reference.library cp data filename d) filename
           = data).
Proof.
  intros H.
  specialize (H (<["processed_emails.pkl" := Reference.dumps {["m1"]}]> ∅)
                ({["m1"]} ∪ {["m2"]}) "processed_emails.pkl"
                (CrashAfterWriting 0)).
  rewrite crash_after_open_loads_empty in H by reflexivity.
  destruct H as [H|H]; apply (f_equal elements) in H;
    vm_compute in H; discriminate H.
Qed.

(** C8, amended. [save_pickle] writes the file in place.  When the pickle of
    the new set loads back and no proper prefix of it loads, the set loaded
    after an interrupted save is the old set if the crash came before the
    file was opened, the empty set if it came after the opening and before
    the last byte, and the new set after the last byte; a save that runs
    to its end is the last case. *)
Theorem interrupted_save_loads_old_empty_or_new
        (lib : Library) (d : gmap string (list Byte.byte)) (data : gset string)
        (filename : string) (cp : crash_point) :
  pickle_loads lib (pickle_dumps lib data) = Some data ->
  (forall n, n < length (pickle_dumps lib data) ->
             pickle_loads lib (take n (pickle_dumps lib data)) = None) ->
  read_pickle lib (disk_at_crash lib cp data filename d) filename
  = match cp with
    | CrashBeforeOpen => read_pickle lib d filename
    | CrashAfterWriting n =>
        if (n <? length (pickle_dumps lib data))%nat then ∅ else data
    end
  /\ forall st,
       read_pickle lib (disk (save_pickle lib data filename st).2) filename
       = data.
Proof.
  intros Hround Hcut. split.
  - destruct cp as [|n]; [reflexivity|].
    unfold read_pickle, disk_at_crash. rewrite lookup_insert_eq.
    destruct (Nat.ltb_spec n (length (pickle_dumps lib data))) as [Hlt|Hge].
    + now rewrite (Hcut n Hlt).
    + rewrite take_ge by lia. now rewrite Hround.
  - intros st. rewrite save_pickle_complete.
    unfold read_pickle, disk_at_crash. rewrite lookup_insert_eq.
    rewrite firstn_all. now rewrite Hround.
Qed.

Lemma interrupted_save_loads_old_empty_or_new_witness :
  read_pickle Reference.library
    (disk_at_crash Reference.library (CrashAfterWriting 3)
       ({["m1"]} ∪ {["m2"]}) "processed_emails.pkl"
       (<["processed_emails.pkl" := Reference.dumps {["m1"]}]> ∅))
    "processed_emails.pkl" = ∅.
Proof.
  refine (proj1 (interrupted_save_loads_old_empty_or_new
                   Reference.library _ _ _ (CrashAfterWriting 3) _ _)).
  - vm_compute. reflexivity.
  - intros n Hn. vm_compute in Hn.
    do 11 (destruct n as [|n]; [vm_compute; reflexivity|]). lia.
Defined.

(** ** The meeting scheduler *)

Lemma opt_truthy_lower (o : option string) :
  Py.truthy (Py.lower (opt_default "" o)) = opt_truthy o.
Proof. destruct o as [s|]; [apply lower_empty | reflexivity]. Qed.

Lemma call_fingerprint_of_key (c : ScheduleCall) :
  call_fingerprint c = fingerprint_of_key (event_key c).
Proof.
  unfold call_fingerprint, _generate_event_fingerprint, fingerprint_of_key,
    event_key.
  now rewrite !lower_append.
Qed.

(** Calls with the same key pass or fail the guard on date and start time
    together. *)
Lemma has_schedule_of_key (c : ScheduleCall) :
  has_schedule (Some (call_parsed c))
  = ParsedData.has_meeting (call_parsed c)
    && Py.truthy (event_key c).1.1.2 && Py.truthy (event_key c).1.2.
Proof. unfold has_schedule, event_key. simpl. now rewrite !opt_truthy_lower. Qed.

Lemma create_event_not_applicable (lib : Library) (w : World) (p : ParsedData.t)
      (email name : string) (st : State) :
  has_schedule (Some p) = false ->
  create_event lib w (Some p) email name st = (Ok None, st).
Proof. intros Hno. unfold create_event. now rewrite Hno. Qed.

Lemma create_event_duplicate (lib : Library) (w : World) (p : ParsedData.t)
      (email name : string) (st : State) :
  has_schedule (Some p) = true ->
  _generate_event_fingerprint p email ∈ processed_events st ->
  create_event lib w (Some p) email name st = (Ok (Some "duplicate_skipped"), st).
Proof.
  intros Hyes Hin. unfold create_event. rewrite Hyes. run_monad.
  now rewrite bool_decide_eq_true_2.
Qed.

Lemma create_event_new (lib : Library) (w : World) (p : ParsedData.t)
      (email name : string) (st : State) :
  has_schedule (Some p) = true ->
  _generate_event_fingerprint p email ∉ processed_events st ->
  create_event lib w (Some p) email name st
  = match _build_event_payload lib p email name with
    | Raise e => (Raise e, st)
    | Ok payload =>
        let response :=
          calendar_post w (count_events is_calendar_post (trace st)) payload in
        match response with
        | TransportError =>
            (Raise RequestException, log_event (EvCalendarPost payload response) st)
        | Response code event_id =>
            if (code =? 201)%Z
            then (Ok (Some event_id),
                  state_after_created lib (_generate_event_fingerprint p email)
                                      payload response st)
            else (Ok None, log_event (EvCalendarPost payload response) st)
        end
    end.
Proof.
  intros Hyes Hnotin. unfold create_event. rewrite Hyes. run_monad.
  rewrite bool_decide_eq_false_2 by exact Hnotin.
  destruct (_build_event_payload lib p email name) as [payload|e];
    [|reflexivity].
  destruct (calendar_post w _ payload) as [|code event_id]; [reflexivity|].
  destruct (code =? 201)%Z; reflexivity.
Qed.

(** Once the fingerprint is in the set, every call that passes the guard is
    skipped and leaves the state as it is. *)
Lemma schedule_all_duplicates (lib : Library) (w : World)
      (calls : list ScheduleCall) (st : State) (fp : string) :
  fp ∈ processed_events st ->
  Forall (fun c => has_schedule (Some (call_parsed c)) = true
                   /\ call_fingerprint c = fp) calls ->
  schedule_all lib w calls st
  = (map (fun _ => Ok (Some "duplicate_skipped")) calls, st).
Proof.
  intros Hin Hall. induction Hall as [|c rest [Hyes Hfp] _ IH]; [reflexivity|].
  cbn [schedule_all map].
  rewrite create_event_duplicate; [|exact Hyes|now rewrite <- Hfp in Hin].
  now rewrite IH.
Qed.

(** What the claim C5 says as it stands, and fails when the calendar
    refuses the first request: calls with one key issue at most one
    [POST /me/events]. *)
Lemma retry_after_failure_posts_again :
  ~ (forall (lib : Library) (w : World) (calls : list ScheduleCall) (st : State)
            (key : string * string * string * string),
        (forall c, In c calls ->
                   ParsedData.has_meeting (call_parsed c) = true
                   /\ event_key c = key) ->
        count_events is_calendar_post
                     (new_events st (schedule_all lib w calls st).2) <= 1).
Proof.
  intros H.
  specialize (H Reference.library (Sample.world [] Sample.refused_once)
                [Sample.call; Sample.call_upper] Sample.fresh
                ("intro call", "2025-03-01", "10:00", "a@x.com")).
  assert (Hkeys : forall c, In c [Sample.call; Sample.call_upper] ->
                    ParsedData.has_meeting (call_parsed c) = true
                    /\ event_key c = ("intro call", "2025-03-01", "10:00", "a@x.com")).
  { intros c [<-|[<-|[]]]; split; vm_compute; reflexivity. }
  specialize (H Hkeys). clear Hkeys. vm_compute in H. lia.
Qed.

Lemma later_are_skipped_cons (r : result (option string))
      (outcomes : list (result (option string))) :
  (forall x, r <> Ok (Some x)) ->
  later_are_skipped outcomes ->
  later_are_skipped (r :: outcomes).
Proof.
  intros Hr Hrest i j x r' Hij Hi Hj.
  destruct i as [|i]; [simpl in Hi; inversion Hi; subst; now destruct (Hr x)|].
  destruct j as [|j]; [lia|].
  simpl in Hi, Hj. apply (Hrest i j x r'); [lia|exact Hi|exact Hj].
Qed.

Lemma later_are_skipped_duplicates {A} (r : result (option string))
      (calls : list A) :
  later_are_skipped (r :: map (fun _ => Ok (Some "duplicate_skipped")) calls).
Proof.
  intros i j x r' Hij _ Hj.
  destruct j as [|j]; [lia|]. simpl in Hj.
  rewrite lookup_map in Hj. destruct (calls !! j); simpl in Hj; congruence.
Qed.

(** C5, amended. Calls of [create_event] that [process_emails] makes (the
    classification has a meeting) with one key (subject, date, start time
    and attendee equal after lowercasing), from any state and whatever the
    calendar answers.  The trace grows by requests that failed, followed by
    nothing or by one request answered 201 and the write of the set with
    the fingerprint added; so at most one request creates an event, none is
    sent after it, and the set changes only then.  Every call after one
    that returned a value returns the mark of a skipped duplicate. *)
Theorem same_key_creates_at_most_one_event
        (lib : Library) (w : World) (calls : list ScheduleCall) (st : State)
        (key : string * string * string * string) :
  (forall c, In c calls ->
             ParsedData.has_meeting (call_parsed c) = true
             /\ event_key c = key) ->
  exists failed tail,
    trace (schedule_all lib w calls st).2 = trace st ++ failed ++ tail
    /\ forallb is_failed_post failed = true
    /\ ((tail = []
         /\ processed_events (schedule_all lib w calls st).2
            = processed_events st)
        \/ (exists payload event_id,
              (fingerprint_of_key key ∉ processed_events st)
              /\ tail = [ EvCalendarPost payload (Response 201 event_id);
                          EvSavePickle "processed_events.pkl"
                            ({[fingerprint_of_key key]} ∪ processed_events st) ]
              /\ processed_events (schedule_all lib w calls st).2
                 = {[fingerprint_of_key key]} ∪ processed_events st))
    /\ count_events is_created_post (failed ++ tail) <= 1
    /\ later_are_skipped (schedule_all lib w calls st).1.
Proof.
  revert st. induction calls as [|c rest IH]; intros st Hcalls.
  { exists [], []. simpl. rewrite app_nil_r.
    repeat split; auto. intros i j x r _ Hi. discriminate Hi. }
  assert (Hrest : forall c', In c' rest ->
                    ParsedData.has_meeting (call_parsed c') = true
                    /\ event_key c' = key)
    by (intros c' Hin; apply Hcalls; now right).
  destruct (Hcalls c (or_introl eq_refl)) as [Hmeeting Hkey].
  pose proof (call_fingerprint_of_key c) as Hfp. rewrite Hkey in Hfp.
  unfold call_fingerprint in Hfp.
  cbn [schedule_all].
  destruct (has_schedule (Some (call_parsed c))) eqn:Hguard.
  - (* the call passes the guard, and so do the others *)
    assert (Hdup : Forall (fun c' => has_schedule (Some (call_parsed c')) = true
                                     /\ call_fingerprint c' = fingerprint_of_key key)
                          rest).
    { apply Forall_forall. intros c' Hin. apply list_elem_of_In in Hin.
      destruct (Hrest c' Hin) as [Hm' Hk']. split.
      - rewrite has_schedule_of_key in Hguard |- *.
        rewrite Hm', Hk'. rewrite Hmeeting, Hkey in Hguard. exact Hguard.
      - now rewrite call_fingerprint_of_key, Hk'. }
    destruct (decide (fingerprint_of_key key ∈ processed_events st)) as [Hin|Hnotin].
    + rewrite create_event_duplicate by (try rewrite Hfp; assumption).
      rewrite (schedule_all_duplicates lib w rest st _ Hin Hdup).
      exists [], []. simpl. rewrite app_nil_r.
      repeat split; auto. apply later_are_skipped_duplicates.
    + rewrite create_event_new by (try rewrite Hfp; assumption).
      rewrite Hfp.
      destruct (_build_event_payload lib (call_parsed c) (call_email c)
                                     (call_name c)) as [payload|e].
      2:{ destruct (IH st Hrest) as (failed & tail & Htrace & Hfailed & Hset
                                     & Hcount & Hskip).
          destruct (schedule_all lib w rest st) as [outcomes st'].
          exists failed, tail. repeat split; auto.
          apply later_are_skipped_cons; [discriminate|exact Hskip]. }
      cbn zeta.
      destruct (calendar_post w (count_events is_calendar_post (trace st)) payload)
        as [|code event_id] eqn:Hresponse.
      * (* the request itself fails *)
        destruct (IH (log_event (EvCalendarPost payload TransportError) st) Hrest)
          as (failed & tail & Htrace & Hfailed & Hset & Hcount & Hskip).
        destruct (schedule_all lib w rest _) as [outcomes st'].
        exists (EvCalendarPost payload TransportError :: failed), tail.
        simpl in *. rewrite Htrace, <- !app_assoc. simpl.
        repeat split; auto.
        apply later_are_skipped_cons; [discriminate|exact Hskip].
      * destruct (code =? 201)%Z eqn:Hcode.
        -- (* the event is created *)
           apply Z.eqb_eq in Hcode. subst code.
           rewrite (schedule_all_duplicates lib w rest _ (fingerprint_of_key key));
             [|simpl; apply elem_of_union; left; now apply elem_of_singleton|exact Hdup].
           exists [], [ EvCalendarPost payload (Response 201 event_id);
                        EvSavePickle "processed_events.pkl"
                          ({[fingerprint_of_key key]} ∪ processed_events st) ].
           simpl. rewrite <- app_assoc. simpl.
           repeat split; auto.
           ++ right. exists payload, event_id. repeat split; auto.
           ++ apply later_are_skipped_duplicates.
        -- (* the request is refused *)
           destruct (IH (log_event (EvCalendarPost payload (Response code event_id)) st)
                        Hrest)
             as (failed & tail & Htrace & Hfailed & Hset & Hcount & Hskip).
           destruct (schedule_all lib w rest _) as [outcomes st'].
           exists (EvCalendarPost payload (Response code event_id) :: failed), tail.
           simpl in *. rewrite Htrace, <- !app_assoc. simpl. rewrite Hcode. simpl.
           repeat split; auto.
           ++ unfold count_events in *. simpl. rewrite Hcode. exact Hcount.
           ++ apply later_are_skipped_cons; [discriminate|exact Hskip].
  - (* the call stops at the guard *)
    rewrite create_event_not_applicable by exact Hguard.
    destruct (IH st Hrest) as (failed & tail & Htrace & Hfailed & Hset
                               & Hcount & Hskip).
    destruct (schedule_all lib w rest st) as [outcomes st'].
    exists failed, tail. repeat split; auto.
    apply later_are_skipped_cons; [discriminate|exact Hskip].
Qed.

Lemma same_key_creates_at_most_one_event_witness :
  later_are_skipped
    (schedule_all Reference.library (Sample.world [] Sample.refused_once)
                  [Sample.call; Sample.call_upper; Sample.call] Sample.fresh).1.
Proof.
  destruct (same_key_creates_at_most_one_event
              Reference.library (Sample.world [] Sample.refused_once)
              [Sample.call; Sample.call_upper; Sample.call] Sample.fresh
              ("intro call", "2025-03-01", "10:00", "a@x.com"))
    as (failed & tail & _ & _ & _ & _ & Hskip).
  - intros c [<-|[<-|[<-|[]]]]; split; vm_compute; reflexivity.
  - exact Hskip.
Defined.

(** Three calls with one key, the first request refused: two requests are
    sent, the second creates the event, the third call is skipped. *)
Example refused_then_created_then_skipped :
  (schedule_all Reference.library (Sample.world [] Sample.refused_once)
                [Sample.call; Sample.call_upper; Sample.call] Sample.fresh).1
  = [Ok None; Ok (Some "evt-1"); Ok (Some "duplicate_skipped")]
  /\ count_events is_calendar_post
       (trace (schedule_all Reference.library (Sample.world [] Sample.refused_once)
                 [Sample.call; Sample.call_upper; Sample.call] Sample.fresh).2)
     = 2
  /\ count_events is_created_post
       (trace (schedule_all Reference.library (Sample.world [] Sample.refused_once)
                 [Sample.call; Sample.call_upper; Sample.call] Sample.fresh).2)
     = 1.
Proof. repeat split; vm_compute; reflexivity. Qed.

(** ** The trace of a cycle *)

Section Emits.

Context (P : Event -> bool).

Lemma emits_only_ret {A} (a : A) : emits_only P (ret a).
Proof. intros st. exists []. now rewrite app_nil_r. Qed.

Lemma emits_only_raise {A} (e : exn) : emits_only P (raise (A := A) e).
Proof. intros st. exists []. now rewrite app_nil_r. Qed.

Lemma emits_only_lift {A} (r : result A) : emits_only P (lift r).
Proof. intros st. exists []. now rewrite app_nil_r. Qed.

Lemma emits_only_get_state : emits_only P get_state.
Proof. intros st. exists []. now rewrite app_nil_r. Qed.

Lemma emits_only_modify (f : State -> State) :
  (forall st, trace (f st) = trace st) -> emits_only P (modify f).
Proof. intros Hf st. exists []. simpl. now rewrite Hf, app_nil_r. Qed.

Lemma emits_only_emit (e : Event) : P e = true -> emits_only P (emit e).
Proof. intros He st. exists [e]. simpl. now rewrite He. Qed.

Lemma emits_only_bind {A B} (c : M A) (k : A -> M B) :
  emits_only P c -> (forall a, emits_only P (k a)) -> emits_only P (bind c k).
Proof.
  intros Hc Hk st. unfold bind.
  destruct (Hc st) as (new1 & Htrace1 & Hall1).
  destruct (c st) as [[a|e] st1]; simpl in *.
  - destruct (Hk a st1) as (new2 & Htrace2 & Hall2).
    exists (new1 ++ new2). rewrite Htrace2, Htrace1, <- app_assoc.
    split; [reflexivity|]. rewrite forallb_app. now rewrite Hall1, Hall2.
  - exists new1. now split.
Qed.

End Emits.

Section Preserves.

Context {X : Type} (field : State -> X).

Lemma preserves_ret {A} (a : A) : preserves field (ret a).
Proof. intros st. reflexivity. Qed.

Lemma preserves_raise {A} (e : exn) : preserves field (raise (A := A) e).
Proof. intros st. reflexivity. Qed.

Lemma preserves_lift {A} (r : result A) : preserves field (lift r).
Proof. intros st. reflexivity. Qed.

Lemma preserves_get_state : preserves field get_state.
Proof. intros st. reflexivity. Qed.

Lemma preserves_modify (f : State -> State) :
  (forall st, field (f st) = field st) -> preserves field (modify f).
Proof. intros Hf st. simpl. apply Hf. Qed.

Lemma preserves_emit (e : Event) :
  (forall st, field (log_event e st) = field st) -> preserves field (emit e).
Proof. intros He. now apply preserves_modify. Qed.

Lemma preserves_bind {A B} (c : M A) (k : A -> M B) :
  preserves field c -> (forall a, preserves field (k a)) ->
  preserves field (bind c k).
Proof.
  intros Hc Hk st. unfold bind. specialize (Hc st).
  destruct (c st) as [[a|e] st1]; simpl in *; [|exact Hc].
  now rewrite Hk.
Qed.

End Preserves.

Create HintDb cycle.

#[local] Hint Resolve emits_only_ret emits_only_raise emits_only_lift
  emits_only_get_state emits_only_bind preserves_ret preserves_raise
  preserves_lift preserves_get_state preserves_bind : cycle.

Ltac cycle_step :=
  repeat first
    [ apply emits_only_bind; [|intros ?]
    | apply preserves_bind; [|intros ?]
    | apply emits_only_emit; reflexivity
    | apply emits_only_modify; intros ?; reflexivity
    | apply preserves_emit; intros ?; reflexivity
    | apply preserves_modify; intros ?; reflexivity
    | solve [auto with cycle] ].

Lemma save_pickle_emits (lib : Library) (data : gset string) (filename : string) :
  emits_only is_fetch_event (save_pickle lib data filename).
Proof. unfold save_pickle. cycle_step. Qed.

Lemma save_pickle_keeps_report (lib : Library) (data : gset string)
      (filename : string) :
  preserves report (save_pickle lib data filename).
Proof. unfold save_pickle. cycle_step. Qed.

Lemma create_event_emits (lib : Library) (w : World) (parsed : option ParsedData.t)
      (email name : string) :
  emits_only is_fetch_event (create_event lib w parsed email name).
Proof.
  unfold create_event. destruct parsed as [p|]; [|cycle_step].
  destruct (negb _); [cycle_step|].
  apply emits_only_bind; [cycle_step|intros st0].
  destruct (bool_decide _); [cycle_step|].
  apply emits_only_bind; [cycle_step|intros payload].
  apply emits_only_bind; [cycle_step|intros _].
  destruct (calendar_post _ _ _) as [|code event_id]; [cycle_step|].
  destruct (code =? 201)%Z; cycle_step.
Qed.

Lemma create_event_keeps_report (lib : Library) (w : World)
      (parsed : option ParsedData.t) (email name : string) :
  preserves report (create_event lib w parsed email name).
Proof.
  unfold create_event. destruct parsed as [p|]; [|cycle_step].
  destruct (negb _); [cycle_step|].
  apply preserves_bind; [cycle_step|intros st0].
  destruct (bool_decide _); [cycle_step|].
  apply preserves_bind; [cycle_step|intros payload].
  apply preserves_bind; [cycle_step|intros _].
  destruct (calendar_post _ _ _) as [|code event_id]; [cycle_step|].
  destruct (code =? 201)%Z; cycle_step.
Qed.

Lemma process_message_emits (lib : Library) (w : World) (msg : GraphMessage.t) :
  emits_only is_fetch_event (process_message lib w msg).
Proof.
  unfold process_message, parse_email.
  apply emits_only_bind; [cycle_step|intros parsed].
  apply emits_only_bind; [|intros email; cycle_step].
  destruct parsed as [p|]; [|cycle_step].
  destruct (ParsedData.is_lead p); [|cycle_step].
  destruct (ParsedData.has_meeting p); [|cycle_step].
  apply emits_only_bind; [apply create_event_emits|intros; cycle_step].
Qed.

Lemma process_message_keeps_report (lib : Library) (w : World)
      (msg : GraphMessage.t) :
  preserves report (process_message lib w msg).
Proof.
  unfold process_message, parse_email.
  apply preserves_bind; [cycle_step|intros parsed].
  apply preserves_bind; [|intros email; cycle_step].
  destruct parsed as [p|]; [|cycle_step].
  destruct (ParsedData.is_lead p); [|cycle_step].
  destruct (ParsedData.has_meeting p); [|cycle_step].
  apply preserves_bind; [apply create_event_keeps_report|intros; cycle_step].
Qed.

Lemma process_messages_trace (lib : Library) (w : World)
      (messages : list GraphMessage.t) :
  forall acc st,
    report (process_messages lib w messages acc st).2 = report st
    /\ exists new,
         trace (process_messages lib w messages acc st).2 = trace st ++ new
         /\ forallb is_fetch_event new = true.
Proof.
  induction messages as [|msg rest IH]; intros acc st.
  - split; [reflexivity|]. exists []. now rewrite app_nil_r.
  - cbn [process_messages].
    destruct (bool_decide _); [apply IH|].
    pose proof (process_message_keeps_report lib w msg st) as Hreport.
    destruct (process_message_emits lib w msg st) as (new1 & Htrace1 & Hall1).
    destruct (process_message lib w msg st) as [[email|e] st1]; simpl in *.
    + destruct (IH (acc ++ [email]) st1) as (Hreport2 & new2 & Htrace2 & Hall2).
      split; [congruence|].
      exists (new1 ++ new2). rewrite Htrace2, Htrace1, <- app_assoc.
      split; [reflexivity|]. rewrite forallb_app. now rewrite Hall1, Hall2.
    + split; [exact Hreport|]. exists new1. now split.
Qed.

(** [process_emails] returns a list; it leaves the report alone; its events
    are those of the fetch half; when the list is not empty, the last of
    them is the write of [processed_emails.pkl]. *)
Lemma process_emails_trace (lib : Library) (w : World) (st : State) :
  exists emails fetched,
    (process_emails lib w st).1 = Ok emails
    /\ report (process_emails lib w st).2 = report st
    /\ trace (process_emails lib w st).2 = trace st ++ fetched
    /\ forallb is_fetch_event fetched = true
    /\ (nonempty emails = true ->
        existsb (is_save_pickle "processed_emails.pkl") fetched = true
        /\ last fetched
           = Some (EvSavePickle "processed_emails.pkl"
                     (processed_emails (process_emails lib w st).2))).
Proof.
  unfold process_emails.
  set (st0 := log_event EvGetMessages st).
  assert (Hloop : exists emails st1 new,
             match graph_messages w with
             | Ok messages => process_messages lib w messages [] st0
             | Raise _ => ([], st0)
             end = (emails, st1)
             /\ report st1 = report st
             /\ trace st1 = trace st ++ EvGetMessages :: new
             /\ forallb is_fetch_event new = true).
  { destruct (graph_messages w) as [messages|e].
    - destruct (process_messages_trace lib w messages [] st0)
        as (Hreport & new & Htrace & Hall).
      destruct (process_messages lib w messages [] st0) as [emails st1].
      exists emails, st1, new. simpl in *.
      rewrite Htrace, <- app_assoc. now repeat split.
    - exists [], st0, []. now repeat split. }
  destruct Hloop as (emails & st1 & new & -> & Hreport & Htrace & Hall).
  exists emails.
  destruct (nonempty emails) eqn:Hne.
  - exists (EvGetMessages :: new
            ++ [EvSavePickle "processed_emails.pkl" (processed_emails st1)]).
    unfold save_pickle. run_monad. rewrite Htrace, <- app_assoc. simpl.
    repeat split; auto.
    + rewrite forallb_app, Hall. reflexivity.
    + rewrite existsb_app. simpl. now rewrite orb_true_r.
    + change (EvGetMessages
                :: new ++ [EvSavePickle "processed_emails.pkl" (processed_emails st1)])
        with ((EvGetMessages :: new)
                ++ [EvSavePickle "processed_emails.pkl" (processed_emails st1)]).
      apply last_snoc.
  - exists (EvGetMessages :: new). simpl. repeat split; auto; discriminate.
Qed.













(** One lead message: the set is written to its file, then the folder is
    requested, then the report is saved. *)
Example cycle_with_one_lead :
  map (fun e => (is_save_pickle "processed_emails.pkl" e, is_create_folder e,
                 is_save_workbook e))
      (trace (run_cycle Reference.library
                (Sample.world [Sample.message "m1" "a@x.com" "2025-02-20T09:00:00Z" "later"]
                              Sample.created)
                Sample.fresh).2)
  = [ (false, false, false); (false, false, false);
      (true, false, false); (false, true, false); (false, false, true) ].
Proof. vm_compute. reflexivity. Qed.

(** ** Batches without leads *)

Lemma process_message_not_lead (lib : Library) (w : World)
      (msg : GraphMessage.t) (st : State) :
  (forall subject body p,
      gemini_json w subject body = Some p -> ParsedData.is_lead p = false) ->
  process_message lib w msg st
  = (Ok (email_of_message msg),
     set_processed_emails
       ({[GraphMessage.id msg]} ∪ processed_emails st)
       (log_event (EvClassify
                     (EmailData.subject (email_of_message msg))
                     (Py.take 1500 (EmailData.body_preview (email_of_message msg))))
                  st)).
Proof.
  intros Hno. unfold process_message, parse_email. run_monad.
  destruct (gemini_json w _ _) as [p|] eqn:Hp; [|reflexivity].
  now rewrite (Hno _ _ _ Hp).
Qed.

Lemma process_messages_not_lead (lib : Library) (w : World)
      (messages : list GraphMessage.t) :
  (forall subject body p,
      gemini_json w subject body = Some p -> ParsedData.is_lead p = false) ->
  forall acc st,
    Forall (fun e => EmailData.is_lead e = false) acc ->
    Forall (fun e => EmailData.is_lead e = false)
           (process_messages lib w messages acc st).1
    /\ processed_emails st ⊆ processed_emails (process_messages lib w messages acc st).2
    /\ forall m, In m messages ->
                 GraphMessage.id m
                 ∈ processed_emails (process_messages lib w messages acc st).2.
Proof.
  intros Hno. induction messages as [|msg rest IH]; intros acc st Hacc.
  - simpl. repeat split; auto. intros m [].
  - cbn [process_messages].
    destruct (bool_decide (GraphMessage.id msg ∈ processed_emails st)) eqn:Hseen.
    + apply bool_decide_eq_true_1 in Hseen.
      destruct (IH acc st Hacc) as (Hall & Hsub & Hids).
      repeat split; auto.
      intros m [<-|Hin]; [now apply Hsub|now apply Hids].
    + rewrite (process_message_not_lead lib w msg st Hno).
      match goal with
      | |- context [process_messages lib w rest ?acc' ?st'] =>
          destruct (IH acc' st') as (Hall & Hsub & Hids)
      end.
      { apply Forall_app. split; [exact Hacc|]. now repeat constructor. }
      simpl in Hsub. repeat split; auto.
      * intros x Hx. apply Hsub. apply elem_of_union. now right.
      * intros m [<-|Hin]; [|now apply Hids].
        apply Hsub. apply elem_of_union. left. now apply elem_of_singleton.
Qed.

Lemma filter_no_lead (emails : list EmailData.t) :
  Forall (fun e => EmailData.is_lead e = false) emails ->
  List.filter EmailData.is_lead emails = [].
Proof.
  induction 1 as [|e emails He _ IH]; [reflexivity|].
  simpl. now rewrite He.
Qed.

Lemma fetch_events_no_save (fetched : list Event) :
  forallb is_fetch_event fetched = true ->
  count_events is_save_workbook fetched = 0.
Proof.
  unfold count_events. induction fetched as [|e fetched IH]; [reflexivity|].
  cbn [forallb]. intros Hall. apply andb_prop in Hall. destruct Hall as [He Hall].
  destruct e; try discriminate He; simpl; now apply IH.
Qed.

(** C4. When the classifier finds no lead among the messages of a cycle
    (its answer does not parse, or says that the message is not a lead),
    the cycle does not touch the report: no row goes into the email log,
    and no save of the report is attempted.  The fetched messages are
    marked as processed all the same. *)
Theorem batch_without_leads_is_not_logged (lib : Library) (w : World) (st : State) :
  (forall subject body p,
      gemini_json w subject body = Some p -> ParsedData.is_lead p = false) ->
  report (run_cycle lib w st).2 = report st
  /\ count_events is_save_workbook (trace (run_cycle lib w st).2)
     = count_events is_save_workbook (trace st)
  /\ forall messages m,
       graph_messages w = Ok messages ->
       In m messages ->
       GraphMessage.id m ∈ processed_emails (run_cycle lib w st).2.
Proof.
  intros Hno.
  assert (Hleads : forall emails st1,
             (process_emails lib w st) = (Ok emails, st1) ->
             List.filter EmailData.is_lead emails = []
             /\ forall messages m,
                  graph_messages w = Ok messages ->
                  In m messages ->
                  GraphMessage.id m ∈ processed_emails st1).
  { intros emails st1. unfold process_emails.
    destruct (graph_messages w) as [messages|e].
    - destruct (process_messages_not_lead lib w messages Hno []
                  (log_event EvGetMessages st)) as (Hall & _ & Hids);
        [constructor|].
      destruct (process_messages lib w messages [] _) as [emails' st'].
      simpl in Hall, Hids. unfold save_pickle. run_monad.
      destruct (nonempty emails'); intros Heq; inversion Heq; subst;
        (split; [now apply filter_no_lead|]);
        intros messages' m Hm; inversion Hm; subst; apply Hids.
    - simpl. intros Heq. inversion Heq; subst. split; [reflexivity|].
      intros messages m Hm. discriminate Hm. }
  destruct (process_emails_trace lib w st)
    as (emails & fetched & Hok & Hreport & Htrace & Hall & _).
  unfold run_cycle, bind.
  destruct (process_emails lib w st) as [[all_new_emails|e] st1] eqn:Hrun;
    simpl in Hok; [|discriminate Hok].
  destruct (Hleads all_new_emails st1 eq_refl) as [Hfilter Hids].
  rewrite Hfilter. simpl in *.
  assert (Hend : (if nonempty all_new_emails then ret tt else ret tt) st1
                 = (Ok tt, st1)) by (now destruct (nonempty all_new_emails)).
  rewrite Hend. simpl. repeat split; auto.
  rewrite Htrace, count_events_app, (fetch_events_no_save fetched Hall). lia.
Qed.

Lemma batch_without_leads_is_not_logged_witness :
  report (run_cycle Reference.library
            (Sample.cautious
               [ Sample.message "m1" "b@y.com" "2025-02-20T09:30:00Z" "newsletter";
                 Sample.message "m2" "c@z.com" "2025-02-20T09:40:00Z" "garbled" ])
            Sample.fresh).2 = None
  /\ "m2" ∈ processed_emails
       (run_cycle Reference.library
          (Sample.cautious
             [ Sample.message "m1" "b@y.com" "2025-02-20T09:30:00Z" "newsletter";
               Sample.message "m2" "c@z.com" "2025-02-20T09:40:00Z" "garbled" ])
          Sample.fresh).2.
Proof.
  destruct (batch_without_leads_is_not_logged
              Reference.library
              (Sample.cautious
                 [ Sample.message "m1" "b@y.com" "2025-02-20T09:30:00Z" "newsletter";
                   Sample.message "m2" "c@z.com" "2025-02-20T09:40:00Z" "garbled" ])
              Sample.fresh) as (Hreport & _ & Hids).
  - intros subject body p. simpl.
    destruct (String.eqb body "garbled"); intros Hp; inversion Hp; reflexivity.
  - split; [exact Hreport|].
    apply (Hids _ (Sample.message "m2" "c@z.com" "2025-02-20T09:40:00Z" "garbled")
                eq_refl).
    right. left. reflexivity.
Defined.

(** The same with the classifier of the other examples: one message that is
    not a lead is marked as processed, its id is written to the file, and
    the report file is not created. *)
Example cycle_with_one_non_lead :
  report (run_cycle Reference.library
            (Sample.world [Sample.message "m3" "b@y.com" "2025-02-20T09:30:00Z" "newsletter"]
                          Sample.created)
            Sample.fresh).2 = None
  /\ read_pickle Reference.library
       (disk (run_cycle Reference.library
                (Sample.world [Sample.message "m3" "b@y.com" "2025-02-20T09:30:00Z" "newsletter"]
                              Sample.created)
                Sample.fresh).2)
       "processed_emails.pkl" = {["m3"]}.
Proof. split; vm_compute; reflexivity. Qed.

(** When [update_report] runs, each new message gets one row at the end of
    the email log, in the order of the batch. *)
Lemma _update_all_emails_log_rows (ws : Worksheet) (emails : list EmailData.t) :
  _update_all_emails_log ws emails
  = ws ++ map (fun e => map Some (email_log_row e)) emails.
Proof.
  unfold _update_all_emails_log. revert ws.
  induction emails as [|e emails IH]; intros ws; simpl.
  - now rewrite app_nil_r.
  - rewrite IH. unfold ws_append. now rewrite <- app_assoc.
Qed.

Lemma update_report_email_log (lib : Library)
      (all_new_emails new_leads : list EmailData.t)
      (opportunities : list (string * OpportunityData.t)) (st : State) :
  nonempty all_new_emails = true ->
  report_accepted (report st) all_new_emails new_leads opportunities = true ->
  exists wb,
    report (update_report lib all_new_emails new_leads opportunities st).2
    = Some wb
    /\ all_emails_log wb
       = Some (saved_sheet lib
                 (ensure_sheet all_emails_headers
                    (match report st with
                     | Some old => all_emails_log old
                     | None => None
                     end)
                  ++ map (fun e =>
                            [ Some (EmailData.received e);
                              Some (EmailData.sender_email e);
                              Some (EmailData.subject e);
                              Some (if EmailData.is_lead e
                                    then "Yes" else "No") ])
                         all_new_emails)).
Proof.
  intros Hnew Haccepted. unfold update_report. rewrite Hnew. run_monad.
  rewrite Haccepted. run_monad.
  eexists. split; [reflexivity|].
  unfold updated_workbook.
  destruct (nonempty new_leads); simpl; rewrite _update_all_emails_log_rows;
    destruct (report st) as [old|]; reflexivity.
Qed.

(** ** The summary threshold on histories without line feeds *)

Lemma count_newlines_append (a b : string) :
  count_newlines (a ++ b) = count_newlines a + count_newlines b.
Proof. induction a as [|c a IH]; simpl; [reflexivity|]. rewrite IH. lia. Qed.

Lemma count_newlines_join (parts : list string) :
  Forall (fun p => count_newlines p = 0) parts ->
  count_newlines (Py.join Py.nl parts) = length parts - 1.
Proof.
  induction 1 as [|p parts Hp Hparts IH]; [reflexivity|].
  destruct parts as [|q parts]; [simpl; lia|].
  change (Py.join Py.nl (p :: q :: parts))
    with (p ++ Py.nl ++ Py.join Py.nl (q :: parts))%string.
  rewrite !count_newlines_append, IH, Hp. simpl. lia.
Qed.

(** When no entry of the history holds a line feed, the summary is asked
    for exactly when there are more than three entries. *)
Lemma summary_threshold_on_single_line_entries (log_ws : Worksheet)
      (opportunity_id : string) :
  Forall (fun i => count_newlines (history_entry log_ws i) = 0)
         (history_rows log_ws opportunity_id) ->
  (3 <? length (Py.split Py.newline
                  (Py.join Py.nl (map (history_entry log_ws)
                                      (history_rows log_ws opportunity_id)))))%nat
  = (3 <? length (history_rows log_ws opportunity_id))%nat.
Proof.
  intros Hall. rewrite split_newline_length, count_newlines_join.
  - rewrite length_map.
    destruct (Nat.ltb_spec 3 (length (history_rows log_ws opportunity_id)));
      [apply Nat.ltb_lt | apply Nat.ltb_ge]; lia.
  - apply Forall_forall. intros p Hp. apply list_elem_of_In, in_map_iff in Hp.
    destruct Hp as (i & <- & Hi). rewrite Forall_forall in Hall.
    apply Hall. now apply list_elem_of_In.
Qed.

(** ** The scenario of the specification *)

(** A meeting mail of [a@x.com], a later mail of [a@x.com] without meeting,
    a mail of [b@y.com] that is not a lead: the event is created and the
    ids are written to their file, then [generate_opportunities] raises on
    the second mail of [a@x.com], and the report is not written. *)
Example scenario_of_three_messages :
  (run_cycle Reference.library
     (Sample.world
        [ Sample.message "ma" "a@x.com" "2025-02-20T09:00:00Z" "meet";
          Sample.message "mb" "a@x.com" "2025-02-20T10:00:00Z" "later";
          Sample.message "mc" "b@y.com" "2025-02-20T11:00:00Z" "newsletter" ]
        Sample.created)
     Sample.fresh).1 = Raise AttributeError
  /\ report
       (run_cycle Reference.library
          (Sample.world
             [ Sample.message "ma" "a@x.com" "2025-02-20T09:00:00Z" "meet";
               Sample.message "mb" "a@x.com" "2025-02-20T10:00:00Z" "later";
               Sample.message "mc" "b@y.com" "2025-02-20T11:00:00Z" "newsletter" ]
             Sample.created)
          Sample.fresh).2 = None
  /\ elements
       (read_pickle Reference.library
          (disk (run_cycle Reference.library
                   (Sample.world
                      [ Sample.message "ma" "a@x.com" "2025-02-20T09:00:00Z" "meet";
                        Sample.message "mb" "a@x.com" "2025-02-20T10:00:00Z" "later";
                        Sample.message "mc" "b@y.com" "2025-02-20T11:00:00Z" "newsletter" ]
                      Sample.created)
                   Sample.fresh).2)
          "processed_emails.pkl")
     = elements ({["ma"]} ∪ {["mb"]} ∪ {["mc"]} : gset string)
  /\ count_events is_created_post
       (trace (run_cycle Reference.library
                 (Sample.world
                    [ Sample.message "ma" "a@x.com" "2025-02-20T09:00:00Z" "meet";
                      Sample.message "mb" "a@x.com" "2025-02-20T10:00:00Z" "later";
                      Sample.message "mc" "b@y.com" "2025-02-20T11:00:00Z" "newsletter" ]
                    Sample.created)
                 Sample.fresh).2) = 1.
Proof. repeat split; vm_compute; reflexivity. Qed.

(** * Further properties *)

(** ** Ingestion: what [process_emails] marks, returns and writes *)

Lemma write_pickle_other (lib : Library) (data : gset string)
      (filename other : string) (d : gmap string (list Byte.byte)) :
  filename <> other ->
  read_pickle lib (write_pickle lib data filename d) other
  = read_pickle lib d other.
Proof.
  intros Hne. unfold read_pickle, write_pickle.
  now rewrite !lookup_insert_ne by exact Hne.
Qed.

Lemma write_pickle_same (lib : Library) (data : gset string)
      (filename : string) (d : gmap string (list Byte.byte)) :
  codec_round_trip lib ->
  read_pickle lib (write_pickle lib data filename d) filename = data.
Proof.
  intros Hround. unfold read_pickle, write_pickle.
  now rewrite lookup_insert_eq, Hround.
Qed.

(** [create_event] leaves the set of processed emails, its file and the
    report alone; the set of processed events can only grow, and stays in
    step with its file. *)
Lemma create_event_effect (lib : Library) (w : World)
      (parsed : option ParsedData.t) (email name : string) (st : State) :
  processed_emails (create_event lib w parsed email name st).2
  = processed_emails st
  /\ read_pickle lib (disk (create_event lib w parsed email name st).2)
                 "processed_emails.pkl"
     = read_pickle lib (disk st) "processed_emails.pkl"
  /\ processed_events st
     ⊆ processed_events (create_event lib w parsed email name st).2
  /\ (codec_round_trip lib ->
      read_pickle lib (disk st) "processed_events.pkl" = processed_events st ->
      read_pickle lib (disk (create_event lib w parsed email name st).2)
                  "processed_events.pkl"
      = processed_events (create_event lib w parsed email name st).2).
Proof.
  destruct parsed as [p|]; [|now repeat split].
  destruct (has_schedule (Some p)) eqn:Hguard.
  2:{ rewrite create_event_not_applicable by exact Hguard. now repeat split. }
  destruct (decide (_generate_event_fingerprint p email ∈ processed_events st))
    as [Hin|Hnotin].
  { rewrite create_event_duplicate by assumption. now repeat split. }
  rewrite create_event_new by assumption.
  destruct (_build_event_payload lib p email name) as [payload|e];
    [|now repeat split].
  cbn zeta.
  destruct (calendar_post w _ payload) as [|code event_id];
    [now repeat split|].
  destruct (code =? 201)%Z; [|now repeat split].
  unfold state_after_created. simpl. repeat split.
  - now apply write_pickle_other.
  - apply union_subseteq_r.
  - intros Hround _. now apply write_pickle_same.
Qed.

(** One message: when it is processed, its id joins the set and the email
    built from it carries that id; when [create_event] raises, the set is as
    before. *)
Lemma process_message_effect (lib : Library) (w : World)
      (msg : GraphMessage.t) (st : State) :
  match (process_message lib w msg st).1 with
  | Ok email =>
      EmailData.id email = GraphMessage.id msg
      /\ processed_emails (process_message lib w msg st).2
         = {[GraphMessage.id msg]} ∪ processed_emails st
  | Raise _ =>
      processed_emails (process_message lib w msg st).2 = processed_emails st
  end
  /\ read_pickle lib (disk (process_message lib w msg st).2)
                 "processed_emails.pkl"
     = read_pickle lib (disk st) "processed_emails.pkl"
  /\ processed_events st ⊆ processed_events (process_message lib w msg st).2
  /\ (codec_round_trip lib ->
      read_pickle lib (disk st) "processed_events.pkl" = processed_events st ->
      read_pickle lib (disk (process_message lib w msg st).2)
                  "processed_events.pkl"
      = processed_events (process_message lib w msg st).2).
Proof.
  unfold process_message, parse_email. run_monad.
  set (st0 := log_event _ st).
  destruct (gemini_json w _ _) as [p|]; [|now repeat split].
  destruct (ParsedData.is_lead p); [|now repeat split].
  destruct (ParsedData.has_meeting p); [|now repeat split].
  destruct (create_event_effect lib w (Some p)
              (opt_default "" (GraphMessage.from_address msg))
              (opt_default "" (GraphMessage.from_name msg)) st0)
    as (Hemails & Hfile & Hevents & Hsync).
  destruct (create_event lib w (Some p) _ _ st0) as [[event_id|e] st1];
    simpl in *; repeat split; auto; congruence.
Qed.

Lemma union_singleton_swap (A P : gset string) (x : string) :
  A ∪ ({[x]} ∪ P) = {[x]} ∪ A ∪ P.
Proof. rewrite (assoc_L (∪)). f_equal. apply (comm_L (∪)). Qed.

Ltac nothing_new :=
  exists []; rewrite ?app_nil_r; simpl; repeat split; auto;
  first [ now rewrite union_empty_l_L
        | apply sublist_nil_l
        | constructor
        | intros i Hi; now apply elem_of_nil in Hi ].

Lemma process_messages_effect (lib : Library) (w : World)
      (messages : list GraphMessage.t) :
  forall acc st,
  exists new,
    (process_messages lib w messages acc st).1 = acc ++ new
    /\ processed_emails (process_messages lib w messages acc st).2
       = list_to_set (email_ids new) ∪ processed_emails st
    /\ NoDup (email_ids new)
    /\ (forall i, i ∈ email_ids new -> i ∉ processed_emails st)
    /\ sublist (email_ids new) (message_ids messages)
    /\ read_pickle lib (disk (process_messages lib w messages acc st).2)
                   "processed_emails.pkl"
       = read_pickle lib (disk st) "processed_emails.pkl"
    /\ processed_events st
       ⊆ processed_events (process_messages lib w messages acc st).2
    /\ (codec_round_trip lib ->
        read_pickle lib (disk st) "processed_events.pkl" = processed_events st ->
        read_pickle lib (disk (process_messages lib w messages acc st).2)
                    "processed_events.pkl"
        = processed_events (process_messages lib w messages acc st).2).
Proof.
  induction messages as [|msg rest IH]; intros acc st.
  { nothing_new. }
  cbn [process_messages message_ids map].
  destruct (bool_decide (GraphMessage.id msg ∈ processed_emails st)) eqn:Hseen.
  { destruct (IH acc st) as (new & Hres & Hset & Hnodup & Hfresh & Hsub & Hrest).
    exists new. repeat split; try tauto. now apply sublist_cons. }
  apply bool_decide_eq_false_1 in Hseen.
  destruct (process_message_effect lib w msg st)
    as (Hmsg & Hfile & Hevents & Hsync).
  destruct (process_message lib w msg st) as [[email|e] st1]; simpl in *.
  - destruct Hmsg as [Hid Hmarked].
    destruct (IH (acc ++ [email]) st1)
      as (new & Hres & Hset & Hnodup & Hfresh & Hsub & Hfile' & Hevents' & Hsync').
    exists (email :: new). rewrite Hres, <- app_assoc. simpl.
    repeat split.
    + rewrite Hset, Hmarked, Hid. apply union_singleton_swap.
    + constructor; [|exact Hnodup].
      intros Hin. apply (Hfresh _ Hin). rewrite Hmarked, Hid.
      apply elem_of_union. left. now apply elem_of_singleton.
    + intros i Hi. apply elem_of_cons in Hi. destruct Hi as [->|Hi].
      * now rewrite Hid.
      * intros Hold. apply (Hfresh _ Hi). rewrite Hmarked.
        apply elem_of_union. now right.
    + rewrite Hid. now apply sublist_skip.
    + now rewrite Hfile'.
    + etrans; [exact Hevents|exact Hevents'].
    + intros Hround Hstart. apply Hsync'; [exact Hround|]. now apply Hsync.
  - nothing_new.
Qed.

(** A run of [process_emails] marks the emails it returns, and they were
    not marked before. *)
Lemma process_emails_marks (lib : Library) (w : World) (st : State) :
  exists emails,
    (process_emails lib w st).1 = Ok emails
    /\ processed_emails (process_emails lib w st).2
       = list_to_set (email_ids emails) ∪ processed_emails st
    /\ (forall i, i ∈ email_ids emails -> i ∉ processed_emails st).
Proof.
  unfold process_emails.
  destruct (graph_messages w) as [messages|e].
  - destruct (process_messages_effect lib w messages []
                (log_event EvGetMessages st))
      as (new & Hres & Hset & _ & Hfresh & _).
    destruct (process_messages lib w messages [] _) as [emails st1].
    simpl in Hres. subst emails. simpl in Hset.
    exists new. unfold save_pickle. run_monad.
    destruct (nonempty new); simpl; repeat split; auto.
  - nothing_new.
Qed.

(** X1. [process_emails] always returns a list.  The set of processed
    emails afterwards is the set before plus the ids of the emails
    returned; these ids are pairwise distinct, none of them was in the set
    before, and they come in the order of the fetched list.  When the fetch
    fails the list is empty. *)
Theorem process_emails_marks_what_it_returns (lib : Library) (w : World)
        (st : State) :
  exists emails,
    (process_emails lib w st).1 = Ok emails
    /\ processed_emails (process_emails lib w st).2
       = list_to_set (email_ids emails) ∪ processed_emails st
    /\ NoDup (email_ids emails)
    /\ (forall i, i ∈ email_ids emails -> i ∉ processed_emails st)
    /\ match graph_messages w with
       | Ok messages => sublist (email_ids emails) (message_ids messages)
       | Raise _ => emails = []
       end.
Proof.
  unfold process_emails.
  destruct (graph_messages w) as [messages|e].
  - destruct (process_messages_effect lib w messages []
                (log_event EvGetMessages st))
      as (new & Hres & Hset & Hnodup & Hfresh & Hsub & _).
    destruct (process_messages lib w messages [] _) as [emails st1].
    simpl in Hres. subst emails. simpl in Hset.
    exists new. unfold save_pickle. run_monad.
    destruct (nonempty new); simpl; repeat split; auto.
  - nothing_new.
Qed.

(** X2. No message is ingested twice: the emails that a run of
    [process_emails] returns and those that a later run returns, whatever
    the mailbox holds then, share no id. *)
Theorem no_message_is_returned_twice (lib : Library) (w1 w2 : World)
        (st : State) (emails1 emails2 : list EmailData.t) :
  (process_emails lib w1 st).1 = Ok emails1 ->
  (process_emails lib w2 (process_emails lib w1 st).2).1 = Ok emails2 ->
  forall e1 e2, e1 ∈ emails1 -> e2 ∈ emails2 ->
                EmailData.id e1 <> EmailData.id e2.
Proof.
  intros H1 H2 e1 e2 Hin1 Hin2 Hsame.
  destruct (process_emails_marks lib w1 st) as (l1 & Hok1 & Hset1 & _).
  destruct (process_emails_marks lib w2 (process_emails lib w1 st).2)
    as (l2 & Hok2 & _ & Hfresh2).
  rewrite H1 in Hok1. rewrite H2 in Hok2.
  inversion Hok1; subst l1. inversion Hok2; subst l2.
  apply (Hfresh2 (EmailData.id e2)).
  - unfold email_ids. apply list_elem_of_In, in_map. now apply list_elem_of_In.
  - rewrite Hset1, <- Hsame. apply elem_of_union. left.
    apply elem_of_list_to_set. unfold email_ids.
    apply list_elem_of_In, in_map. now apply list_elem_of_In.
Qed.

Lemma append_empty_r (s : string) : (s ++ "")%string = s.
Proof.
  induction s as [|c s IH]; [reflexivity|]. exact (f_equal (String c) IH).
Qed.

Lemma append_snoc (a d : string) (c : ascii) :
  ((a ++ String c "") ++ d)%string = (a ++ String c d)%string.
Proof.
  induction a as [|x a IH]; [reflexivity|]. exact (f_equal (String x) IH).
Qed.

(** The stand-in pickle format loads back every set. *)
Lemma reference_loads_string (cs : list ascii) :
  forall member rest data,
    Reference.loads_from
      (flat_map (fun c => [Byte.x01; byte_of_ascii c]) cs ++ Byte.x00 :: rest)
      member data
    = Reference.loads_from rest EmptyString
        ({[(member ++ string_of_list_ascii cs)%string]} ∪ data).
Proof.
  induction cs as [|c cs IH]; intros member rest data.
  - cbn [flat_map app string_of_list_ascii Reference.loads_from].
    now rewrite append_empty_r.
  - cbn [flat_map app]. cbn [Reference.loads_from].
    rewrite IH, ascii_of_byte_of_ascii.
    cbn [string_of_list_ascii]. now rewrite append_snoc.
Qed.

Lemma reference_loads_members (members : list string) :
  forall data,
    Reference.loads_from
      (flat_map Reference.dump_string members ++ [Byte.x2e]) EmptyString data
    = Some (list_to_set members ∪ data).
Proof.
  induction members as [|s members IH]; intros data.
  - simpl. now rewrite union_empty_l_L.
  - cbn [flat_map]. unfold Reference.dump_string at 1.
    rewrite <- !app_assoc. cbn [app].
    rewrite reference_loads_string, IH. cbn [list_to_set foldr].
    rewrite string_of_list_ascii_of_string. simpl.
    now rewrite union_singleton_swap.
Qed.

Lemma reference_round_trip : codec_round_trip Reference.library.
Proof.
  intros data. simpl. unfold Reference.loads, Reference.dumps.
  rewrite reference_loads_members, union_empty_r_L.
  now rewrite list_to_set_elements_L.
Qed.

(** ** The state across a cycle *)

(** The commit half of a cycle touches nothing but the report and the
    trace. *)
Lemma add_opportunity_keeps {X} (field : State -> X) (w : World)
      (d : list (string * OpportunityData.t)) (email : EmailData.t) :
  (forall e st, field (log_event e st) = field st) ->
  preserves field (add_opportunity w d email).
Proof.
  intros Hlog.
  assert (Hemit : forall e, preserves field (emit e))
    by (intros e; now apply preserves_emit).
  unfold add_opportunity, create_folder_for_lead, get_interaction_history,
    summarize_interactions.
  apply preserves_bind; [cycle_step|intros most_recent].
  destruct most_recent; [|cycle_step].
  apply preserves_bind; [destruct (negb _); cycle_step|intros folder_link].
  apply preserves_bind; [cycle_step|intros history].
  apply preserves_bind; [destruct (_ <? _)%nat; cycle_step|intros notes].
  cycle_step.
Qed.

Lemma generate_opportunities_keeps {X} (field : State -> X) (w : World)
      (emails : list EmailData.t) :
  (forall e st, field (log_event e st) = field st) ->
  preserves field (generate_opportunities w emails).
Proof.
  intros Hlog.
  unfold generate_opportunities. generalize (@nil (string * OpportunityData.t)).
  induction emails as [|e rest IH]; intros d; cbn [generate_opportunities_from].
  - cycle_step.
  - apply preserves_bind; [now apply add_opportunity_keeps|intros d'; apply IH].
Qed.

Lemma update_report_keeps {X} (field : State -> X) (lib : Library)
      (all_new_emails new_leads : list EmailData.t)
      (opportunities : list (string * OpportunityData.t)) :
  (forall e st, field (log_event e st) = field st) ->
  (forall r st, field (set_report r st) = field st) ->
  preserves field (update_report lib all_new_emails new_leads opportunities).
Proof.
  intros Hlog Hreport. unfold update_report.
  destruct (negb _); [cycle_step|].
  apply preserves_bind; [cycle_step|intros st0].
  destruct (report_accepted _ _ _ _); [|cycle_step].
  apply preserves_bind; [now apply preserves_modify|intros _].
  now apply preserves_emit.
Qed.

Lemma run_cycle_keeps {X} (field : State -> X) (lib : Library) (w : World)
      (st : State) :
  (forall e st, field (log_event e st) = field st) ->
  (forall r st, field (set_report r st) = field st) ->
  field (run_cycle lib w st).2 = field (process_emails lib w st).2.
Proof.
  intros Hlog Hreport. unfold run_cycle, bind.
  destruct (process_emails lib w st) as [[all_new_emails|e] st1]; [|reflexivity].
  destruct (nonempty all_new_emails); [|reflexivity].
  destruct (nonempty (List.filter EmailData.is_lead all_new_emails));
    [|reflexivity].
  assert (Hcommit :
            preserves field
              (bind (generate_opportunities w
                       (List.filter EmailData.is_lead all_new_emails))
                    (fun opportunities =>
                       update_report lib all_new_emails
                         (List.filter EmailData.is_lead all_new_emails)
                         opportunities))).
  { apply preserves_bind;
      [now apply generate_opportunities_keeps
      |intros; now apply update_report_keeps]. }
  exact (Hcommit st1).
Qed.

Lemma save_pickle_state (lib : Library) (data : gset string)
      (filename : string) (st : State) :
  (save_pickle lib data filename st).2
  = log_event (EvSavePickle filename data)
              (set_disk (write_pickle lib data filename (disk st)) st).
Proof. reflexivity. Qed.

Lemma process_emails_in_sync (lib : Library) (w : World) (st : State) :
  codec_round_trip lib ->
  in_sync lib st ->
  in_sync lib (process_emails lib w st).2.
Proof.
  intros Hround [Hemails Hevents]. unfold process_emails.
  destruct (graph_messages w) as [messages|e]; [|now split].
  destruct (process_messages_effect lib w messages []
              (log_event EvGetMessages st))
    as (new & Hres & Hset & _ & _ & _ & Hfile & _ & Hsync).
  specialize (Hsync Hround Hevents).
  destruct (process_messages lib w messages [] _) as [emails st1].
  simpl in *. subst emails.
  destruct new as [|email new]; simpl.
  - split; [|exact Hsync]. rewrite Hfile, Hset. simpl.
    now rewrite union_empty_l_L.
  - pose proof (save_pickle_state lib (processed_emails st1)
                  "processed_emails.pkl" st1) as Hsave.
    destruct (save_pickle lib _ _ st1) as [r st2]. cbn [snd] in Hsave.
    subst st2. cbn [snd]. split.
    + now apply write_pickle_same.
    + change (read_pickle lib
                (write_pickle lib (processed_emails st1)
                              "processed_emails.pkl" (disk st1))
                "processed_events.pkl" = processed_events st1).
      rewrite write_pickle_other by discriminate. exact Hsync.
Qed.

(** X3. A cycle keeps the pickle files in step with the sets in memory:
    when the pickle format loads back what it dumps, and the two files load
    as the two sets before the cycle, they do so after it, whatever the
    cycle met (a failed fetch, a refused or failed calendar request, an
    exception in [generate_opportunities]). *)
Theorem cycle_keeps_files_in_sync (lib : Library) (w : World) (st : State) :
  codec_round_trip lib ->
  in_sync lib st ->
  in_sync lib (run_cycle lib w st).2.
Proof.
  intros Hround Hsync.
  destruct (process_emails_in_sync lib w st Hround Hsync) as [Hemails Hevents].
  unfold in_sync.
  rewrite (run_cycle_keeps disk), (run_cycle_keeps processed_emails),
    (run_cycle_keeps processed_events) by reflexivity.
  now split.
Qed.

Lemma cycle_keeps_files_in_sync_witness :
  in_sync Reference.library
    (run_cycle Reference.library
       (Sample.world
          [ Sample.message "ma" "a@x.com" "2025-02-20T09:00:00Z" "meet";
            Sample.message "mb" "a@x.com" "2025-02-20T10:00:00Z" "later" ]
          Sample.created)
       Sample.fresh).2.
Proof.
  apply cycle_keeps_files_in_sync.
  - exact reference_round_trip.
  - split; vm_compute; reflexivity.
Defined.

(** X4. The two sets never lose a member in a cycle. *)
Theorem cycle_never_forgets (lib : Library) (w : World) (st : State) :
  processed_emails st ⊆ processed_emails (run_cycle lib w st).2
  /\ processed_events st ⊆ processed_events (run_cycle lib w st).2.
Proof.
  rewrite (run_cycle_keeps processed_emails), (run_cycle_keeps processed_events)
    by reflexivity.
  split.
  - destruct (process_emails_marks lib w st)
      as (emails & _ & Hset & _).
    rewrite Hset. apply union_subseteq_r.
  - unfold process_emails.
    destruct (graph_messages w) as [messages|e]; [|reflexivity].
    destruct (process_messages_effect lib w messages []
                (log_event EvGetMessages st))
      as (new & _ & _ & _ & _ & _ & _ & Hevents & _).
    destruct (process_messages lib w messages [] _) as [emails st1].
    simpl in *. destruct (nonempty emails); exact Hevents.
Qed.

Lemma process_messages_all_seen (lib : Library) (w : World)
      (messages : list GraphMessage.t) (acc : list EmailData.t) (st : State) :
  (forall m, In m messages -> GraphMessage.id m ∈ processed_emails st) ->
  process_messages lib w messages acc st = (acc, st).
Proof.
  induction messages as [|msg rest IH]; intros Hseen; [reflexivity|].
  cbn [process_messages].
  rewrite bool_decide_eq_true_2 by (apply Hseen; now left).
  apply IH. intros m Hin. apply Hseen. now right.
Qed.

(** X5. A cycle whose fetch fails, or whose fetched messages are all in the
    set of processed emails already, asks the classifier nothing, writes no
    file and leaves the state as it is: it only made the fetch. *)
Theorem cycle_without_new_messages (lib : Library) (w : World) (st : State) :
  match graph_messages w with
  | Ok messages =>
      forall m, In m messages -> GraphMessage.id m ∈ processed_emails st
  | Raise _ => True
  end ->
  run_cycle lib w st = (Ok tt, log_event EvGetMessages st).
Proof.
  intros Hseen. unfold run_cycle, bind, process_emails.
  destruct (graph_messages w) as [messages|e]; [|reflexivity].
  now rewrite process_messages_all_seen.
Qed.

Lemma cycle_without_new_messages_witness :
  run_cycle Reference.library
    (Sample.world [Sample.message "m1" "a@x.com" "2025-02-20T09:00:00Z" "meet"]
                  Sample.created)
    (set_processed_emails {["m1"]} Sample.fresh)
  = (Ok tt, log_event EvGetMessages (set_processed_emails {["m1"]} Sample.fresh)).
Proof.
  apply cycle_without_new_messages. simpl.
  intros m [<-|[]]. simpl. now apply elem_of_singleton.
Defined.

(** ** [generate_opportunities] on a batch of distinct senders *)

Lemma dict_set_absent {V} (d : list (string * V)) (k : string) (v : V) :
  dict_mem d k = false -> dict_set d k v = d ++ [(k, v)].
Proof.
  unfold dict_mem, dict_get.
  induction d as [|[k0 v0] d IH]; simpl; [reflexivity|].
  destruct (String.eqb k0 k); simpl; [discriminate|].
  intros Hd. now rewrite IH.
Qed.

(** A message of a sender new to the batch, with an [@] in the address and
    a readable history: the record is added at the end of the dict. *)
Lemma add_opportunity_new (w : World) (d : list (string * OpportunityData.t))
      (email : EmailData.t) (st : State) :
  dict_mem d (opportunity_id (EmailData.sender_email email)) = false ->
  contains_at (EmailData.sender_email email) = true ->
  is_ok (interaction_history
           (report st) (opportunity_id (EmailData.sender_email email))) = true ->
  exists entry,
    (add_opportunity w d email st).1 = Ok (d ++ [entry])
    /\ record_of email entry.
Proof.
  intros Hmem Hat Hhistory. unfold add_opportunity, bind, lift.
  rewrite (is_most_recent_absent _ _ _ Hmem), Hmem. simpl.
  unfold create_folder_for_lead, get_interaction_history, summarize_interactions.
  run_monad.
  destruct (interaction_history (report st) _) as [history|e];
    [|discriminate Hhistory].
  rewrite <- company_of_ok in Hat.
  destruct (company_of (EmailData.sender_email email)) as [company|e] eqn:Hcompany;
    [|discriminate Hat].
  destruct (3 <? length (Py.split Py.newline history))%nat; simpl;
    rewrite dict_set_absent by exact Hmem;
    eexists; (split; [reflexivity|]);
    unfold record_of, lead_status_of; simpl; now repeat split.
Qed.

Lemma generate_opportunities_from_distinct (w : World)
      (emails : list EmailData.t) :
  forall d st,
    NoDup (batch_ids emails) ->
    Forall (fun e =>
              dict_mem d (opportunity_id (EmailData.sender_email e)) = false
              /\ contains_at (EmailData.sender_email e) = true
              /\ is_ok (interaction_history
                          (report st)
                          (opportunity_id (EmailData.sender_email e))) = true)
           emails ->
    exists new,
      (generate_opportunities_from w d emails st).1 = Ok (d ++ new)
      /\ Forall2 record_of emails new
      /\ count_events is_create_folder
                      (trace (generate_opportunities_from w d emails st).2)
         = count_events is_create_folder (trace st) + length emails.
Proof.
  induction emails as [|e rest IH]; intros d st Hnodup Hall.
  { exists []. simpl. rewrite app_nil_r. repeat split; [constructor|lia]. }
  apply Forall_cons_1 in Hall. destruct Hall as [(Hmem & Hat & Hhistory) Hall].
  cbn [batch_ids map] in Hnodup. apply NoDup_cons in Hnodup.
  destruct Hnodup as [Hnotin Hnodup].
  destruct (add_opportunity_new w d e st Hmem Hat Hhistory)
    as (entry & Hok & Hentry).
  destruct (add_opportunity_absent w d e st Hmem) as (Hcount & _ & _).
  pose proof (add_opportunity_keeps report w d e (fun _ _ => eq_refl) st)
    as Hreport.
  cbn [generate_opportunities_from]. unfold bind.
  destruct (add_opportunity w d e st) as [[d1|ex] st1]; simpl in *;
    [|discriminate Hok].
  inversion Hok; subst d1.
  destruct (IH (d ++ [entry]) st1 Hnodup) as (new & Hres & Hrecords & Hcount').
  { apply Forall_forall. intros e' Hin.
    rewrite Forall_forall in Hall. destruct (Hall e' Hin) as (Hm' & Hat' & Hh').
    rewrite Hreport. repeat split; auto.
    destruct entry as [k o]. pose proof Hentry as [Hk _]. simpl in Hk.
    rewrite <- (dict_set_absent d k o) by (now rewrite Hk).
    rewrite dict_mem_set, Hm', orb_false_r, Hk.
    apply String.eqb_neq. intros Heq. apply Hnotin.
    rewrite Heq. unfold batch_ids.
    apply list_elem_of_In, in_map_iff. exists e'. split; [reflexivity|].
    now apply list_elem_of_In. }
  exists (entry :: new). rewrite Hres, <- app_assoc. simpl.
  repeat split; [now constructor|]. rewrite Hcount', Hcount. lia.
Qed.

(** X6. A batch of lead messages whose senders give pairwise distinct
    identifiers and hold an [@], with a history that can be read for each:
    [generate_opportunities] returns a dict with one record per message, in
    the order of the batch, each under the identifier of its sender and
    with the name, company, address, status and stamp of its message; the
    folder is requested once per message. *)
Theorem generate_opportunities_distinct_senders (w : World) (st : State)
        (emails : list EmailData.t) :
  NoDup (batch_ids emails) ->
  Forall (fun e =>
            contains_at (EmailData.sender_email e) = true
            /\ is_ok (interaction_history
                        (report st)
                        (opportunity_id (EmailData.sender_email e))) = true)
         emails ->
  exists d,
    (generate_opportunities w emails st).1 = Ok d
    /\ Forall2 record_of emails d
    /\ count_events is_create_folder
                    (trace (generate_opportunities w emails st).2)
       = count_events is_create_folder (trace st) + length emails.
Proof.
  intros Hnodup Hall.
  destruct (generate_opportunities_from_distinct w emails [] st Hnodup)
    as (new & Hres & Hrecords & Hcount).
  - eapply Forall_impl; [exact Hall|]. intros e [Hat Hh]. now repeat split.
  - exists new. now repeat split.
Qed.

Lemma generate_opportunities_distinct_senders_witness :
  exists d,
    (generate_opportunities
       (Sample.world [] Sample.created)
       [ Sample.email "a@x.com" "2025-03-01T10:00:00Z" (Sample.lead "New Lead" true);
         Sample.email "b@y.com" "2025-03-01T11:00:00Z" (Sample.lead "Proposal Sent" false) ]
       Sample.after_one_interaction).1 = Ok d
    /\ length d = 2.
Proof.
  destruct (generate_opportunities_distinct_senders
              (Sample.world [] Sample.created)
              Sample.after_one_interaction
              [ Sample.email "a@x.com" "2025-03-01T10:00:00Z" (Sample.lead "New Lead" true);
                Sample.email "b@y.com" "2025-03-01T11:00:00Z" (Sample.lead "Proposal Sent" false) ])
    as (d & Hok & Hrecords & _).
  - apply (bool_decide_unpack _). vm_compute. exact I.
  - repeat constructor; vm_compute; reflexivity.
  - exists d. split; [exact Hok|].
    apply Forall2_length in Hrecords. simpl in Hrecords. lia.
Defined.

Lemma no_message_is_returned_twice_witness :
  EmailData.id (email_of_message
                  (Sample.message "m1" "b@y.com" "2025-02-20T09:30:00Z" "newsletter"))
  <> EmailData.id (email_of_message
                     (Sample.message "m2" "c@z.com" "2025-02-20T09:40:00Z" "garbled")).
Proof.
  apply (no_message_is_returned_twice
           Reference.library
           (Sample.cautious
              [Sample.message "m1" "b@y.com" "2025-02-20T09:30:00Z" "newsletter"])
           (Sample.cautious
              [ Sample.message "m2" "c@z.com" "2025-02-20T09:40:00Z" "garbled";
                Sample.message "m1" "b@y.com" "2025-02-20T09:30:00Z" "newsletter" ])
           Sample.fresh
           [email_of_message
              (Sample.message "m1" "b@y.com" "2025-02-20T09:30:00Z" "newsletter")]
           [email_of_message
              (Sample.message "m2" "c@z.com" "2025-02-20T09:40:00Z" "garbled")]).
  - vm_compute. reflexivity.
  - vm_compute. reflexivity.
  - apply list_elem_of_singleton. reflexivity.
  - apply list_elem_of_singleton. reflexivity.
Defined.

(** ** The Opportunity Master sheet over a whole call *)

Lemma cell_value_app_l (ws rows : Worksheet) (row column : nat) :
  row <= length ws ->
  cell_value (ws ++ rows) row column = cell_value ws row column.
Proof.
  intros Hrow. destruct row as [|i]; [reflexivity|].
  destruct column as [|j]; [reflexivity|].
  unfold cell_value. now rewrite lookup_app_l by lia.
Qed.






(** ** The logs of the report *)

(** A text that is not longer than a cell takes is kept whole. *)
Lemma take_all (n : nat) (s : string) :
  String.length s <= n -> Py.take n s = s.
Proof.
  revert n. induction s as [|c s IH]; intros n Hlen; [reflexivity|].
  cbn [Py.take String.length] in *.
  destruct (Py.is_continuation c).
  - rewrite IH by lia. reflexivity.
  - destruct n as [|n]; [lia|]. rewrite IH by lia. reflexivity.
Qed.

Lemma cell_text_short (value : string) :
  String.length value <= 2 ^ 15 - 1 -> cell_text value = value.
Proof. apply take_all. Qed.

Lemma _update_interaction_log_sheet_rows (ws : Worksheet)
      (new_leads : list EmailData.t) :
  _update_interaction_log_sheet ws new_leads
  = ws ++ map (map Some) (meeting_rows new_leads).
Proof.
  unfold _update_interaction_log_sheet, meeting_rows. revert ws.
  induction new_leads as [|e rest IH]; intros ws; cbn [fold_left flat_map].
  - simpl. now rewrite app_nil_r.
  - rewrite IH.
    destruct (EmailData.parsed_data e) as [p|]; [|reflexivity].
    destruct (ParsedData.has_meeting p); [|reflexivity].
    unfold ws_append. now rewrite <- app_assoc.
Qed.

(** The two ways out of the [try] of [update_report]. *)
Lemma update_report_saves (lib : Library)
      (all_new_emails new_leads : list EmailData.t)
      (opportunities : list (string * OpportunityData.t)) (st : State) :
  nonempty all_new_emails = true ->
  report_accepted (report st) all_new_emails new_leads opportunities = true ->
  report (update_report lib all_new_emails new_leads opportunities st).2
  = Some (saved_workbook lib
            (updated_workbook (report st) all_new_emails new_leads
                              opportunities)).
Proof.
  intros Hnew Haccepted. unfold update_report. rewrite Hnew. run_monad.
  rewrite Haccepted. reflexivity.
Qed.

Lemma update_report_refused (lib : Library)
      (all_new_emails new_leads : list EmailData.t)
      (opportunities : list (string * OpportunityData.t)) (st : State) :
  report_accepted (report st) all_new_emails new_leads opportunities = false ->
  update_report lib all_new_emails new_leads opportunities st = (Ok tt, st).
Proof.
  intros Hrefused. unfold update_report.
  destruct (negb (nonempty all_new_emails)); [reflexivity|].
  run_monad. now rewrite Hrefused.
Qed.

Lemma updated_workbook_all_emails_log (file : option Workbook)
      (all_new_emails new_leads : list EmailData.t)
      (opportunities : list (string * OpportunityData.t)) :
  all_emails_log (updated_workbook file all_new_emails new_leads opportunities)
  = Some (sheet_on_file all_emails_headers all_emails_log file
          ++ map (fun e => map Some (email_log_row e)) all_new_emails).
Proof.
  unfold updated_workbook, sheet_on_file.
  destruct (nonempty new_leads);
    cbn [all_emails_log _ensure_sheets_exist sheet];
    rewrite _update_all_emails_log_rows; now destruct file.
Qed.

Lemma updated_workbook_interaction_log (file : option Workbook)
      (all_new_emails new_leads : list EmailData.t)
      (opportunities : list (string * OpportunityData.t)) :
  interaction_log (updated_workbook file all_new_emails new_leads opportunities)
  = Some (_update_interaction_log_sheet
            (sheet_on_file interaction_headers interaction_log file) new_leads).
Proof.
  unfold updated_workbook, sheet_on_file.
  destruct new_leads as [|lead leads]; cbn [nonempty];
    cbn [interaction_log _ensure_sheets_exist sheet]; now destruct file.
Qed.

(** A sheet whose cells are empty, or hold texts that are not empty, fit
    in a cell and come back from the file as they are, is as a file gives
    it. *)
Lemma settled_cells (lib : Library) (ws : Worksheet) :
  Forall (Forall (fun c : option string =>
                    match c with
                    | Some value =>
                        Py.truthy value = true
                        /\ String.length value <= 2 ^ 15 - 1
                        /\ xlsx_text lib value = Some value
                    | None => True
                    end)) ws ->
  settled lib ws.
Proof.
  unfold settled, saved_sheet. intros Hcells.
  induction Hcells as [|row ws Hrow _ IH]; [reflexivity|].
  cbn [map]. rewrite IH. f_equal.
  induction Hrow as [|c row Hc _ IHrow]; [reflexivity|].
  cbn [map]. rewrite IHrow. f_equal.
  destruct c as [value|]; [|reflexivity].
  destruct Hc as (Htruthy & Hshort & Hback).
  unfold saved_cell. rewrite (cell_text_short value Hshort).
  cbv zeta. now rewrite Htruthy.
Qed.

Lemma saved_sheet_app (lib : Library) (ws rows : Worksheet) :
  saved_sheet lib (ws ++ rows) = saved_sheet lib ws ++ saved_sheet lib rows.
Proof. unfold saved_sheet. apply map_app. Qed.

(** X8. [update_report] on a batch that is not empty.  When no cell
    refuses a text of the batch, the file then holds an email log that is
    the log that was on file (or the header row, when the file or the sheet
    was missing), saved once more, followed by one row per message of the
    batch, in order, with the stamp, the address, the subject and Yes or
    No, and an interaction log that is the log that was on file (or the
    header row), saved once more, followed by one row per lead with a
    meeting, in order, with the identifier, the date, the first 1000
    characters of the body, the action items, the deadline, the meeting
    type and the stamp; every cell is as the file gives it back, an empty
    text as an empty cell.  So no row on file is dropped, and the logs only
    grow at the end.  When a cell refuses a text, nothing is saved and the
    state is as it was. *)
Theorem update_report_appends_to_logs (lib : Library)
        (all_new_emails new_leads : list EmailData.t)
        (opportunities : list (string * OpportunityData.t)) (st : State) :
  nonempty all_new_emails = true ->
  if report_accepted (report st) all_new_emails new_leads opportunities
  then
    exists wb,
      report (update_report lib all_new_emails new_leads opportunities st).2
      = Some wb
      /\ all_emails_log wb
         = Some (saved_sheet lib
                   (sheet_on_file all_emails_headers all_emails_log (report st))
                 ++ map (fun e =>
                           [ saved_text lib (EmailData.received e);
                             saved_text lib (EmailData.sender_email e);
                             saved_text lib (EmailData.subject e);
                             saved_text lib (if EmailData.is_lead e
                                             then "Yes" else "No") ])
                        all_new_emails)
      /\ interaction_log wb
         = Some (saved_sheet lib
                   (sheet_on_file interaction_headers interaction_log
                                  (report st))
                 ++ flat_map
                      (fun e =>
                         match EmailData.parsed_data e with
                         | Some parsed =>
                             if ParsedData.has_meeting parsed
                             then
                               [[ saved_text lib
                                    (opportunity_id (EmailData.sender_email e));
                                  saved_text lib
                                    (opt_default "" (ParsedData.date parsed));
                                  saved_text lib
                                    (Py.take 1000 (EmailData.body_preview e));
                                  saved_text lib
                                    (opt_default ""
                                       (ParsedData.action_items parsed));
                                  saved_text lib
                                    (opt_default "" (ParsedData.deadline parsed));
                                  saved_text lib
                                    (opt_default "N/A"
                                       (ParsedData.meeting_type parsed));
                                  saved_text lib (EmailData.received e) ]]
                             else []
                         | None => []
                         end)
                      new_leads)
  else
    update_report lib all_new_emails new_leads opportunities st = (Ok tt, st).
Proof.
  intros Hnew.
  destruct (report_accepted (report st) all_new_emails new_leads opportunities)
    eqn:Haccepted; [|now apply update_report_refused].
  eexists. split; [now apply update_report_saves|].
  cbn [saved_workbook all_emails_log interaction_log].
  rewrite updated_workbook_all_emails_log, updated_workbook_interaction_log.
  rewrite _update_interaction_log_sheet_rows. cbn [option_map].
  rewrite !saved_sheet_app.
  split.
  - f_equal. f_equal. unfold saved_sheet. rewrite map_map.
    apply map_ext. intros e. reflexivity.
  - f_equal. f_equal. unfold saved_sheet, meeting_rows. rewrite map_map.
    clear Haccepted.
    induction new_leads as [|e rest IH]; [reflexivity|].
    cbn [flat_map]. rewrite map_app, IH. f_equal.
    destruct (EmailData.parsed_data e) as [p|]; [|reflexivity].
    destruct (ParsedData.has_meeting p); reflexivity.
Qed.

Lemma update_report_appends_to_logs_witness :
  exists wb,
    report
      (update_report Reference.library
         [Sample.email "a@x.com" "2025-03-01T10:00:00Z" (Sample.lead "New Lead" true)]
         [Sample.email "a@x.com" "2025-03-01T10:00:00Z" (Sample.lead "New Lead" true)]
         [] Sample.after_one_interaction).2 = Some wb
    /\ interaction_log wb
       = Some (Sample.one_interaction_log
               ++ [[ Some "74317378"; Some "2025-03-01"; Some "body";
                     Some "send deck"; Some "2025-03-05"; Some "Call";
                     Some "2025-03-01T10:00:00Z" ]]).
Proof.
  pose proof (update_report_appends_to_logs
                Reference.library
                [Sample.email "a@x.com" "2025-03-01T10:00:00Z" (Sample.lead "New Lead" true)]
                [Sample.email "a@x.com" "2025-03-01T10:00:00Z" (Sample.lead "New Lead" true)]
                [] Sample.after_one_interaction eq_refl) as Hsaved.
  replace (report_accepted _ _ _ _) with true in Hsaved
    by (vm_compute; reflexivity).
  destruct Hsaved as (wb & Hreport & _ & Hlog).
  exists wb. split; [exact Hreport|].
  rewrite Hlog. vm_compute. reflexivity.
Defined.

(** ** Reading the history back *)

Lemma max_column_app (ws rows : Worksheet) :
  max_column ws <= max_column (ws ++ rows).
Proof.
  unfold max_column. induction ws as [|r ws IH]; simpl; lia.
Qed.

Lemma max_column_saved (lib : Library) (ws : Worksheet) :
  max_column (saved_sheet lib ws) = max_column ws.
Proof.
  unfold max_column, saved_sheet. f_equal.
  induction ws as [|r ws IH]; [reflexivity|].
  cbn [map foldr]. now rewrite length_map, IH.
Qed.

Lemma log_is_wide_readable (file : option Workbook) (opportunity_id : string) :
  log_is_wide file ->
  is_ok (interaction_history file opportunity_id) = true.
Proof.
  unfold log_is_wide, interaction_history.
  destruct file as [wb|]; [|reflexivity].
  destruct (interaction_log wb) as [log_ws|]; [|reflexivity].
  intros Hwide. apply Nat.ltb_ge in Hwide. rewrite Hwide.
  now rewrite andb_false_r.
Qed.

Lemma sheet_on_file_is_wide (file : option Workbook) :
  log_is_wide file ->
  7 <= max_column (sheet_on_file interaction_headers interaction_log file).
Proof.
  unfold log_is_wide, sheet_on_file. intros Hwide.
  destruct file as [wb|]; cbn [ensure_sheet].
  - destruct (interaction_log wb); [exact Hwide|].
    unfold max_column, ensure_sheet, ws_append. cbn [app foldr].
    rewrite length_map. simpl. lia.
  - unfold max_column, ensure_sheet, ws_append. cbn [app foldr].
    rewrite length_map. simpl. lia.
Qed.

Lemma updated_workbook_log_is_wide (file : option Workbook)
      (all_new_emails new_leads : list EmailData.t)
      (opportunities : list (string * OpportunityData.t)) :
  log_is_wide file ->
  log_is_wide (Some (updated_workbook file all_new_emails new_leads opportunities)).
Proof.
  intros Hwide. apply sheet_on_file_is_wide in Hwide. unfold log_is_wide.
  rewrite updated_workbook_interaction_log, _update_interaction_log_sheet_rows.
  cbv beta iota. etrans; [exact Hwide|apply max_column_app].
Qed.

Lemma saved_workbook_log_is_wide (lib : Library) (wb : Workbook) :
  log_is_wide (Some wb) -> log_is_wide (Some (saved_workbook lib wb)).
Proof.
  unfold log_is_wide. cbn [saved_workbook interaction_log].
  destruct (interaction_log wb) as [log_ws|]; cbn [option_map]; [|trivial].
  now rewrite max_column_saved.
Qed.

(** The report after a cycle is the report before it, or a workbook that
    [update_report] made from it and saved. *)
Lemma run_cycle_report (lib : Library) (w : World) (st : State) :
  report (run_cycle lib w st).2 = report st
  \/ exists all_new_emails new_leads opportunities,
       report (run_cycle lib w st).2
       = Some (saved_workbook lib
                 (updated_workbook (report st) all_new_emails new_leads
                                   opportunities)).
Proof.
  unfold run_cycle, bind.
  destruct (process_emails_trace lib w st)
    as (emails & fetched & _ & Hreport & _).
  destruct (process_emails lib w st) as [[all_new_emails|e] st1];
    simpl in *; [|now left].
  destruct (nonempty all_new_emails) eqn:Hnew; [|now left].
  destruct (nonempty (List.filter EmailData.is_lead all_new_emails));
    [|now left].
  pose proof (generate_opportunities_keeps report w
                (List.filter EmailData.is_lead all_new_emails)
                (fun _ _ => eq_refl) st1) as Hgen.
  destruct (generate_opportunities w _ st1) as [[opportunities|e] st2];
    simpl in *; [|left; congruence].
  destruct (report_accepted (report st2) all_new_emails
              (List.filter EmailData.is_lead all_new_emails) opportunities)
    eqn:Haccepted.
  - right.
    exists all_new_emails, (List.filter EmailData.is_lead all_new_emails),
      opportunities.
    rewrite update_report_saves by assumption. now rewrite Hgen, Hreport.
  - left. rewrite update_report_refused by assumption. simpl. congruence.
Qed.

(** X9. The report that the program writes can always be read back: when
    there is no report file, or its interaction log has seven columns, the
    same holds after a cycle, and [get_interaction_history] then raises for
    no identifier. *)
Theorem cycle_keeps_history_readable (lib : Library) (w : World) (st : State) :
  log_is_wide (report st) ->
  log_is_wide (report (run_cycle lib w st).2)
  /\ forall opportunity_id,
       is_ok (interaction_history (report (run_cycle lib w st).2)
                                  opportunity_id) = true.
Proof.
  intros Hwide.
  assert (Hafter : log_is_wide (report (run_cycle lib w st).2)).
  { destruct (run_cycle_report lib w st)
      as [Hsame|(all_new_emails & new_leads & opportunities & Hnew)].
    - now rewrite Hsame.
    - rewrite Hnew. apply saved_workbook_log_is_wide.
      now apply updated_workbook_log_is_wide. }
  split; [exact Hafter|].
  intros opportunity_id. now apply log_is_wide_readable.
Qed.

Lemma cycle_keeps_history_readable_witness :
  is_ok (interaction_history
           (report (run_cycle Reference.library
                      (Sample.world
                         [Sample.message "m1" "a@x.com" "2025-02-20T09:00:00Z" "meet"]
                         Sample.created)
                      Sample.fresh).2)
           "74317378") = true.
Proof.
  apply (proj2 (cycle_keeps_history_readable
                  Reference.library
                  (Sample.world
                     [Sample.message "m1" "a@x.com" "2025-02-20T09:00:00Z" "meet"]
                     Sample.created)
                  Sample.fresh I)).
Defined.

Lemma map_filter_ext_in {A B : Type} (f g : A -> B) (p q : A -> bool)
      (l : list A) :
  (forall x, In x l -> p x = q x /\ f x = g x) ->
  map f (List.filter p l) = map g (List.filter q l).
Proof.
  induction l as [|x l IH]; intros Hext; [reflexivity|].
  destruct (Hext x (or_introl eq_refl)) as [Hp Hf].
  pose proof (IH (fun y Hy => Hext y (or_intror Hy))) as Hrest.
  cbn [List.filter]. rewrite <- Hp.
  destruct (p x); [|exact Hrest].
  cbn [map]. now rewrite Hf, Hrest.
Qed.

(** One more row at the end of the log: its line is in the history when its
    first cell is the identifier. *)
Lemma history_entries_snoc (ws : Worksheet) (row : list (option string))
      (opportunity_id : string) :
  ws <> [] ->
  Py.truthy opportunity_id = true ->
  history_entries (ws ++ [row]) opportunity_id
  = history_entries ws opportunity_id
    ++ (if bool_decide (default None (row !! 0) = Some opportunity_id)
        then [("On " ++ Py.fmt (default None (row !! 6))
                 ++ ", a meeting was logged: "
                 ++ Py.fmt (default None (row !! 2)))%string]
        else []).
Proof.
  intros Hrows Htruthy. unfold history_entries, history_rows.
  rewrite Htruthy.
  assert (Hmax : max_row (ws ++ [row]) - 1 = S (max_row ws - 1)).
  { unfold max_row. rewrite length_app. destruct ws; [congruence|simpl; lia]. }
  assert (Hlast : 2 + (max_row ws - 1) = S (length ws)).
  { unfold max_row. destruct ws; [congruence|simpl; lia]. }
  rewrite Hmax, seq_S, List.filter_app, map_app, Hlast. f_equal.
  - apply map_filter_ext_in. intros i Hi. apply in_seq in Hi.
    assert (Hin : i <= length ws) by lia.
    unfold history_entry. now rewrite !(cell_value_app_l ws _ i) by exact Hin.
  - assert (Hcell : forall j,
               cell_value (ws ++ [row]) (S (length ws)) (S j)
               = default None (row !! j)).
    { intros j. unfold cell_value.
      rewrite lookup_app_r, Nat.sub_diag by lia. simpl.
      now destruct (row !! j). }
    cbn [List.filter negb orb]. rewrite (Hcell 0).
    destruct (bool_decide (default None (row !! 0) = Some opportunity_id));
      [|reflexivity].
    cbn [map]. unfold history_entry. now rewrite (Hcell 6), (Hcell 2).
Qed.

Lemma saved_text_truthy (lib : Library) (value saved : string) :
  saved_text lib value = Some saved -> cell_text value <> "".
Proof.
  unfold saved_text, saved_cell. intros Hsaved Hempty.
  rewrite Hempty in Hsaved. discriminate.
Qed.

(** The rows of the leads with a meeting, as the file gives them back, at
    the end of the log. *)
Lemma history_entries_saved_rows (lib : Library)
      (new_leads : list EmailData.t) (opportunity_id : string) :
  Py.truthy opportunity_id = true ->
  (forall e,
      In e new_leads ->
      has_meeting_mail e = true ->
      saved_text lib (id_gen (EmailData.sender_email e))
      = Some (id_gen (EmailData.sender_email e))) ->
  forall ws,
    ws <> [] ->
    history_entries
      (ws ++ saved_sheet lib
               (map (map Some) (meeting_rows new_leads)))
      opportunity_id
    = history_entries ws opportunity_id
      ++ map (history_line lib) (logged_for opportunity_id new_leads).
Proof.
  intros Htruthy. unfold meeting_rows, logged_for, saved_sheet.
  induction new_leads as [|e rest IH]; intros Hids ws Hrows;
    cbn [flat_map List.filter map].
  - now rewrite !app_nil_r.
  - assert (Hrest : forall e',
               In e' rest ->
               has_meeting_mail e' = true ->
               saved_text lib (id_gen (EmailData.sender_email e'))
               = Some (id_gen (EmailData.sender_email e')))
      by (intros e' Hin; apply Hids; now right).
    pose proof (Hids e (or_introl eq_refl)) as Hid.
    unfold has_meeting_mail in Hid |- *.
    destruct (EmailData.parsed_data e) as [p|]; [|now apply IH].
    destruct (ParsedData.has_meeting p); [|now apply IH].
    specialize (Hid eq_refl).
    cbn [app map andb].
    change (ws ++ ?row :: ?rows) with (ws ++ [row] ++ rows).
    rewrite app_assoc, IH by (try assumption; now destruct ws).
    rewrite history_entries_snoc by assumption.
    cbn [interaction_row map lookup list_lookup default from_option id].
    change (saved_cell lib (Some ?value)) with (saved_text lib value).
    rewrite Hid.
    destruct (bool_decide (id_gen (EmailData.sender_email e) = opportunity_id))
      eqn:Hsame.
    + apply bool_decide_eq_true in Hsame.
      rewrite bool_decide_eq_true_2 by congruence.
      cbn [map]. rewrite <- app_assoc. reflexivity.
    + apply bool_decide_eq_false in Hsame.
      rewrite bool_decide_eq_false_2 by congruence.
      now rewrite app_nil_r.
Qed.

(** X10. What [update_report] writes to the interaction log is what
    [get_interaction_history] reads back.  After the report of a batch has
    been saved (the batch is not empty and no cell refuses a text of it),
    the history of an identifier is the history it had on file followed by
    one line per lead of the batch with a meeting and that identifier, in
    order, each with the stamp and the first 1000 characters of the body of
    its mail as the file gives them back: an empty stamp or body is an
    empty cell, and reads [None].  The log on file must have its header
    row and its seven columns and be as a file gives it, and the file must
    give back the identifiers of the batch as they were written. *)
Theorem history_reads_back_the_batch (lib : Library)
        (all_new_emails new_leads : list EmailData.t)
        (opportunities : list (string * OpportunityData.t)) (st : State)
        (opportunity_id : string) :
  nonempty all_new_emails = true ->
  report_accepted (report st) all_new_emails new_leads opportunities = true ->
  Py.truthy opportunity_id = true ->
  sheet_on_file interaction_headers interaction_log (report st) <> [] ->
  log_is_wide (report st) ->
  settled lib (sheet_on_file interaction_headers interaction_log (report st)) ->
  (forall e,
      In e new_leads ->
      has_meeting_mail e = true ->
      saved_text lib (id_gen (EmailData.sender_email e))
      = Some (id_gen (EmailData.sender_email e))) ->
  interaction_history
    (report (update_report lib all_new_emails new_leads opportunities st).2)
    opportunity_id
  = Ok (Py.join Py.nl
          (history_entries
             (sheet_on_file interaction_headers interaction_log (report st))
             opportunity_id
           ++ map (fun e =>
                     ("On " ++ Py.fmt (saved_text lib (EmailData.received e))
                        ++ ", a meeting was logged: "
                        ++ Py.fmt (saved_text lib
                                     (Py.take 1000 (EmailData.body_preview e))))%string)
                  (logged_for opportunity_id new_leads)))
  /\ saved_text lib "" = None.
Proof.
  intros Hnew Haccepted Htruthy Hheader Hwide Hsettled Hids.
  split; [|reflexivity].
  rewrite update_report_saves by assumption.
  unfold interaction_history. cbn [saved_workbook interaction_log].
  rewrite updated_workbook_interaction_log, _update_interaction_log_sheet_rows.
  cbn [option_map]. unfold settled in Hsettled.
  rewrite saved_sheet_app, !Hsettled.
  assert (Hafter : 7 <= max_column
                          (sheet_on_file interaction_headers interaction_log
                                         (report st)
                           ++ saved_sheet lib
                                (map (map Some) (meeting_rows new_leads)))).
  { apply sheet_on_file_is_wide in Hwide.
    etrans; [exact Hwide|apply max_column_app]. }
  apply Nat.ltb_ge in Hafter. rewrite Hafter, andb_false_r.
  f_equal. f_equal.
  now apply history_entries_saved_rows.
Qed.

Lemma history_reads_back_the_batch_witness :
  interaction_history
    (report
       (update_report Reference.library
          [Sample.email "a@x.com" "" (Sample.lead "New Lead" true)]
          [Sample.email "a@x.com" "" (Sample.lead "New Lead" true)]
          [] Sample.after_one_interaction).2)
    "74317378"
  = Ok (Py.join Py.nl
          (history_entries Sample.one_interaction_log "74317378"
           ++ ["On None, a meeting was logged: body"])).
Proof.
  rewrite (proj1 (history_reads_back_the_batch
                    Reference.library
                    [Sample.email "a@x.com" "" (Sample.lead "New Lead" true)]
                    [Sample.email "a@x.com" "" (Sample.lead "New Lead" true)]
                    [] Sample.after_one_interaction "74317378"
                    eq_refl eq_refl eq_refl
                    ltac:(discriminate)
                    ltac:(unfold log_is_wide, max_column; simpl; lia)
                    ltac:(vm_compute; reflexivity)
                    ltac:(intros e [<-|[]] _; vm_compute; reflexivity))).
  vm_compute. reflexivity.
Defined.

(** ** The format of the opportunity identifier *)

Lemma hex_digit_is_hex_digit (n : Z) :
  (0 <= n < 16)%Z -> is_hex_digit (MD5.hex_digit n) = true.
Proof.
  intros Hn. unfold MD5.hex_digit.
  assert (Hk : Z.to_nat n < 16) by lia.
  generalize dependent (Z.to_nat n). intros k Hk.
  do 16 (destruct k as [|k]; [reflexivity|]). lia.
Qed.

Lemma hex_byte_digits (b : Z) (rest : string) :
  (0 <= b < 256)%Z ->
  exists c1 c2,
    (MD5.hex_byte b ++ rest)%string = String c1 (String c2 rest)
    /\ is_hex_digit c1 = true /\ is_hex_digit c2 = true.
Proof.
  intros Hb. exists (MD5.hex_digit (b / 16)), (MD5.hex_digit (b mod 16)).
  split; [reflexivity|]. split; apply hex_digit_is_hex_digit.
  - split; [apply Z.div_pos; lia|apply Z.div_lt_upper_bound; lia].
  - apply Z.mod_pos_bound. lia.
Qed.

Lemma hex_digit_not_continuation (c : ascii) :
  is_hex_digit c = true -> Py.is_continuation c = false.
Proof.
  unfold is_hex_digit, has_char. intros Hdigit.
  apply existsb_exists in Hdigit as (x & Hin & Heq).
  apply Ascii.eqb_eq in Heq. subst x.
  cbn [list_ascii_of_string] in Hin.
  repeat (destruct Hin as [<-|Hin]; [reflexivity|]). destruct Hin.
Qed.

Lemma take_lead (n : nat) (c : ascii) (s : string) :
  Py.is_continuation c = false ->
  Py.take (S n) (String c s) = String c (Py.take n s).
Proof. intros Hlead. cbn [Py.take]. now rewrite Hlead. Qed.

Lemma take_none (c : ascii) (s : string) :
  Py.is_continuation c = false -> Py.take 0 (String c s) = EmptyString.
Proof. intros Hlead. cbn [Py.take]. now rewrite Hlead. Qed.

(** X11. For every sender address the opportunity identifier has exactly
    eight characters, each of them one of [0123456789abcdef]; so it is
    never the empty string, for which [get_interaction_history] would
    return the history of every lead. *)
Theorem opportunity_id_is_eight_hex_digits (sender_email : string) :
  String.length (opportunity_id sender_email) = 8
  /\ forallb is_hex_digit (list_ascii_of_string (opportunity_id sender_email))
     = true
  /\ Py.truthy (opportunity_id sender_email) = true.
Proof.
  unfold opportunity_id, MD5.hexdigest.
  destruct (MD5.blocks _ _ _) as [a b c d].
  cbn [MD5.le_bytes app MD5.hex fold_right].
  assert (Hbyte : forall n, (0 <= n mod 256 < 256)%Z)
    by (intros n; apply Z.mod_pos_bound; lia).
  destruct (hex_byte_digits (a mod 256)
              (MD5.hex_byte (a / 256 mod 256)
               ++ MD5.hex_byte (a / 256 / 256 mod 256)
               ++ MD5.hex_byte (a / 256 / 256 / 256 mod 256)
               ++ MD5.hex (MD5.le_bytes 4 b ++ MD5.le_bytes 4 c
                           ++ MD5.le_bytes 4 d))%string (Hbyte _))
    as (c1 & c2 & E1 & H1 & H2).
  destruct (hex_byte_digits (a / 256 mod 256)
              (MD5.hex_byte (a / 256 / 256 mod 256)
               ++ MD5.hex_byte (a / 256 / 256 / 256 mod 256)
               ++ MD5.hex (MD5.le_bytes 4 b ++ MD5.le_bytes 4 c
                           ++ MD5.le_bytes 4 d))%string (Hbyte _))
    as (c3 & c4 & E2 & H3 & H4).
  destruct (hex_byte_digits (a / 256 / 256 mod 256)
              (MD5.hex_byte (a / 256 / 256 / 256 mod 256)
               ++ MD5.hex (MD5.le_bytes 4 b ++ MD5.le_bytes 4 c
                           ++ MD5.le_bytes 4 d))%string (Hbyte _))
    as (c5 & c6 & E3 & H5 & H6).
  destruct (hex_byte_digits (a / 256 / 256 / 256 mod 256)
              (MD5.hex (MD5.le_bytes 4 b ++ MD5.le_bytes 4 c
                        ++ MD5.le_bytes 4 d))%string (Hbyte _))
    as (c7 & c8 & E4 & H7 & H8).
  destruct (hex_byte_digits (b mod 256)
              (MD5.hex ([b / 256 mod 256; b / 256 / 256 mod 256;
                         b / 256 / 256 / 256 mod 256]%Z
                        ++ MD5.le_bytes 4 c ++ MD5.le_bytes 4 d))%string
              (Hbyte _))
    as (c9 & c10 & E5 & H9 & _).
  cbn [MD5.le_bytes app MD5.hex fold_right] in E1, E2, E3, E4, E5.
  rewrite E1, E2, E3, E4, E5.
  rewrite !take_lead, take_none by now apply hex_digit_not_continuation.
  cbn [String.length list_ascii_of_string forallb Py.truthy].
  rewrite H1, H2, H3, H4, H5, H6, H7, H8. now repeat split.
Qed.

(** ** The company of an address *)

Lemma has_char_cons (sep c : ascii) (s : string) :
  has_char sep (String c s) = false ->
  Ascii.eqb c sep = false /\ has_char sep s = false.
Proof.
  unfold has_char. cbn [list_ascii_of_string existsb].
  rewrite (Ascii.eqb_sym sep c). intros H.
  now apply orb_false_iff in H.
Qed.

Lemma split_at_first (sep : ascii) (a b : string) :
  has_char sep a = false ->
  Py.split sep (a ++ String sep b) = a :: Py.split sep b.
Proof.
  induction a as [|c a IH]; intros Hfree.
  - change (Py.split sep (String sep b) = "" :: Py.split sep b).
    cbn [Py.split]. now rewrite Ascii.eqb_refl.
  - apply has_char_cons in Hfree as [Hc Hfree].
    change (Py.split sep (String c (a ++ String sep b))
            = String c a :: Py.split sep b).
    cbn [Py.split]. now rewrite Hc, (IH Hfree).
Qed.

Lemma split_whole (sep : ascii) (a : string) :
  has_char sep a = false -> Py.split sep a = [a].
Proof.
  induction a as [|c a IH]; intros Hfree; [reflexivity|].
  apply has_char_cons in Hfree as [Hc Hfree].
  cbn [Py.split]. now rewrite Hc, (IH Hfree).
Qed.

Lemma split_head_extends (sep : ascii) (p s : string) :
  has_char sep p = false ->
  exists r tl, Py.split sep (p ++ s) = (p ++ r)%string :: tl.
Proof.
  induction p as [|c p IH]; intros Hfree.
  - change (exists r tl, Py.split sep s = r :: tl).
    pose proof (split_not_nil sep s) as Hne.
    destruct (Py.split sep s) as [|r tl]; [contradiction|]. now exists r, tl.
  - apply has_char_cons in Hfree as [Hc Hfree].
    destruct (IH Hfree) as (r & tl & E). exists r, tl.
    change (Py.split sep (String c (p ++ s)) = String c (p ++ r) :: tl).
    cbn [Py.split]. now rewrite Hc, E.
Qed.

(** X12. The company of an opportunity is the title-cased first label of
    the domain: for an address [local@label.rest], or [local@label], in
    which [local] and [label] hold no [@] and [label] holds no dot,
    [generate_opportunities] derives [label.title()], whatever follows the
    first dot. *)
Theorem company_is_first_label_of_domain (local label rest : string) :
  contains_at local = false ->
  contains_at label = false ->
  has_char "." label = false ->
  company_of (local ++ "@" ++ label ++ "." ++ rest) = Ok (Py.title label)
  /\ company_of (local ++ "@" ++ label) = Ok (Py.title label).
Proof.
  intros Hlocal Hlabel Hdot. unfold company_of. split.
  - change (local ++ "@" ++ label ++ "." ++ rest)%string
      with (local ++ String "@" (label ++ String "." rest))%string.
    rewrite (split_at_first "@" local _ Hlocal). cbn [nth_error].
    assert (Hsplit : exists r tl,
               Py.split "@" (label ++ String "." rest)
               = (label ++ String "." r)%string :: tl).
    { clear Hlocal Hdot. induction label as [|c label IH].
      - change (exists r tl,
                   Py.split "@" (String "." rest) = String "." r :: tl).
        cbn [Py.split]. change (Ascii.eqb "." "@") with false. cbv iota.
        pose proof (split_not_nil "@" rest) as Hne.
        destruct (Py.split "@" rest) as [|r tl]; [contradiction|].
        now exists r, tl.
      - apply (has_char_cons "@") in Hlabel as [Hc Hlabel].
        destruct (IH Hlabel) as (r & tl & E). exists r, tl.
        change (Py.split "@" (String c (label ++ String "." rest))
                = String c (label ++ String "." r) :: tl).
        cbn [Py.split]. now rewrite Hc, E. }
    destruct Hsplit as (r & tl & ->).
    now rewrite (split_at_first "." label r Hdot).
  - change (local ++ "@" ++ label)%string
      with (local ++ String "@" label)%string.
    rewrite (split_at_first "@" local _ Hlocal). cbn [nth_error].
    rewrite (split_whole "@" label Hlabel).
    now rewrite (split_whole "." label Hdot).
Qed.

Lemma company_is_first_label_of_domain_witness :
  company_of "ann.lee@acme-corp.co.uk" = Ok "Acme-Corp".
Proof.
  apply (proj1 (company_is_first_label_of_domain "ann.lee" "acme-corp" "co.uk"
                  eq_refl eq_refl eq_refl)).
Defined.

(** ** The weekly digest *)

Lemma next_summary_day_friday (today last_summary_day : Z) :
  next_summary_day today last_summary_day = 4%Z <-> today = 4%Z.
Proof.
  unfold next_summary_day, weekly_summary_due.
  destruct (Z.eqb_spec today 4) as [->|Hne]; cbn [andb negb].
  - destruct (Z.eqb_spec last_summary_day 4) as [->|Hlast]; cbn [negb];
      now split.
  - split; [discriminate|contradiction].
Qed.

Lemma summary_schedule_spec (days : list Z) :
  forall (last_summary_day : Z) (i : nat),
    summary_schedule last_summary_day days !! i = Some true
    <-> days !! i = Some 4%Z
        /\ match i with
           | O => last_summary_day <> 4%Z
           | S j => days !! j <> Some 4%Z
           end.
Proof.
  induction days as [|today rest IH]; intros last_summary_day i.
  - cbn [summary_schedule]. rewrite !lookup_nil. split; [discriminate|].
    now intros [H _].
  - cbn [summary_schedule]. destruct i as [|j].
    + cbn [lookup list_lookup]. unfold weekly_summary_due.
      destruct (Z.eqb_spec today 4) as [->|Hne]; cbn [andb].
      * destruct (Z.eqb_spec last_summary_day 4) as [->|Hlast]; cbn [negb].
        -- split; [discriminate|]. now intros [_ H].
        -- now split.
      * split; [discriminate|]. intros [H _]. congruence.
    + change ((weekly_summary_due today last_summary_day
               :: summary_schedule (next_summary_day today last_summary_day)
                    rest) !! S j)
        with (summary_schedule (next_summary_day today last_summary_day) rest
                !! j).
      change ((today :: rest) !! S j) with (rest !! j).
      rewrite IH. destruct j as [|k].
      * change ((today :: rest) !! 0) with (Some today).
        rewrite next_summary_day_friday.
        split; intros [Hday Hprev]; (split; [exact Hday|congruence]).
      * reflexivity.
Qed.

(** X13. The weekly digest is made in a turn of the loop exactly when the
    clock shows Friday and the turn is the first one of the run of the
    program or the turn before it did not show Friday: once for each
    unbroken sequence of Friday turns, and again after a restart on a
    Friday. *)
Theorem weekly_summary_once_per_friday (days : list Z) (i : nat) :
  summary_schedule (-1) days !! i = Some true
  <-> days !! i = Some 4%Z
      /\ match i with
         | O => True
         | S j => days !! j <> Some 4%Z
         end.
Proof.
  rewrite summary_schedule_spec. destruct i as [|j]; [|reflexivity].
  split; intros [Hday _]; (split; [exact Hday|]); [exact I|lia].
Qed.

(** ** Saving and loading a set *)

(** X14. [load_pickle] after [save_pickle] gives back the set that was
    saved, and the set that any other file holds is what it was, when the
    pickle format reads back what it wrote. *)
Theorem save_then_load_gives_the_set (lib : Library) (data : gset string)
        (filename : string) (st : State) :
  codec_round_trip lib ->
  (load_pickle lib filename (save_pickle lib data filename st).2).1 = Ok data
  /\ forall other,
       other <> filename ->
       (load_pickle lib other (save_pickle lib data filename st).2).1
       = (load_pickle lib other st).1.
Proof.
  intros Hround. rewrite save_pickle_state. unfold load_pickle.
  run_monad. split.
  - now rewrite write_pickle_same.
  - intros other Hother. now rewrite write_pickle_other by congruence.
Qed.

Lemma save_then_load_gives_the_set_witness :
  (load_pickle Reference.library "processed_emails.pkl"
     (save_pickle Reference.library {["m1"; "m2"]} "processed_emails.pkl"
                  Sample.fresh).2).1
  = Ok {["m1"; "m2"]}.
Proof.
  apply (proj1 (save_then_load_gives_the_set
                  Reference.library {["m1"; "m2"]} "processed_emails.pkl"
                  Sample.fresh reference_round_trip)).
Defined.

(** ** Running [_update_opportunities_sheet] again *)





















(** The header row is needed: on a sheet without rows the record lands in
    row 1, where the index does not look, and a second call adds it again. *)
Example update_opportunities_twice_without_header :
  length
    (_update_opportunities_sheet
       (_update_opportunities_sheet []
          [ ("74317378",
             Sample.opportunity "a@x.com" "New Lead" "2025-03-01T11:00:00Z" "") ])
       [ ("74317378",
          Sample.opportunity "a@x.com" "New Lead" "2025-03-01T11:00:00Z" "") ])
  = 2.
Proof. vm_compute. reflexivity. Qed.


(** The two opportunities of the examples on the sheet of one of them: the
    row of the other is added, with its ten cells. *)
Example update_opportunities_adds_the_new_row :
  drop 2
    (_update_opportunities_sheet Sample.master
       [ ("74317378",
          Sample.opportunity "a@x.com" "Proposal Sent" "2025-03-01T11:00:00Z" "new");
         ("60e1253f",
          Sample.opportunity "b@y.com" "New Lead" "2025-03-01T12:00:00Z" "") ])
  = [[ Some "60e1253f"; Some "Ann B."; Some "Other"; Some "b@y.com";
       Some "+1"; Some "Opportunity with Ann B."; Some "New Lead";
       Some "2025-03-01T12:00:00Z";
       Some ("=HYPERLINK(" ++ String "034" EmptyString
               ++ "https://drive/other" ++ String "034" EmptyString
               ++ ", " ++ String "034" EmptyString ++ "Open Folder"
               ++ String "034" EmptyString ++ ")")%string;
       Some "" ]].
Proof. vm_compute. reflexivity. Qed.

(** ** A message whose processing raises *)

Lemma process_messages_seen_prefix (lib : Library) (w : World)
      (seen messages : list GraphMessage.t) (acc : list EmailData.t)
      (st : State) :
  (forall m, In m seen -> GraphMessage.id m ∈ processed_emails st) ->
  process_messages lib w (seen ++ messages) acc st
  = process_messages lib w messages acc st.
Proof.
  induction seen as [|msg rest IH]; intros Hseen; [reflexivity|].
  cbn [app process_messages].
  rewrite bool_decide_eq_true_2 by (apply Hseen; now left).
  apply IH. intros m Hin. apply Hseen. now right.
Qed.

Lemma process_message_payload_raises (lib : Library) (w : World)
      (msg : GraphMessage.t) (p : ParsedData.t) (st : State) :
  classification w msg = Some p ->
  ParsedData.is_lead p = true ->
  has_schedule (Some p) = true ->
  _generate_event_fingerprint p (EmailData.sender_email (email_of_message msg))
    ∉ processed_events st ->
  is_ok (_build_event_payload lib p
           (EmailData.sender_email (email_of_message msg))
           (EmailData.sender_name (email_of_message msg))) = false ->
  exists e,
    process_message lib w msg st
    = (Raise e,
       log_event
         (EvClassify (EmailData.subject (email_of_message msg))
                     (Py.take 1500 (EmailData.body_preview (email_of_message msg))))
         st).
Proof.
  intros Hclass Hlead Hschedule Hfresh Hpayload.
  unfold classification in Hclass.
  assert (Hmeeting : ParsedData.has_meeting p = true).
  { unfold has_schedule in Hschedule.
    destruct (ParsedData.has_meeting p); [reflexivity|discriminate]. }
  destruct (_build_event_payload lib p _ _) as [payload|e] eqn:Hbuild;
    [discriminate|].
  exists e. unfold process_message, parse_email, bind, emit, modify, ret.
  rewrite Hclass, Hlead, Hmeeting.
  unfold create_event, bind, get_state, lift. rewrite Hschedule. cbn [negb].
  cbn [processed_events log_event].
  rewrite bool_decide_eq_false_2 by exact Hfresh.
  now rewrite Hbuild.
Qed.

Lemma cycle_stops_at_raising_message (lib : Library) (w : World)
      (seen rest : list GraphMessage.t) (msg : GraphMessage.t)
      (p : ParsedData.t) (st : State) :
  graph_messages w = Ok (seen ++ msg :: rest) ->
  (forall m, In m seen -> GraphMessage.id m ∈ processed_emails st) ->
  GraphMessage.id msg ∉ processed_emails st ->
  classification w msg = Some p ->
  ParsedData.is_lead p = true ->
  has_schedule (Some p) = true ->
  _generate_event_fingerprint p (EmailData.sender_email (email_of_message msg))
    ∉ processed_events st ->
  is_ok (_build_event_payload lib p
           (EmailData.sender_email (email_of_message msg))
           (EmailData.sender_name (email_of_message msg))) = false ->
  run_cycle lib w st = (Ok tt, after_classifying msg st).
Proof.
  intros Hfetch Hseen Hnew Hclass Hlead Hschedule Hfresh Hpayload.
  unfold run_cycle, bind, process_emails. rewrite Hfetch.
  rewrite process_messages_seen_prefix by exact Hseen.
  cbn [process_messages]. cbn [processed_emails log_event].
  rewrite bool_decide_eq_false_2 by exact Hnew.
  destruct (process_message_payload_raises lib w msg p
              (log_event EvGetMessages st) Hclass Hlead Hschedule Hfresh
              Hpayload) as [e ->].
  reflexivity.
Qed.

(** X17. A message blocks the ones behind it when its processing raises.
    Let the fetch return messages that are all processed already, then a new
    message that the classifier takes for a lead with a meeting whose date
    and time [_build_event_payload] cannot read, then any other messages.
    The [except] of [process_emails] ends the loop at that message: the
    cycle returns, after one request to the classifier, with both sets, both
    files and the report as they were.  So the message is not marked as
    processed, and however many times the loop runs on the same fetch,
    neither it nor any message behind it is ever processed or logged. *)
Theorem raising_message_blocks_the_batch (lib : Library) (w : World)
        (seen rest : list GraphMessage.t) (msg : GraphMessage.t)
        (p : ParsedData.t) (st : State) (n : nat) :
  graph_messages w = Ok (seen ++ msg :: rest) ->
  (forall m, In m seen -> GraphMessage.id m ∈ processed_emails st) ->
  GraphMessage.id msg ∉ processed_emails st ->
  classification w msg = Some p ->
  ParsedData.is_lead p = true ->
  has_schedule (Some p) = true ->
  _generate_event_fingerprint p (EmailData.sender_email (email_of_message msg))
    ∉ processed_events st ->
  is_ok (_build_event_payload lib p
           (EmailData.sender_email (email_of_message msg))
           (EmailData.sender_name (email_of_message msg))) = false ->
  (run_cycles lib w n st).1 = Ok tt
  /\ processed_emails (run_cycles lib w n st).2 = processed_emails st
  /\ processed_events (run_cycles lib w n st).2 = processed_events st
  /\ disk (run_cycles lib w n st).2 = disk st
  /\ report (run_cycles lib w n st).2 = report st
  /\ count_events is_calendar_post (trace (run_cycles lib w n st).2)
     = count_events is_calendar_post (trace st).
Proof.
  intros Hfetch Hseen Hnew Hclass Hlead Hschedule Hfresh Hpayload.
  revert st Hseen Hnew Hfresh.
  induction n as [|n IH]; intros st Hseen Hnew Hfresh.
  - now repeat split.
  - cbn [run_cycles]. unfold bind at 1 2 3 4 5 6.
    rewrite (cycle_stops_at_raising_message lib w seen rest msg p st)
      by assumption.
    destruct (IH (after_classifying msg st) Hseen Hnew Hfresh)
      as (Hok & Hemails & Hevents & Hdisk & Hreport & Hposts).
    split; [exact Hok|]. split; [exact Hemails|]. split; [exact Hevents|].
    split; [exact Hdisk|]. split; [exact Hreport|].
    rewrite Hposts. unfold after_classifying, log_event. cbn [trace].
    rewrite !count_events_snoc. cbn [is_calendar_post]. lia.
Qed.

Lemma raising_message_blocks_the_batch_witness :
  processed_emails
    (run_cycles Reference.library
       (vague_world
          [ Sample.message "m1" "a@x.com" "2025-02-20T09:00:00Z" "see you";
            Sample.message "m2" "b@y.com" "2025-02-19T09:00:00Z" "hello" ])
       3 Sample.fresh).2
  = processed_emails Sample.fresh.
Proof.
  apply (raising_message_blocks_the_batch
           Reference.library
           (vague_world
              [ Sample.message "m1" "a@x.com" "2025-02-20T09:00:00Z" "see you";
                Sample.message "m2" "b@y.com" "2025-02-19T09:00:00Z" "hello" ])
           []
           [Sample.message "m2" "b@y.com" "2025-02-19T09:00:00Z" "hello"]
           (Sample.message "m1" "a@x.com" "2025-02-20T09:00:00Z" "see you")
           vague_meeting Sample.fresh 3).
  - reflexivity.
  - intros m [].
  - apply not_elem_of_empty.
  - reflexivity.
  - reflexivity.
  - reflexivity.
  - apply not_elem_of_empty.
  - vm_compute. reflexivity.
Defined.

(** ** A meeting that the calendar refuses *)

Lemma process_message_refused (lib : Library) (w : World)
      (msg : GraphMessage.t) (p : ParsedData.t) (payload : EventPayload)
      (status_code : Z) (json_id : string) (st : State) :
  classification w msg = Some p ->
  ParsedData.is_lead p = true ->
  has_schedule (Some p) = true ->
  _generate_event_fingerprint p (EmailData.sender_email (email_of_message msg))
    ∉ processed_events st ->
  _build_event_payload lib p
    (EmailData.sender_email (email_of_message msg))
    (EmailData.sender_name (email_of_message msg)) = Ok payload ->
  calendar_post w (count_events is_calendar_post (trace st)) payload
  = Response status_code json_id ->
  status_code <> 201%Z ->
  process_message lib w msg st
  = (Ok (mark_lead (email_of_message msg) p None),
     set_processed_emails
       ({[GraphMessage.id msg]} ∪ processed_emails st)
       (log_event
          (EvCalendarPost payload (Response status_code json_id))
          (log_event
             (EvClassify (EmailData.subject (email_of_message msg))
                         (Py.take 1500
                            (EmailData.body_preview (email_of_message msg))))
             st))).
Proof.
  intros Hclass Hlead Hschedule Hfresh Hbuild Hanswer Hrefused.
  unfold classification in Hclass.
  assert (Hmeeting : ParsedData.has_meeting p = true).
  { unfold has_schedule in Hschedule.
    destruct (ParsedData.has_meeting p); [reflexivity|discriminate]. }
  unfold process_message, parse_email, bind, emit, modify, ret.
  rewrite Hclass, Hlead, Hmeeting.
  unfold create_event, bind, get_state, lift, emit, modify, ret.
  rewrite Hschedule. cbn [negb]. cbn [processed_events log_event trace].
  rewrite bool_decide_eq_false_2 by exact Hfresh.
  rewrite Hbuild, count_events_snoc. cbn [is_calendar_post].
  rewrite Nat.add_0_r, Hanswer.
  apply Z.eqb_neq in Hrefused. now rewrite Hrefused.
Qed.

(** X18. A meeting that the calendar refuses is not asked for again.  When
    the last message of the fetch is a new lead with a meeting and the
    calendar answers the request with a status other than 201,
    [process_emails] returns the lead without an event, marks the message
    as processed and leaves the set of processed events as it was; when the
    same messages are fetched again the message is skipped: no request goes
    to the calendar, and the lead stays without its event. *)
Theorem refused_meeting_is_not_retried (lib : Library) (w : World)
        (seen : list GraphMessage.t) (msg : GraphMessage.t)
        (p : ParsedData.t) (payload : EventPayload)
        (status_code : Z) (json_id : string) (st : State) :
  graph_messages w = Ok (seen ++ [msg]) ->
  (forall m, In m seen -> GraphMessage.id m ∈ processed_emails st) ->
  GraphMessage.id msg ∉ processed_emails st ->
  classification w msg = Some p ->
  ParsedData.is_lead p = true ->
  has_schedule (Some p) = true ->
  _generate_event_fingerprint p (EmailData.sender_email (email_of_message msg))
    ∉ processed_events st ->
  _build_event_payload lib p
    (EmailData.sender_email (email_of_message msg))
    (EmailData.sender_name (email_of_message msg)) = Ok payload ->
  calendar_post w (count_events is_calendar_post (trace st)) payload
  = Response status_code json_id ->
  status_code <> 201%Z ->
  (process_emails lib w st).1
  = Ok [mark_lead (email_of_message msg) p None]
  /\ processed_emails (process_emails lib w st).2
     = {[GraphMessage.id msg]} ∪ processed_emails st
  /\ processed_events (process_emails lib w st).2 = processed_events st
  /\ process_emails lib w (process_emails lib w st).2
     = (Ok [], log_event EvGetMessages (process_emails lib w st).2).
Proof.
  intros Hfetch Hseen Hnew Hclass Hlead Hschedule Hfresh Hbuild Hanswer
         Hrefused.
  assert (Hfirst :
            process_emails lib w st
            = (Ok [mark_lead (email_of_message msg) p None],
               (save_pickle lib
                  ({[GraphMessage.id msg]} ∪ processed_emails st)
                  "processed_emails.pkl"
                  (set_processed_emails
                     ({[GraphMessage.id msg]} ∪ processed_emails st)
                     (log_event
                        (EvCalendarPost payload (Response status_code json_id))
                        (log_event
                           (EvClassify
                              (EmailData.subject (email_of_message msg))
                              (Py.take 1500
                                 (EmailData.body_preview
                                    (email_of_message msg))))
                           (log_event EvGetMessages st))))).2)).
  { unfold process_emails. rewrite Hfetch.
    rewrite process_messages_seen_prefix by exact Hseen.
    cbn [process_messages]. cbn [processed_emails log_event].
    rewrite bool_decide_eq_false_2 by exact Hnew.
    rewrite (process_message_refused lib w msg p payload status_code json_id
               (log_event EvGetMessages st) Hclass Hlead Hschedule Hfresh
               Hbuild);
      [reflexivity| |exact Hrefused].
    cbn [trace log_event]. rewrite count_events_snoc. cbn [is_calendar_post].
    now rewrite Nat.add_0_r. }
  rewrite Hfirst. cbn [fst snd]. rewrite save_pickle_state.
  cbn [processed_emails processed_events log_event set_disk
       set_processed_emails].
  split; [reflexivity|]. split; [reflexivity|]. split; [reflexivity|].
  unfold process_emails at 1. rewrite Hfetch.
  rewrite process_messages_all_seen; [reflexivity|].
  intros m Hin. cbn [processed_emails log_event set_disk set_processed_emails].
  apply in_app_or in Hin as [Hin|[<-|[]]].
  - apply elem_of_union. right. now apply Hseen.
  - apply elem_of_union. left. now apply elem_of_singleton.
Qed.

Lemma refused_meeting_is_not_retried_witness :
  (process_emails Reference.library
     (Sample.world
        [Sample.message "m1" "a@x.com" "2025-02-20T09:00:00Z" "meet"]
        Sample.refused_once)
     Sample.fresh).1
  = Ok [mark_lead
          (email_of_message
             (Sample.message "m1" "a@x.com" "2025-02-20T09:00:00Z" "meet"))
          (Sample.lead "Meeting Scheduled" true) None].
Proof.
  refine (proj1 (refused_meeting_is_not_retried
                   Reference.library
                   (Sample.world
                      [Sample.message "m1" "a@x.com" "2025-02-20T09:00:00Z" "meet"]
                      Sample.refused_once)
                   []
                   (Sample.message "m1" "a@x.com" "2025-02-20T09:00:00Z" "meet")
                   (Sample.lead "Meeting Scheduled" true)
                   {| payload_subject := "Intro call";
                      start_dateTime := "2025-03-01T10:00:00";
                      end_dateTime := "2025-03-01T11:00:00";
                      timeZone := "Asia/Kolkata";
                      attendee_address := "a@x.com";
                      attendee_name := "Ann" |}
                   503%Z "" Sample.fresh _ _ _ _ _ _ _ _ _ _)).
  - reflexivity.
  - intros m [].
  - apply not_elem_of_empty.
  - reflexivity.
  - reflexivity.
  - reflexivity.
  - apply not_elem_of_empty.
  - vm_compute. reflexivity.
  - reflexivity.
  - discriminate.
Defined.

(** ** What [generate_opportunities] returns *)

Lemma add_opportunity_returns (w : World)
      (d d' : list (string * OpportunityData.t)) (email : EmailData.t)
      (st : State) :
  (add_opportunity w d email st).1 = Ok d' ->
  exists entry, d' = d ++ [entry] /\ record_of email entry.
Proof.
  intros Hok.
  destruct (dict_mem d (opportunity_id (EmailData.sender_email email)))
    eqn:Hmem.
  { rewrite add_opportunity_present in Hok by exact Hmem. discriminate. }
  destruct (is_ok (interaction_history
                     (report st)
                     (opportunity_id (EmailData.sender_email email))))
    eqn:Hhistory.
  - destruct (add_opportunity_absent w d email st Hmem) as (_ & Hadd & _).
    destruct (Hadd d' Hok) as [Hat _].
    destruct (add_opportunity_new w d email st Hmem Hat Hhistory)
      as (entry & Hok' & Hentry).
    exists entry. split; [congruence|exact Hentry].
  - exfalso. revert Hok. unfold add_opportunity, bind, lift.
    rewrite (is_most_recent_absent _ _ _ Hmem), Hmem. simpl.
    unfold create_folder_for_lead, get_interaction_history,
      summarize_interactions.
    run_monad.
    destruct (interaction_history (report st) _) as [history|e];
      [discriminate Hhistory|discriminate].
Qed.

Lemma generate_opportunities_from_returns (w : World)
      (emails : list EmailData.t) :
  forall d st d',
    (generate_opportunities_from w d emails st).1 = Ok d' ->
    exists new, d' = d ++ new /\ Forall2 record_of emails new.
Proof.
  induction emails as [|e rest IH]; intros d st d' Hok.
  - cbn in Hok. exists []. rewrite app_nil_r.
    split; [congruence|constructor].
  - cbn [generate_opportunities_from] in Hok. unfold bind in Hok.
    pose proof (add_opportunity_returns w d) as Hstep.
    specialize (fun d1 => Hstep d1 e st).
    destruct (add_opportunity w d e st) as [[d1|ex] st1]; [|discriminate].
    destruct (Hstep d1 eq_refl) as (entry & -> & Hentry).
    destruct (IH _ _ _ Hok) as (new & -> & Hnew).
    exists (entry :: new). rewrite <- app_assoc.
    split; [reflexivity|now constructor].
Qed.

(** X19. Whatever [generate_opportunities] returns is right for the batch:
    when it returns a dict, the dict holds one record per message, in the
    order of the batch, each under the identifier of its sender, carrying
    that identifier and the name, company, address, status and stamp of
    its message, and no two records share an identifier. *)
Theorem generate_opportunities_returns_the_batch (w : World) (st : State)
        (emails : list EmailData.t) (d : list (string * OpportunityData.t)) :
  (generate_opportunities w emails st).1 = Ok d ->
  Forall2 record_of emails d
  /\ map fst d = batch_ids emails
  /\ NoDup (map fst d).
Proof.
  intros Hok.
  destruct (generate_opportunities_from_ok w emails [] st d Hok)
    as [_ Hnodup].
  destruct (generate_opportunities_from_returns w emails [] st d Hok)
    as (new & -> & Hrecords).
  cbn [app].
  assert (Hkeys : map fst new = batch_ids emails).
  { clear Hok Hnodup. induction Hrecords as [|e entry emails new Hentry _ IH];
      [reflexivity|].
    cbn [map batch_ids]. f_equal; [|exact IH].
    now destruct Hentry as [Hkey _]. }
  split; [exact Hrecords|]. split; [exact Hkeys|]. now rewrite Hkeys.
Qed.

Lemma generate_opportunities_returns_the_batch_witness :
  NoDup
    (map fst
       (match (generate_opportunities
                 (Sample.world [] Sample.created)
                 [ Sample.email "a@x.com" "2025-03-01T10:00:00Z"
                                (Sample.lead "New Lead" true);
                   Sample.email "b@y.com" "2025-03-01T11:00:00Z"
                                (Sample.lead "Proposal Sent" false) ]
                 Sample.after_one_interaction).1 with
        | Ok d => d
        | Raise _ => []
        end)).
Proof.
  set (w := Sample.world [] Sample.created).
  set (batch := [ Sample.email "a@x.com" "2025-03-01T10:00:00Z"
                               (Sample.lead "New Lead" true);
                  Sample.email "b@y.com" "2025-03-01T11:00:00Z"
                               (Sample.lead "Proposal Sent" false) ]).
  set (d := match (generate_opportunities w batch
                     Sample.after_one_interaction).1 with
            | Ok d => d
            | Raise _ => []
            end).
  assert (Hok : (generate_opportunities w batch
                   Sample.after_one_interaction).1 = Ok d)
    by (vm_compute; reflexivity).
  exact (proj2 (proj2 (generate_opportunities_returns_the_batch
                         w Sample.after_one_interaction batch d Hok))).
Defined.
